(** * simple-openai-chat: a shallow embedding of [main.py]

    The script is a Streamlit page: on every interaction it is run from
    top to bottom against the process-wide [st.session_state].  The
    embedding follows the script block by block.

    - Python values are a small universe [pyval] (the values [json.load]
      can produce); [str] is a list of Unicode code points.
    - [json.dump] / [json.load], [str.encode], [repr] of [bytes] and
      [str.capitalize] are written out as functions on code points.
    - Exceptions are an error monad over an explicit world (session state,
      file system, log of observable effects); a mutation made before an
      exception is raised stays in the world, as in Streamlit.
    - The tokenizer and the remote completion service are interfaces.

    The definitions come first; the facts follow: the history window and
    the turn, the token count, loading, the JSON round trip, saving, the
    budget of the parser, concrete runs. *)

From Stdlib Require Import ZArith NArith List String Ascii QArith Lia.
From stdpp Require Import base gmap strings list.

Local Open Scope N_scope.

(** ** Python strings *)

(** A Python [str] is a sequence of code points; lone surrogates are
    legal members of a [str]. *)
Definition pystr := list N.

(** The ASCII literal [s] as a Python [str]. *)
Fixpoint py (s : string) : pystr :=
  match s with
  | EmptyString => []
  | String a r => N_of_ascii a :: py r
  end.

Definition is_high_surrogate (c : N) : bool := (55296 <=? c) && (c <=? 56319).
Definition is_low_surrogate (c : N) : bool := (56320 <=? c) && (c <=? 57343).
Definition is_surrogate (c : N) : bool := (55296 <=? c) && (c <=? 57343).

Arguments py : simpl never.

(** [str.startswith] *)
Fixpoint startswith (s p : pystr) : bool :=
  match p, s with
  | [], _ => true
  | _ :: _, [] => false
  | a :: p', b :: s' => (a =? b) && startswith s' p'
  end.

(** The rest of [s] after the prefix [p], when [s] starts with [p]. *)
Fixpoint strip_prefix (p s : pystr) : option pystr :=
  match p, s with
  | [], _ => Some s
  | _ :: _, [] => None
  | a :: p', b :: s' => if a =? b then strip_prefix p' s' else None
  end.

(** ** Python values and exceptions *)

(** The values that flow through the script: what [json.load] returns and
    what the script itself builds.  A [dict] keeps insertion order and has
    unique [str] keys.  A [float] is given by the text [float.__repr__]
    writes for it (["0.5"], ["1e+22"], ["inf"], ["nan"]): the script never
    computes with one, it only stores, shows, sends and dumps it. *)
#[warnings="-register-all"]
Inductive pyval : Type :=
| PNone
| PBool (b : bool)
| PInt (z : Z)
| PStr (s : pystr)
| PList (l : list pyval)
| PDict (d : list (pystr * pyval))
| PFloat (repr : pystr).

(** The exceptions the script can meet; [APIError] stands for
    [openai.APIError] and its subclasses.  [Unmodelled] is not a Python
    exception: it marks an input on which the embedding gives no verdict
    (a float literal, an integer literal of more than 4300 digits, nesting
    deeper than [max_nesting], a non-ASCII argument of [str.capitalize], a
    number above the Unicode range in a [str]).  [OutOfFuel] is the
    recursion budget of the JSON parser; [json_loads_fuel] shows that
    [json_loads] never reaches it. *)
Inductive exn : Type :=
| JSONDecodeError
| KeyError
| TypeError
| AttributeError
| IndexError
| NameError
| UnicodeEncodeError
| FileNotFoundError
| APIError
| ValueError
| RerunException
| Unmodelled
| OutOfFuel.

Inductive result (A : Type) : Type :=
| Ok (a : A)
| Raise (e : exn).
Arguments Ok {A} a.
Arguments Raise {A} e.

Definition rbind {A B} (r : result A) (k : A -> result B) : result B :=
  match r with
  | Ok a => k a
  | Raise e => Raise e
  end.

Declare Scope res_scope.
Delimit Scope res_scope with res.
Notation "'let?' x := r 'in' k" := (rbind r (fun x => k))
  (at level 10, x name, r at level 100, k at level 200) : res_scope.
Notation "'let?' ( x , y ) := r 'in' k" := (rbind r (fun p => let (x, y) := p in k))
  (at level 10, x name, y name, r at level 100, k at level 200) : res_scope.
Local Open Scope res_scope.

(** [d[k] = v] on a dict: an existing key keeps its position. *)
Fixpoint dict_set (d : list (pystr * pyval)) (k : pystr) (v : pyval) : list (pystr * pyval) :=
  match d with
  | [] => [(k, v)]
  | (k', v') :: d' => if decide (k' = k) then (k, v) :: d' else (k', v') :: dict_set d' k v
  end.

Fixpoint dict_get (d : list (pystr * pyval)) (k : pystr) : option pyval :=
  match d with
  | [] => None
  | (k', v') :: d' => if decide (k' = k) then Some v' else dict_get d' k
  end.

(** [x[key]] with a [str] key. *)
Definition subscript (x : pyval) (key : pystr) : result pyval :=
  match x with
  | PDict d => match dict_get d key with Some v => Ok v | None => Raise KeyError end
  | _ => Raise TypeError
  end.

(** [iter(x)]: the items a [for] loop over [x] visits. *)
Definition py_iter (x : pyval) : result (list pyval) :=
  match x with
  | PList l => Ok l
  | PDict d => Ok (map (fun kv => PStr (fst kv)) d)
  | PStr s => Ok (map (fun c => PStr [c]) s)
  | _ => Raise TypeError
  end.

(** [len(x)] *)
Definition py_len (x : pyval) : result nat :=
  match x with
  | PList l => Ok (length l)
  | PDict d => Ok (length d)
  | PStr s => Ok (length s)
  | _ => Raise TypeError
  end.

(** [x.append(v)] *)
Definition py_append (x v : pyval) : result pyval :=
  match x with
  | PList l => Ok (PList (l ++ [v]))
  | _ => Raise AttributeError
  end.

(** [l[start:]] on a list, for any integer [start] (Python's slice
    arithmetic: a negative start counts from the end and is clipped at 0,
    a start past the end gives the empty list). *)
Definition slice_from {A} (start : Z) (l : list A) : list A :=
  let n := Z.of_nat (length l) in
  let i := if (start <? 0)%Z then Z.max 0 (start + n) else Z.min start n in
  skipn (Z.to_nat i) l.

(** [x[start:]]; on a dict the exception depends on the interpreter's
    version. *)
Definition py_slice_from (x : pyval) (start : Z) : result pyval :=
  match x with
  | PList l => Ok (PList (slice_from start l))
  | PStr s => Ok (PStr (slice_from start s))
  | PDict _ => Raise Unmodelled
  | _ => Raise TypeError
  end.

(** ** [json.dump] (default options: [ensure_ascii], separators [", "] and [": "]) *)

Definition hexdigit (n : N) : N := if n <? 10 then 48 + n else 87 + n.

(** [\uXXXX] for a 16-bit [c], lower-case digits. *)
Definition u_escape (c : N) : pystr :=
  [92; 117; hexdigit (N.shiftr c 12 mod 16); hexdigit (N.shiftr c 8 mod 16);
   hexdigit (N.shiftr c 4 mod 16); hexdigit (c mod 16)].

Definition escape_char (c : N) : pystr :=
  if c =? 34 then [92; 34]
  else if c =? 92 then [92; 92]
  else if c =? 10 then [92; 110]
  else if c =? 13 then [92; 114]
  else if c =? 9 then [92; 116]
  else if c =? 8 then [92; 98]
  else if c =? 12 then [92; 102]
  else if (32 <=? c) && (c <=? 126) then [c]
  else if c <? 65536 then u_escape c
  else
    let v := c - 65536 in
    u_escape (N.lor 55296 (N.land (N.shiftr v 10) 1023))
    ++ u_escape (N.lor 56320 (N.land v 1023)).

Definition escape_body (s : pystr) : pystr := flat_map escape_char s.

(** [encode_basestring_ascii] *)
Definition encode_basestring_ascii (s : pystr) : pystr :=
  34 :: escape_body s ++ [34].

Fixpoint uint_codes (d : Decimal.uint) : pystr :=
  match d with
  | Decimal.Nil => []
  | Decimal.D0 r => 48 :: uint_codes r
  | Decimal.D1 r => 49 :: uint_codes r
  | Decimal.D2 r => 50 :: uint_codes r
  | Decimal.D3 r => 51 :: uint_codes r
  | Decimal.D4 r => 52 :: uint_codes r
  | Decimal.D5 r => 53 :: uint_codes r
  | Decimal.D6 r => 54 :: uint_codes r
  | Decimal.D7 r => 55 :: uint_codes r
  | Decimal.D8 r => 56 :: uint_codes r
  | Decimal.D9 r => 57 :: uint_codes r
  end.

(** [int.__repr__] *)
Definition int_repr (z : Z) : pystr :=
  match Z.to_int z with
  | Decimal.Pos d => uint_codes d
  | Decimal.Neg d => 45 :: uint_codes d
  end.

(** [sep.join(parts)] *)
Fixpoint join (sep : pystr) (parts : list pystr) : pystr :=
  match parts with
  | [] => []
  | [p] => p
  | p :: ps => p ++ sep ++ join sep ps
  end.

(** What the encoder writes for a float ([allow_nan] is on by default). *)
Definition float_json (repr : pystr) : pystr :=
  if decide (repr = py "nan") then py "NaN"
  else if decide (repr = py "inf") then py "Infinity"
  else if decide (repr = py "-inf") then py "-Infinity"
  else repr.

Fixpoint json_dumps (v : pyval) : pystr :=
  match v with
  | PNone => py "null"
  | PBool true => py "true"
  | PBool false => py "false"
  | PInt z => int_repr z
  | PStr s => encode_basestring_ascii s
  | PList l => 91 :: join (py ", ") (map json_dumps l) ++ [93]
  | PDict d =>
      123 :: join (py ", ")
               (map (fun kv => encode_basestring_ascii (fst kv) ++ py ": " ++ json_dumps (snd kv)) d)
          ++ [125]
  | PFloat r => float_json r
  end.

(** ** [json.load] (the C scanner, [strict=True]) *)

Definition hexval (c : N) : option N :=
  if (48 <=? c) && (c <=? 57) then Some (c - 48)
  else if (97 <=? c) && (c <=? 102) then Some (c - 87)
  else if (65 <=? c) && (c <=? 70) then Some (c - 55)
  else None.

Definition hex4 (a b c d : N) : option N :=
  match hexval a, hexval b, hexval c, hexval d with
  | Some x, Some y, Some z, Some w => Some (((x * 16 + y) * 16 + z) * 16 + w)
  | _, _, _, _ => None
  end.

Definition unescape (e : N) : option N :=
  if e =? 34 then Some 34
  else if e =? 92 then Some 92
  else if e =? 47 then Some 47
  else if e =? 98 then Some 8
  else if e =? 102 then Some 12
  else if e =? 110 then Some 10
  else if e =? 114 then Some 13
  else if e =? 116 then Some 9
  else None.

Definition join_surrogates (hi lo : N) : N :=
  65536 + N.lor (N.shiftl (N.land hi 1023) 10) (N.land lo 1023).

Definition rcons (c : N) (r : result (pystr * pystr)) : result (pystr * pystr) :=
  let? (s, rest) := r in Ok (c :: s, rest).

(** [scanstring]: [s] starts just after the opening quote; the result is
    the decoded string and the input after the closing quote.  A [\u]
    escape of a high surrogate directly followed by a [\u] escape of a low
    surrogate decodes to one code point. *)
Fixpoint scanstring (s : pystr) : result (pystr * pystr) :=
  match s with
  | [] => Raise JSONDecodeError
  | c :: r =>
      if c =? 34 then Ok ([], r)
      else if c =? 92 then
        match r with
        | [] => Raise JSONDecodeError
        | e :: r1 =>
            if e =? 117 then
              match r1 with
              | h1 :: h2 :: h3 :: h4 :: r2 =>
                  match hex4 h1 h2 h3 h4 with
                  | None => Raise JSONDecodeError
                  | Some u =>
                      if is_high_surrogate u then
                        match r2 with
                        | b :: u' :: l1 :: l2 :: l3 :: l4 :: r3 =>
                            if (b =? 92) && (u' =? 117) then
                              match hex4 l1 l2 l3 l4 with
                              | None => Raise JSONDecodeError
                              | Some w =>
                                  if is_low_surrogate w
                                  then rcons (join_surrogates u w) (scanstring r3)
                                  else rcons u (scanstring r2)
                              end
                            else rcons u (scanstring r2)
                        | _ => rcons u (scanstring r2)
                        end
                      else rcons u (scanstring r2)
                  end
              | _ => Raise JSONDecodeError
              end
            else
              match unescape e with
              | Some c' => rcons c' (scanstring r1)
              | None => Raise JSONDecodeError
              end
        end
      else if c <? 32 then Raise JSONDecodeError
      else rcons c (scanstring r)
  end.

Definition is_ws (c : N) : bool := (c =? 32) || (c =? 9) || (c =? 10) || (c =? 13).

Fixpoint skip_ws (s : pystr) : pystr :=
  match s with
  | c :: r => if is_ws c then skip_ws r else s
  | [] => []
  end.

Definition is_digit (c : N) : bool := (48 <=? c) && (c <=? 57).

Fixpoint span_digits (s : pystr) : pystr * pystr :=
  match s with
  | c :: r => if is_digit c then let '(ds, rest) := span_digits r in (c :: ds, rest) else ([], s)
  | [] => ([], [])
  end.

Definition digits_value (ds : pystr) : N :=
  fold_left (fun acc d => 10 * acc + (d - 48)) ds 0.

(** Does a fraction or an exponent follow the integer part? *)
Definition float_follows (rest : pystr) : bool :=
  match rest with
  | c :: d :: rest' =>
      if c =? 46 then is_digit d
      else if (c =? 101) || (c =? 69) then
        if (d =? 43) || (d =? 45)
        then match rest' with d' :: _ => is_digit d' | [] => false end
        else is_digit d
      else false
  | _ => false
  end.

Definition max_int_digits : nat := 4300.

(** [_match_number]: only integer literals are modelled. *)
Definition match_number (s : pystr) : result (pyval * pystr) :=
  let '(neg, s1) :=
    match s with
    | c :: r => if c =? 45 then (true, r) else (false, s)
    | [] => (false, s)
    end in
  match s1 with
  | [] => Raise JSONDecodeError
  | d :: r =>
      let scanned :=
        if d =? 48 then Some ([d], r)
        else if is_digit d then let '(ds, rest) := span_digits r in Some (d :: ds, rest)
        else None in
      match scanned with
      | None => Raise JSONDecodeError
      | Some (ds, rest) =>
          if float_follows rest then Raise Unmodelled
          else if Nat.ltb max_int_digits (length ds) then Raise Unmodelled
          else
            let n := Z.of_N (digits_value ds) in
            Ok (PInt (if neg : bool then (- n)%Z else n), rest)
      end
  end.

(** Nesting the embedding follows; CPython raises [RecursionError] at an
    interpreter-dependent depth far above it. *)
Definition max_nesting : nat := 100.

Definition expect_literal (lit : pystr) (v : result pyval) (s : pystr) : result (pyval * pystr) :=
  match strip_prefix lit s with
  | Some rest => let? x := v in Ok (x, rest)
  | None => Raise JSONDecodeError
  end.

(** [scan_once] with its two loops, [_parse_array] and [_parse_object].
    [elems] and [members] start at the first character of an item. *)
Fixpoint scan_once (fuel depth : nat) (s : pystr) {struct fuel} : result (pyval * pystr) :=
  match fuel with
  | O => Raise OutOfFuel
  | S f =>
      match s with
      | [] => Raise JSONDecodeError
      | c :: r =>
          if c =? 34 then let? (str, rest) := scanstring r in Ok (PStr str, rest)
          else if c =? 123 then
            match depth with
            | O => Raise Unmodelled
            | S d =>
                match skip_ws r with
                | c' :: r' =>
                    if c' =? 125 then Ok (PDict [], r')
                    else let? (kvs, rest) := members f d (skip_ws r) in
                         Ok (PDict (fold_left (fun acc kv => dict_set acc (fst kv) (snd kv)) kvs []), rest)
                | [] => Raise JSONDecodeError
                end
            end
          else if c =? 91 then
            match depth with
            | O => Raise Unmodelled
            | S d =>
                match skip_ws r with
                | c' :: r' =>
                    if c' =? 93 then Ok (PList [], r')
                    else let? (vs, rest) := elems f d (skip_ws r) in Ok (PList vs, rest)
                | [] => Raise JSONDecodeError
                end
            end
          else if c =? 110 then expect_literal (py "null") (Ok PNone) s
          else if c =? 116 then expect_literal (py "true") (Ok (PBool true)) s
          else if c =? 102 then expect_literal (py "false") (Ok (PBool false)) s
          else if c =? 78 then expect_literal (py "NaN") (Raise Unmodelled) s
          else if c =? 73 then expect_literal (py "Infinity") (Raise Unmodelled) s
          else if startswith s (py "-Infinity") then Raise Unmodelled
          else match_number s
      end
  end
with elems (fuel depth : nat) (s : pystr) {struct fuel} : result (list pyval * pystr) :=
  match fuel with
  | O => Raise OutOfFuel
  | S f =>
      let? (v, r) := scan_once f depth s in
      match skip_ws r with
      | c :: r' =>
          if c =? 93 then Ok ([v], r')
          else if c =? 44 then
            let? (vs, rest) := elems f depth (skip_ws r') in Ok (v :: vs, rest)
          else Raise JSONDecodeError
      | [] => Raise JSONDecodeError
      end
  end
with members (fuel depth : nat) (s : pystr) {struct fuel} : result (list (pystr * pyval) * pystr) :=
  match fuel with
  | O => Raise OutOfFuel
  | S f =>
      match s with
      | q :: r0 =>
          if q =? 34 then
            let? (k, r1) := scanstring r0 in
            match skip_ws r1 with
            | colon :: r2 =>
                if colon =? 58 then
                  let? (v, r3) := scan_once f depth (skip_ws r2) in
                  match skip_ws r3 with
                  | c :: r' =>
                      if c =? 125 then Ok ([(k, v)], r')
                      else if c =? 44 then
                        let? (kvs, rest) := members f depth (skip_ws r') in Ok ((k, v) :: kvs, rest)
                      else Raise JSONDecodeError
                  | [] => Raise JSONDecodeError
                  end
                else Raise JSONDecodeError
            | [] => Raise JSONDecodeError
            end
          else Raise JSONDecodeError
      | [] => Raise JSONDecodeError
      end
  end.

(** [json.loads]: one value between optional white space, nothing after. *)
Definition json_loads (s : pystr) : result pyval :=
  let? (v, rest) := scan_once (2 * length s + 2) max_nesting (skip_ws s) in
  match skip_ws rest with
  | [] => Ok v
  | _ :: _ => Raise JSONDecodeError
  end.


(** ** [str.encode], [repr] of [bytes], [str.capitalize] *)

(** UTF-8 of one code point; [bytes] are lists of numbers below 256.
    The codec is strict: a surrogate cannot be encoded. *)
Definition utf8_char (c : N) : result (list N) :=
  if c <? 128 then Ok [c]
  else if c <? 2048 then Ok [192 + c / 64; 128 + c mod 64]
  else if is_surrogate c then Raise UnicodeEncodeError
  else if c <? 65536 then Ok [224 + c / 4096; 128 + (c / 64) mod 64; 128 + c mod 64]
  else if c <=? 1114111 then
    Ok [240 + c / 262144; 128 + (c / 4096) mod 64; 128 + (c / 64) mod 64; 128 + c mod 64]
  else Raise Unmodelled.

Fixpoint str_encode (s : pystr) : result (list N) :=
  match s with
  | [] => Ok []
  | c :: r =>
      let? b := utf8_char c in
      let? bs := str_encode r in
      Ok (b ++ bs)
  end.

Definition repr_byte (quote c : N) : pystr :=
  if (c =? quote) || (c =? 92) then [92; c]
  else if c =? 9 then [92; 116]
  else if c =? 10 then [92; 110]
  else if c =? 13 then [92; 114]
  else if (c <? 32) || (127 <=? c) then [92; 120; hexdigit (c / 16); hexdigit (c mod 16)]
  else [c].

(** [repr(b)]: [b'...'], or [b"..."] when the bytes hold an apostrophe and
    no double quote. *)
Definition bytes_repr (b : list N) : pystr :=
  let quote := if existsb (N.eqb 39) b && negb (existsb (N.eqb 34) b) then 34 else 39 in
  98 :: quote :: flat_map (repr_byte quote) b ++ [quote].

Definition ascii_upper (c : N) : N := if (97 <=? c) && (c <=? 122) then c - 32 else c.
Definition ascii_lower (c : N) : N := if (65 <=? c) && (c <=? 90) then c + 32 else c.

(** [s.capitalize()], on ASCII strings. *)
Definition capitalize (s : pystr) : result pystr :=
  if forallb (fun c => c <? 128) s then
    Ok match s with
       | [] => []
       | c :: r => ascii_upper c :: map ascii_lower r
       end
  else Raise Unmodelled.

(** ** The external collaborators *)

(** [tiktoken]: [encoding_for_model] then [Encoding.encode]. *)
Class Tokenizer : Type := {
  encoding : Type;
  encoding_for_model : pystr -> result encoding;
  encode : encoding -> pystr -> result (list N);
}.

(** A keyword argument of the completion call. *)
Inductive param : Type :=
| ParamVal (v : pyval)
| ParamFloat (q : Q).

(** What iterating a streamed response yields: chunks, each with the
    [delta.content] of its choices, until the stream ends or breaks. *)
Inductive stream : Type :=
| SEnd
| SChunk (choices : list (option pystr)) (rest : stream)
| SError (e : exn).

(** The remote service behind [client.chat.completions.create], reached
    with the client's key: the call without [stream] answers with the
    [message.content] of its choices or raises; the call with
    [stream=True] answers with a stream. *)
Class Service : Type := {
  create : pystr -> gmap string param -> result (list (option pystr));
  create_stream : pystr -> gmap string param -> stream;
}.

(** *** The client library under [create]

    Line 118 builds the client as [OpenAI(api_key=...)] and names no
    [max_retries], so a call of [create] sends its request as the SDK does
    by default ([DEFAULT_MAX_RETRIES], [_request] and [_should_retry] of
    the SDK's base client): a request that meets no response, or an error
    status the SDK deems transient, is sent again while retries remain. *)

(** What one HTTP request of a call meets: an answer; no response (a
    timeout, a connection error); or an error status, with the value of
    the [x-should-retry] header when the response carries one. *)
Inductive attempt (A : Type) : Type :=
| Answered (a : A)
| NoResponse
| ErrorStatus (code : Z) (x_should_retry : option bool).
Arguments Answered {A} a.
Arguments NoResponse {A}.
Arguments ErrorStatus {A} code x_should_retry.

Definition DEFAULT_MAX_RETRIES : nat := 2.

(** [_should_retry] *)
Definition should_retry (code : Z) (x_should_retry : option bool) : bool :=
  match x_should_retry with
  | Some b => b
  | None => (code =? 408)%Z || (code =? 409)%Z || (code =? 429)%Z || (500 <=? code)%Z
  end.

(** [_request]: the request number [sent] of a call (from 0) with
    [remaining] retries left.  The result is the outcome of the call and
    the number of requests it has sent. *)
Fixpoint sdk_request {A} (attempts : nat -> attempt A) (remaining sent : nat)
  : result A * nat :=
  match attempts sent with
  | Answered a => (Ok a, S sent)
  | NoResponse =>
      match remaining with
      | S r => sdk_request attempts r (S sent)
      | O => (Raise APIError, S sent)
      end
  | ErrorStatus code x_should_retry =>
      match remaining with
      | S r =>
          if should_retry code x_should_retry then sdk_request attempts r (S sent)
          else (Raise APIError, S sent)
      | O => (Raise APIError, S sent)
      end
  end.

(** The network under the client: what each request of a call meets. *)
Class Transport : Type := {
  post : pystr -> gmap string param -> nat -> attempt (list (option pystr));
  post_stream : pystr -> gmap string param -> nat -> attempt stream;
}.

(** The service a client built with the SDK's defaults gives over a
    transport, and the number of requests one call of [create] sends. *)
Definition client_service (t : Transport) : Service := {|
  create k params := fst (sdk_request (post k params) DEFAULT_MAX_RETRIES 0);
  create_stream k params :=
    match fst (sdk_request (post_stream k params) DEFAULT_MAX_RETRIES 0) with
    | Ok s => s
    | Raise e => SError e
    end;
|}.

Definition requests_sent (t : Transport) (k : pystr) (params : gmap string param) : nat :=
  match params !! "stream" with
  | Some _ => snd (sdk_request (post_stream k params) DEFAULT_MAX_RETRIES 0)
  | None => snd (sdk_request (post k params) DEFAULT_MAX_RETRIES 0)
  end.

(** [json.load] on the content of a file: the value it decodes, or the
    exception it raises.  What is proved for every decoder holds whatever
    [json.load] does with an artifact; [python_json] is CPython's decoder
    on the part of JSON the embedding covers. *)
Class Decoder : Type := {
  json_load : pystr -> result pyval;
}.

Definition python_json : Decoder := {| json_load := json_loads |}.

(** ** Session state and the world of one script run *)

(** [st.session_state].  [messages] holds whatever was assigned to it;
    [temperature] is only passed on, as a rational. *)

Record session_state : Type := {
  messages : pyval;
  token_count : Z;
  api_key : pystr;
  model : pystr;
  temperature : Q;
  max_tokens : Z;
  history_window : Z;
}.

Definition set_messages (v : pyval) (ss : session_state) : session_state :=
  {| messages := v; token_count := token_count ss; api_key := api_key ss; model := model ss;
     temperature := temperature ss; max_tokens := max_tokens ss;
     history_window := history_window ss |}.

Definition set_token_count (n : Z) (ss : session_state) : session_state :=
  {| messages := messages ss; token_count := n; api_key := api_key ss; model := model ss;
     temperature := temperature ss; max_tokens := max_tokens ss;
     history_window := history_window ss |}.

(** Lines 47-60: the defaults of a fresh session; [env_key] is
    [OPENAI_API_KEY] of the environment, if set. *)
Definition initial_session (env_key : option pystr) : session_state :=
  {| messages := PList []; token_count := 0;
     api_key := match env_key with Some k => k | None => [] end;
     model := py "gpt-4o-mini"; temperature := 1 # 10; max_tokens := 4096;
     history_window := 10 |}.

(** What a run shows or sends, in order. *)
Inductive event : Type :=
| SidebarWarning
| Title (m : pystr)
| ChatMessage (name : pystr)
| Markdown (body : pyval)
| Spinner
| Request (key : pystr) (params : gmap string param)
| SidebarTotals (n : nat) (tokens : Z)
| SavedAs (json_filename md_filename : pystr)
| LoadedSuccessfully.

Record world : Type := {
  ss : session_state;
  fs : gmap pystr pystr;
  log : list event;
}.

Definition M (A : Type) : Type := world -> result A * world.

Definition mret {A} (a : A) : M A := fun w => (Ok a, w).
Definition mbind {A B} (c : M A) (k : A -> M B) : M B :=
  fun w => match c w with
           | (Ok a, w') => k a w'
           | (Raise e, w') => (Raise e, w')
           end.
Definition raise {A} (e : exn) : M A := fun w => (Raise e, w).
Definition lift {A} (r : result A) : M A := fun w => (r, w).
Definition get_ss : M session_state := fun w => (Ok (ss w), w).
Definition modify_ss (f : session_state -> session_state) : M unit :=
  fun w => (Ok tt, {| ss := f (ss w); fs := fs w; log := log w |}).
Definition emit (e : event) : M unit :=
  fun w => (Ok tt, {| ss := ss w; fs := fs w; log := log w ++ [e] |}).
Definition write_file (name content : pystr) : M unit :=
  fun w => (Ok tt, {| ss := ss w; fs := <[name := content]> (fs w); log := log w |}).
Definition read_file (name : pystr) : M pystr :=
  fun w => (match fs w !! name with Some c => Ok c | None => Raise FileNotFoundError end, w).

Declare Scope m_scope.
Delimit Scope m_scope with M.
Notation "'let!' x := c 'in' k" := (mbind c (fun x => k))
  (at level 10, x name, c at level 100, k at level 200) : m_scope.
Notation "c ;; k" := (mbind c (fun _ => k))
  (at level 100, k at level 200, right associativity) : m_scope.
Local Open Scope m_scope.

Definition when (b : bool) (c : M unit) : M unit := if b then c else mret tt.

(** [for x in xs: body(x)] *)
Fixpoint mfor {A} (xs : list A) (body : A -> M unit) : M unit :=
  match xs with
  | [] => mret tt
  | x :: r => body x ;; mfor r body
  end.

Definition key_role : pystr := py "role".
Definition key_content : pystr := py "content".

(** [{"role": r, "content": c}] *)
Definition message_dict (r c : pyval) : pyval := PDict [(key_role, r); (key_content, c)].

(** A [Message] of the data model and its dict. *)
Record Message : Type := { role : pystr; content : pystr }.
Definition msg (m : Message) : pyval := message_dict (PStr (role m)) (PStr (content m)).
Definition msgs (ms : list Message) : pyval := PList (map msg ms).

Definition as_str (v : pyval) : result pystr :=
  match v with
  | PStr s => Ok s
  | _ => Raise AttributeError
  end.

(** [[f(x) for x in xs]], stopping at the first exception. *)
Fixpoint rmap {A B} (f : A -> result B) (xs : list A) : result (list B) :=
  match xs with
  | [] => Ok []
  | x :: r =>
      let? y := f x in
      let? ys := rmap f r in
      Ok (y :: ys)
  end.

Definition append_file (name text : pystr) : M unit :=
  fun w =>
    let old := match fs w !! name with Some c => c | None => [] end in
    (Ok tt, {| ss := ss w; fs := <[name := old ++ text]> (fs w); log := log w |}).

(** What the sidebar widgets and the page return in one run
    ([uploaded_file] is the content of the uploaded artifact), and the clock
    reading as [strftime] formats it. *)
Record widgets : Type := {
  in_api_key : pystr;
  in_model : pystr;
  in_temperature : Q;
  in_max_tokens : Z;
  in_history_window : Z;
  chat_input : option pystr;
  save_clicked : bool;
  uploaded_file : option pystr;
  reset_clicked : bool;
  timestamp : pystr;
}.

Definition available_models : list pystr :=
  [py "gpt-4o-mini"; py "gpt-4o"; py "o1-mini"; py "o1-preview"].

(** The ranges the widgets enforce on what they return. *)
Definition widgets_ok (w : widgets) : Prop :=
  In (in_model w) available_models
  /\ (1 <= in_history_window w <= 20)%Z
  /\ (100 <= in_max_tokens w <= 4096)%Z
  /\ (0 <= in_temperature w <= 1)%Q.

(** What a stream delivers: the text of each chunk (its first choice, an
    absent content read as the empty string), or the exception that ends
    the iteration. *)
Fixpoint fragments (s : stream) : result (list pystr) :=
  match s with
  | SEnd => Ok []
  | SError e => Raise e
  | SChunk [] _ => Raise IndexError
  | SChunk (Some t :: _) rest => let? ts := fragments rest in Ok (t :: ts)
  | SChunk (None :: _) rest => let? ts := fragments rest in Ok ([] :: ts)
  end.

(** ** The script *)

Section Script.
Context {tok : Tokenizer} {svc : Service} {dec : Decoder}.

(** Lines 14-16.  [default_model] is the default of the [model]
    parameter; both call sites leave the parameter out. *)
Definition default_model : pystr := py "gpt-4".

Definition count_tokens (text : pyval) (model : pystr) : result Z :=
  let? enc := encoding_for_model model in
  match text with
  | PStr s => let? toks := encode enc s in Ok (Z.of_nat (length toks))
  | _ => Raise TypeError
  end.

(** [sum(count_tokens(m["content"]) for m in items)] *)
Fixpoint sum_tokens (items : list pyval) : result Z :=
  match items with
  | [] => Ok 0%Z
  | m :: r =>
      let? c := subscript m key_content in
      let? n := count_tokens c default_model in
      let? rest := sum_tokens r in
      Ok (n + rest)%Z
  end.

Definition total_tokens (v : pyval) : result Z :=
  let? items := py_iter v in sum_tokens items.

(** Line 32: one block of the Markdown file. *)
Definition markdown_line (message : pyval) : result pystr :=
  let? r := subscript message key_role in
  let? r := as_str r in
  let? cap := capitalize r in
  let? c := subscript message key_content in
  let? c := as_str c in
  let? b := str_encode c in
  Ok (py "**" ++ cap ++ py ":** " ++ bytes_repr b ++ [10; 10]).

Definition json_filename (timestamp : pystr) : pystr :=
  py "chat_history_" ++ timestamp ++ py ".json".
Definition md_filename (timestamp : pystr) : pystr :=
  py "chat_history_" ++ timestamp ++ py ".md".

(** Lines 31-32: the loop that writes the Markdown file. *)
Definition md_loop (timestamp : pystr) (items : list pyval) : M unit :=
  mfor items (fun message =>
    let! line := lift (markdown_line message) in
    append_file (md_filename timestamp) line).

(** Lines 20-34. *)
Definition save_chat_history (timestamp : pystr) : M (pystr * pystr) :=
  let! s := get_ss in
  write_file (json_filename timestamp) (json_dumps (messages s)) ;;
  write_file (md_filename timestamp) [] ;;
  let! items := lift (py_iter (messages s)) in
  md_loop timestamp items ;;
  mret (json_filename timestamp, md_filename timestamp).

(** Lines 38-41. *)
Definition load_chat_history (filename : pystr) : M pyval :=
  let! text := read_file filename in
  lift (json_load text).

(** Lines 68-112: the session takes what the widgets return;
    [available_models.index] raises on a model that is not listed. *)
Definition sidebar (w : widgets) : M unit :=
  modify_ss (fun s =>
    {| messages := messages s; token_count := token_count s; api_key := in_api_key w;
       model := model s; temperature := temperature s; max_tokens := max_tokens s;
       history_window := history_window s |}) ;;
  let! s := get_ss in
  (if decide (In (model s) available_models) then mret tt else raise ValueError) ;;
  modify_ss (fun s =>
    {| messages := messages s; token_count := token_count s; api_key := api_key s;
       model := in_model w; temperature := in_temperature w; max_tokens := in_max_tokens w;
       history_window := in_history_window w |}).

(** Lines 117-120: [client] is bound only under a non-empty key. *)
Definition make_client : M (option pystr) :=
  let! s := get_ss in
  match api_key s with
  | [] => emit SidebarWarning ;; mret None
  | _ :: _ => mret (Some (api_key s))
  end.

(** Evaluating the name [client]. *)
Definition the_client (client : option pystr) : M pystr :=
  match client with
  | Some k => mret k
  | None => raise NameError
  end.

(** [st.chat_message(name)] *)
Definition chat_name (r : pyval) : result pystr :=
  match r with
  | PStr s => Ok s
  | _ => Raise Unmodelled
  end.

(** Lines 128-130. *)
Definition render_history : M unit :=
  let! s := get_ss in
  let! items := lift (py_iter (messages s)) in
  mfor items (fun message =>
    let! r := lift (subscript message key_role) in
    let! name := lift (chat_name r) in
    emit (ChatMessage name) ;;
    let! c := lift (subscript message key_content) in
    emit (Markdown c)).

(** Lines 148-151: the window of the history, each message rebuilt from
    its role and content. *)
Definition request_messages (s : session_state) : result pyval :=
  let? window := py_slice_from (messages s) (- history_window s) in
  let? items := py_iter window in
  let? ds := rmap (fun m =>
               let? r := subscript m key_role in
               let? c := subscript m key_content in
               Ok (message_dict r c)) items in
  Ok (PList ds).

(** Lines 146-152. *)
Definition completion_params (s : session_state) : result (gmap string param) :=
  let? ms := request_messages s in
  Ok (<["messages" := ParamVal ms]> {["model" := ParamVal (PStr (model s))]}).

(** Lines 163-167: [completion_params.update(...)]. *)
Definition streaming_params (s : session_state) (params : gmap string param)
  : gmap string param :=
  <["max_tokens" := ParamVal (PInt (max_tokens s))]>
    (<["temperature" := ParamFloat (temperature s)]>
       (<["stream" := ParamVal (PBool true)]> params)).

(** [x.choices[0]] *)
Definition first_choice {A} (choices : list A) : result A :=
  match choices with
  | c :: _ => Ok c
  | [] => Raise IndexError
  end.

Definition cursor : pystr := [9612].

(** Lines 168-170: the loop over the streamed chunks, threading
    [full_response]. *)
Fixpoint consume (s : stream) (full_response : pystr) : M pystr :=
  match s with
  | SEnd => mret full_response
  | SError e => raise e
  | SChunk choices rest =>
      let! delta := lift (first_choice choices) in
      let full_response := full_response ++ match delta with Some t => t | None => [] end in
      emit (Markdown (PStr (full_response ++ cursor))) ;;
      consume rest full_response
  end.

Definition append_message (m : pyval) : M unit :=
  let! s := get_ss in
  let! l := lift (py_append (messages s) m) in
  modify_ss (set_messages l).

Definition recount : M unit :=
  let! s := get_ss in
  let! n := lift (total_tokens (messages s)) in
  modify_ss (set_token_count n).

(** Lines 141-171: the reply to the history as it stands. *)
Definition assistant_reply (client : option pystr) : M pyval :=
  emit (ChatMessage (py "assistant")) ;;
  let! s := get_ss in
  let! params := lift (completion_params s) in
  if startswith (model s) (py "o1") then
    emit Spinner ;;
    let! c := the_client client in
    emit (Request c params) ;;
    let! choices := lift (create c params) in
    let! content := lift (first_choice choices) in
    let full_response := match content with Some t => PStr t | None => PNone end in
    emit (Markdown full_response) ;;
    mret full_response
  else
    let params := streaming_params s params in
    let! c := the_client client in
    emit (Request c params) ;;
    let! full_response := consume (create_stream c params) [] in
    emit (Markdown (PStr full_response)) ;;
    mret (PStr full_response).

(** Lines 133-174, for a submitted [prompt]. *)
Definition chat_turn (client : option pystr) (prompt : pystr) : M unit :=
  append_message (message_dict (PStr (py "user")) (PStr prompt)) ;;
  emit (ChatMessage (py "user")) ;;
  emit (Markdown (PStr prompt)) ;;
  let! full_response := assistant_reply client in
  append_message (message_dict (PStr (py "assistant")) full_response) ;;
  recount.

(** Lines 181-182. *)
Definition sidebar_totals : M unit :=
  let! s := get_ss in
  let! n := lift (py_len (messages s)) in
  emit (SidebarTotals n (token_count s)).

(** Lines 191-196; [st.rerun()] leaves the run by an exception. *)
Definition load_uploaded (text : pystr) : M unit :=
  let! loaded_messages := lift (json_load text) in
  modify_ss (set_messages loaded_messages) ;;
  recount ;;
  emit LoadedSuccessfully ;;
  raise RerunException.

(** Lines 199-202. *)
Definition reset_conversation : M unit :=
  modify_ss (set_messages (PList [])) ;;
  modify_ss (set_token_count 0) ;;
  raise RerunException.

(** One run of the script, after the defaults of lines 47-60. *)
Definition main (w : widgets) : M unit :=
  sidebar w ;;
  let! client := make_client in
  (let! s := get_ss in emit (Title (model s))) ;;
  render_history ;;
  match chat_input w with
  | Some (c :: p) => chat_turn client (c :: p)
  | _ => mret tt
  end ;;
  sidebar_totals ;;
  when (save_clicked w)
    (let! names := save_chat_history (timestamp w) in
     emit (SavedAs (fst names) (snd names))) ;;
  match uploaded_file w with
  | Some text => load_uploaded text
  | None => mret tt
  end ;;
  when (reset_clicked w) reset_conversation.

(** The keyword arguments of the call a reply makes. *)
Definition call_params (s : session_state) (params : gmap string param) : gmap string param :=
  if startswith (model s) (py "o1") then params else streaming_params s params.

(** What a reply returns, from what the service answers. *)
Definition reply_result (k : pystr) (s : session_state) (params : gmap string param)
  : result pyval :=
  if startswith (model s) (py "o1") then
    let? choices := create k params in
    let? content := first_choice choices in
    Ok (match content with Some t => PStr t | None => PNone end)
  else
    let? ts := fragments (create_stream k (streaming_params s params)) in
    Ok (PStr (concat ts)).

(** The total as the specification words it: every content counted
    under [model]. *)
Fixpoint spec_sum_tokens (model : pystr) (items : list pyval) : result Z :=
  match items with
  | [] => Ok 0%Z
  | m :: r =>
      let? c := subscript m key_content in
      let? n := count_tokens c model in
      let? rest := spec_sum_tokens model r in
      Ok (n + rest)%Z
  end.

Definition spec_token_total (model : pystr) (v : pyval) : result Z :=
  let? items := py_iter v in spec_sum_tokens model items.

Definition user_dict (prompt : pystr) : pyval := message_dict (PStr (py "user")) (PStr prompt).
Definition assistant_dict (full_response : pyval) : pyval :=
  message_dict (PStr (py "assistant")) full_response.

(** The session once line 135 has appended the prompt to the history [l]. *)
Definition prompted (prompt : pystr) (l : list pyval) (s : session_state) : session_state :=
  set_messages (PList (l ++ [user_dict prompt])) s.

(** The world when the reply starts (after line 138). *)
Definition after_prompt (prompt : pystr) (l : list pyval) (w : world) : world :=
  {| ss := prompted prompt l (ss w); fs := fs w;
     log := log w ++ [ChatMessage (py "user"); Markdown (PStr prompt)] |}.

End Script.

(** ** Concrete collaborators, for running the script *)

Fixpoint every_other (s : pystr) : list N :=
  match s with
  | a :: _ :: r => a :: every_other r
  | [a] => [a]
  | [] => []
  end.

(** A stand-in tokenizer with two encodings: one token per code point for
    ["gpt-4"], one per two code points for the models of the selection
    box; any other model name is unknown. *)
Definition toy_tokenizer : Tokenizer := {|
  encoding := bool;
  encoding_for_model m :=
    if decide (m = py "gpt-4") then Ok true
    else if decide (In m available_models) then Ok false
    else Raise KeyError;
  encode enc s := Ok (if enc then s else every_other s);
|}.

(** A service that answers every call the same way. *)
Definition scripted_service (batch : result (list (option pystr))) (chunks : stream) : Service := {|
  create _ _ := batch;
  create_stream _ _ := chunks;
|}.

(** The literal [s] with every apostrophe read as a double quote. *)
Definition pyq (s : string) : pystr := map (fun c => if c =? 39 then 34 else c) (py s).

Definition submit (key model prompt : pystr) (window : Z) : widgets := {|
  in_api_key := key; in_model := model; in_temperature := 1 # 10;
  in_max_tokens := 4096; in_history_window := window; chat_input := Some prompt;
  save_clicked := false; uploaded_file := None; reset_clicked := false;
  timestamp := py "20240101_120000";
|}.

Definition fresh_world (s : session_state) : world := {| ss := s; fs := ∅; log := [] |}.

(** ** Notions used in the statements *)

(** The completion calls in a log, in order. *)
Fixpoint requests (l : list event) : list (pystr * gmap string param) :=
  match l with
  | [] => []
  | Request k p :: r => (k, p) :: requests r
  | _ :: r => requests r
  end.

Definition is_request (e : event) : bool :=
  match e with
  | Request _ _ => true
  | _ => false
  end.

Definition user_message (prompt : pystr) : Message := {| role := py "user"; content := prompt |}.
Definition assistant_message (text : pystr) : Message := {| role := py "assistant"; content := text |}.

(** The last [n] items of [l] (all of [l] when it has at most [n]). *)
Definition last_n {A} (n : nat) (l : list A) : list A := skipn (length l - n) l.

(** A computation is [silent] when it adds no completion call to
    the log. *)
Definition silent {A} (c : M A) : Prop :=
  forall w, exists l, log (snd (c w)) = log w ++ l /\ requests l = [].

(** A completion call whose keyword arguments are [model] and
    [messages] and nothing else. *)
Definition only_model_and_messages (kp : pystr * gmap string param) : Prop :=
  dom (snd kp) = ({["model"; "messages"]} : gset string)
  /\ snd kp !! "temperature" = None
  /\ snd kp !! "max_tokens" = None
  /\ snd kp !! "stream" = None.

(** A [str] that [json.dump] followed by [json.load] gives back: code
    points of the Unicode range, and no high surrogate directly followed
    by a low surrogate (the decoder reads the two escapes of such a pair
    as one code point). *)
Fixpoint json_safe (s : pystr) : bool :=
  match s with
  | [] => true
  | c :: r =>
      (c <=? 1114111)
      && match r with
         | d :: _ => negb (is_high_surrogate c && is_low_surrogate d)
         | [] => true
         end
      && json_safe r
  end.

(** No escape of a low surrogate at the head of [t]. *)
Definition no_low_escape (t : pystr) : bool :=
  match t with
  | b :: u :: l1 :: l2 :: l3 :: l4 :: _ =>
      if (b =? 92) && (u =? 117) then
        match hex4 l1 l2 l3 l4 with
        | Some w => negb (is_low_surrogate w)
        | None => false
        end
      else true
  | _ => true
  end.

(** The fixed text around the two strings of a dumped message. *)
Definition msg_open : pystr := Eval vm_compute in pyq "{'role': '".
Definition msg_mid : pystr := Eval vm_compute in pyq "', 'content': '".
Definition msg_close : pystr := Eval vm_compute in pyq "'}".

Definition safe_message (m : Message) : Prop :=
  json_safe (role m) = true /\ json_safe (content m) = true.

(** An ASCII [str], and a [str] the UTF-8 codec accepts. *)
Definition ascii_str (s : pystr) : bool := forallb (fun c => c <? 128) s.
Definition encodable (s : pystr) : bool :=
  forallb (fun c => negb (is_surrogate c) && (c <=? 1114111)) s.

(** A [bytes] literal: [b], a quote, a body, the same quote. *)
Definition is_bytes_literal (t : pystr) : Prop :=
  exists q body, t = 98 :: q :: body ++ [q] /\ (q = 39 \/ q = 34).

(** A role capitalized, in the words of the claim and by the alphabet:
    the first character is written as a capital letter and every other
    character as a small letter; a character that is not a letter of
    a..z or A..Z stays as it is. *)
Definition small_letters : pystr := Eval vm_compute in py "abcdefghijklmnopqrstuvwxyz".
Definition capital_letters : pystr := Eval vm_compute in py "ABCDEFGHIJKLMNOPQRSTUVWXYZ".

(** The letter of [into] at the place [c] has in [from]; [c] itself when
    it is not in [from]. *)
Fixpoint same_letter (from into : pystr) (c : N) : N :=
  match from, into with
  | a :: from', b :: into' => if a =? c then b else same_letter from' into' c
  | _, _ => c
  end.

Definition as_capital (c : N) : N := same_letter small_letters capital_letters c.
Definition as_small (c : N) : N := same_letter capital_letters small_letters c.

Definition spec_capitalized (role : pystr) : pystr :=
  match role with
  | [] => []
  | first :: others => as_capital first :: map as_small others
  end.

(** The block line 32 writes for [m]: the capitalized role in bold, then
    the bytes literal of the encoded content, then a blank line. *)
Definition md_block_of (m : Message) (block : pystr) : Prop :=
  exists b,
    str_encode (content m) = Ok b
    /\ block = py "**" ++ spec_capitalized (role m) ++ py ":** " ++ bytes_repr b ++ [10; 10]
    /\ is_bytes_literal (bytes_repr b)
    /\ bytes_repr b <> content m.

(** ** Concrete sessions and services *)

Definition session_of (model : pystr) (history : list Message) (tokens window : Z)
  : session_state :=
  {| messages := msgs history; token_count := tokens; api_key := py "sk-test";
     model := model; temperature := 7 # 10; max_tokens := 512; history_window := window |}.

(** Answers ["pong"]: at once, or streamed as ["po"], an empty delta, ["ng"]. *)
Definition pong_service : Service :=
  scripted_service (Ok [Some (py "pong")])
    (SChunk [Some (py "po")] (SChunk [None] (SChunk [Some (py "ng")] SEnd))).

(** Fails: the call raises, the stream breaks after its first chunk. *)
Definition failing_service : Service :=
  scripted_service (Raise APIError) (SChunk [Some (py "po")] (SError APIError)).

Definition greeting : list Message :=
  [user_message (py "hi"); assistant_message (py "hello")].

(** Seven exchanges: fourteen messages. *)
Definition history14 : list Message :=
  concat (repeat greeting 7).

(** A content with a quote, a line feed, a non-ASCII letter and a code
    point outside the basic plane. *)
Definition mixed_history : list Message :=
  [user_message [104; 233; 34; 10; 128512]; assistant_message (py "ok")].

(** Roles in mixed case, as an uploaded history may hold them; contents
    with a double quote, a line feed, an apostrophe, a tab, a carriage
    return, a backslash, two control characters, and text outside ASCII
    of two, three and four UTF-8 bytes. *)
Definition shouted_history : list Message :=
  [{| role := py "USER"; content := [104; 233; 34; 10; 128512] |};
   {| role := py "aSSISTANT"; content := py "it's" ++ [9; 13; 92; 1; 127; 8364] |}].

(** A content whose two code points are a high surrogate and a low
    surrogate. *)
Definition split_pair_history : list Message := [user_message [55357; 56832]].

(** ** Notions used in the further properties *)

(** A printable ASCII character. *)
Definition printable (c : N) : Prop := 32 <= c <= 126.

(** A completion call with the five keyword arguments of the streaming
    branch, the settings taken from the session [s]. *)
Definition carries_sampling_settings (s : session_state) (kp : pystr * gmap string param)
  : Prop :=
  dom (snd kp) = ({["model"; "messages"; "stream"; "temperature"; "max_tokens"]} : gset string)
  /\ snd kp !! "model" = Some (ParamVal (PStr (model s)))
  /\ snd kp !! "stream" = Some (ParamVal (PBool true))
  /\ snd kp !! "temperature" = Some (ParamFloat (temperature s))
  /\ snd kp !! "max_tokens" = Some (ParamVal (PInt (max_tokens s))).

(** The texts of the chunks a stream delivers before it ends or breaks. *)
Fixpoint delivered (s : stream) : list pystr :=
  match s with
  | SChunk (Some t :: _) rest => t :: delivered rest
  | SChunk (None :: _) rest => [] :: delivered rest
  | _ => []
  end.

(** The successive values of an accumulator that starts at [acc] and
    takes the texts [ts] one after the other. *)
Fixpoint running (acc : pystr) (ts : list pystr) : list pystr :=
  match ts with
  | [] => []
  | t :: r => (acc ++ t) :: running (acc ++ t) r
  end.

(** A computation keeps a property of the session, whatever its outcome. *)
Definition preserves {A} (I : session_state -> Prop) (c : M A) : Prop :=
  forall w, I (ss w) -> I (ss (snd (c w))).

(** A computation keeps a property of the session when it returns. *)
Definition preserves_ok {A} (I : session_state -> Prop) (c : M A) : Prop :=
  forall w a w', I (ss w) -> c w = (Ok a, w') -> I (ss w').

(** A computation adds at most one completion call to the log. *)
Definition at_most_one {A} (c : M A) : Prop :=
  forall w, exists new,
    requests (log (snd (c w))) = requests (log w) ++ new /\ (length new <= 1)%nat.

(** The settings of a session: everything but the history and its count. *)
Definition settings (s : session_state) : pystr * pystr * Q * Z * Z :=
  (api_key s, model s, temperature s, max_tokens s, history_window s).

Definition widget_settings (w : widgets) : pystr * pystr * Q * Z * Z :=
  (in_api_key w, in_model w, in_temperature w, in_max_tokens w, in_history_window w).

(** A dict with a role and a content, whatever else it holds, and the
    dict of its role and content alone. *)
Definition has_role_and_content (m : pyval) : Prop :=
  exists d r c, m = PDict d /\ dict_get d key_role = Some r /\ dict_get d key_content = Some c.

Definition role_and_content (m : pyval) : pyval :=
  match m with
  | PDict d =>
      match dict_get d key_role, dict_get d key_content with
      | Some r, Some c => message_dict r c
      | _, _ => PNone
      end
  | _ => PNone
  end.

(** The same widgets with the reset button as [b]. *)
Definition with_reset (b : bool) (w : widgets) : widgets :=
  {| in_api_key := in_api_key w; in_model := in_model w; in_temperature := in_temperature w;
     in_max_tokens := in_max_tokens w; in_history_window := in_history_window w;
     chat_input := chat_input w; save_clicked := save_clicked w;
     uploaded_file := uploaded_file w; reset_clicked := b; timestamp := timestamp w |}.

(** The history's count is the one a recount gives. *)
Definition counted `{Tokenizer} (s : session_state) : Prop :=
  total_tokens (messages s) = Ok (token_count s).

(** A tokenizer that refuses the text of a special token, as tiktoken's
    [encode] does under its default [disallowed_special]; any other text
    gives one token per code point. *)
Definition end_of_text : pystr := py "<|endoftext|>".

Definition strict_tokenizer : Tokenizer := {|
  encoding := unit;
  encoding_for_model _ := Ok tt;
  encode _ s := if decide (s = end_of_text) then Raise ValueError else Ok s;
|}.

(** Answers the text [t], at once or as a single chunk. *)
Definition echo_service (t : pystr) : Service :=
  scripted_service (Ok [Some t]) (SChunk [Some t] SEnd).


(** What the widgets return in a run without a prompt. *)
Definition no_prompt (save : bool) (upload : option pystr) (reset : bool) : widgets := {|
  in_api_key := py "sk-test"; in_model := py "gpt-4o"; in_temperature := 7 # 10;
  in_max_tokens := 512; in_history_window := 10; chat_input := None;
  save_clicked := save; uploaded_file := upload; reset_clicked := reset;
  timestamp := py "20240101_120000";
|}.

(** A message with a key besides its role and content, and a message
    without content. *)
Definition named_message : pyval :=
  PDict [(key_role, PStr (py "user")); (py "name", PStr (py "bob"));
         (key_content, PStr (py "hi"))].
Definition role_only : pyval := PDict [(key_role, PStr (py "user"))].

(** A decoder that answers every artifact the same way. *)
Definition scripted_decoder (answer : result pyval) : Decoder := {| json_load _ := answer |}.

(** A service that answers every request with HTTP 500. *)
Definition overloaded : Transport := {|
  post _ _ _ := ErrorStatus 500 None;
  post_stream _ _ _ := ErrorStatus 500 None;
|}.
(** ** Running the monad *)

Lemma mbind_ok {A B} (c : M A) (k : A -> M B) w a w' :
  c w = (Ok a, w') -> mbind c k w = k a w'.
Proof. intros H. unfold mbind. now rewrite H. Qed.

Lemma mbind_raise {A B} (c : M A) (k : A -> M B) w e w' :
  c w = (Raise e, w') -> mbind c k w = (Raise e, w').
Proof. intros H. unfold mbind. now rewrite H. Qed.

Lemma run_ret {A B} (a : A) (k : A -> M B) w : mbind (mret a) k w = k a w.
Proof. reflexivity. Qed.

Lemma run_raise {A B} e (k : A -> M B) w : mbind (raise e) k w = (Raise e, w).
Proof. reflexivity. Qed.

Lemma run_lift {A B} (r : result A) (k : A -> M B) w :
  mbind (lift r) k w = match r with Ok a => k a w | Raise e => (Raise e, w) end.
Proof. unfold mbind, lift. now destruct r. Qed.

Lemma run_get {B} (k : session_state -> M B) w : mbind get_ss k w = k (ss w) w.
Proof. reflexivity. Qed.

Lemma run_modify {B} f (k : unit -> M B) w :
  mbind (modify_ss f) k w = k tt {| ss := f (ss w); fs := fs w; log := log w |}.
Proof. reflexivity. Qed.

Lemma run_emit {B} e (k : unit -> M B) w :
  mbind (emit e) k w = k tt {| ss := ss w; fs := fs w; log := log w ++ [e] |}.
Proof. reflexivity. Qed.

Lemma run_write {B} n c (k : unit -> M B) w :
  mbind (write_file n c) k w = k tt {| ss := ss w; fs := <[n := c]> (fs w); log := log w |}.
Proof. reflexivity. Qed.

Lemma run_assoc {A B C} (c : M A) (k : A -> M B) (k' : B -> M C) w :
  mbind (mbind c k) k' w = mbind c (fun a => mbind (k a) k') w.
Proof. unfold mbind. destruct (c w) as [[a|e] w']; reflexivity. Qed.

Ltac run :=
  repeat first
    [ rewrite run_assoc | rewrite run_ret | rewrite run_raise | rewrite run_get
    | rewrite run_modify | rewrite run_emit | rewrite run_write | rewrite run_lift ];
  cbn [ss fs log fst snd].

Lemma requests_app l1 l2 : requests (l1 ++ l2) = requests l1 ++ requests l2.
Proof.
  induction l1 as [|e l1 IH]; simpl; [reflexivity|].
  destruct e; simpl; rewrite ?IH; reflexivity.
Qed.

Lemma silent_ret {A} (a : A) : silent (mret a).
Proof. intros w. exists []. simpl. now rewrite app_nil_r. Qed.

Lemma silent_raise {A} e : silent (@raise A e).
Proof. intros w. exists []. simpl. now rewrite app_nil_r. Qed.

Lemma silent_lift {A} (r : result A) : silent (lift r).
Proof. intros w. exists []. simpl. now rewrite app_nil_r. Qed.

Lemma silent_get : silent get_ss.
Proof. intros w. exists []. simpl. now rewrite app_nil_r. Qed.

Lemma silent_modify f : silent (modify_ss f).
Proof. intros w. exists []. simpl. now rewrite app_nil_r. Qed.

Lemma silent_write n c : silent (write_file n c).
Proof. intros w. exists []. simpl. now rewrite app_nil_r. Qed.

Lemma silent_append_file n c : silent (append_file n c).
Proof. intros w. exists []. simpl. now rewrite app_nil_r. Qed.

Lemma silent_read n : silent (read_file n).
Proof. intros w. exists []. simpl. now rewrite app_nil_r. Qed.

Lemma silent_emit e : is_request e = false -> silent (emit e).
Proof. intros H w. exists [e]. simpl. split; [reflexivity|]. now destruct e. Qed.

Lemma silent_bind {A B} (c : M A) (k : A -> M B) :
  silent c -> (forall a, silent (k a)) -> silent (mbind c k).
Proof.
  intros Hc Hk w. unfold mbind. destruct (Hc w) as [l1 [E1 R1]].
  destruct (c w) as [[a|e] w1]; simpl in *.
  - destruct (Hk a w1) as [l2 [E2 R2]]. exists (l1 ++ l2).
    rewrite E2, E1, app_assoc, requests_app, R1, R2. auto.
  - exists l1. auto.
Qed.

Lemma silent_mfor {A} (xs : list A) (body : A -> M unit) :
  (forall x, silent (body x)) -> silent (mfor xs body).
Proof.
  intros Hb. induction xs as [|x xs IH]; simpl.
  - apply silent_ret.
  - apply silent_bind; auto.
Qed.

Lemma silent_when b c : silent c -> silent (when b c).
Proof. destruct b; simpl; auto using silent_ret. Qed.

Create HintDb silent.
#[local] Hint Resolve silent_ret silent_raise silent_lift silent_get silent_modify
  silent_write silent_append_file silent_read silent_when : silent.

Ltac silence :=
  repeat first
    [ assumption
    | simple apply silent_bind; [|intros ?]
    | simple apply silent_mfor; intros ?
    | simple apply silent_emit; reflexivity
    | simple apply silent_when
    | solve [auto with silent]
    | match goal with |- silent (match ?x with _ => _ end) => destruct x end ].

(** ** The history window *)

Lemma slice_from_last_n {A} (w : Z) (l : list A) :
  (1 <= w)%Z -> slice_from (- w) l = last_n (Z.to_nat w) l.
Proof.
  intros Hw. unfold slice_from, last_n.
  destruct (Z.ltb_spec (- w) 0); [|lia].
  f_equal. lia.
Qed.

Lemma last_n_short {A} (n : nat) (l : list A) : (length l <= n)%nat -> last_n n l = l.
Proof. intros H. unfold last_n. now replace (length l - n)%nat with 0%nat by lia. Qed.

Lemma last_n_length {A} (n : nat) (l : list A) : (n <= length l)%nat -> length (last_n n l) = n.
Proof. intros H. unfold last_n. rewrite length_skipn. lia. Qed.

Lemma last_n_suffix {A} (n : nat) (l : list A) : exists older, l = older ++ last_n n l.
Proof. exists (firstn (length l - n) l). unfold last_n. now rewrite firstn_skipn. Qed.

Lemma last_n_map {A B} (f : A -> B) n (l : list A) : last_n n (map f l) = map f (last_n n l).
Proof. unfold last_n. now rewrite length_map, skipn_map. Qed.

Lemma msgs_app ms m : PList (map msg ms ++ [msg m]) = msgs (ms ++ [m]).
Proof. unfold msgs. now rewrite map_app. Qed.

Lemma rebuild_messages (ms : list Message) :
  rmap (fun m =>
          let? r := subscript m key_role in
          let? c := subscript m key_content in
          Ok (message_dict r c)) (map msg ms) = Ok (map msg ms).
Proof.
  induction ms as [|m ms IH]; simpl; [reflexivity|].
  rewrite IH. reflexivity.
Qed.

Section ScriptFacts.
Context {tok : Tokenizer} {svc : Service} {dec : Decoder}.

Lemma request_messages_window s ms :
  messages s = msgs ms -> (1 <= history_window s)%Z ->
  request_messages s = Ok (msgs (last_n (Z.to_nat (history_window s)) ms)).
Proof.
  intros Hm Hw. unfold request_messages. rewrite Hm. unfold msgs. simpl.
  rewrite slice_from_last_n by assumption. rewrite last_n_map.
  now rewrite rebuild_messages.
Qed.

(** *** The streaming loop *)

Lemma consume_frame s full w :
  ss (snd (consume s full w)) = ss w /\ fs (snd (consume s full w)) = fs w.
Proof.
  revert full w. induction s as [|choices rest IH|e]; intros full w; simpl; auto.
  destruct choices as [|d ?]; simpl; auto.
  unfold mbind at 1. simpl. unfold mbind at 1. simpl.
  destruct (IH (full ++ match d with Some t => t | None => [] end)
               {| ss := ss w; fs := fs w;
                  log := log w ++ [Markdown (PStr ((full ++ match d with Some t => t | None => [] end) ++ cursor))] |})
    as [E1 E2].
  auto.
Qed.

Lemma silent_consume s full : silent (consume s full).
Proof.
  revert full. induction s as [|choices rest IH|e]; intros full; simpl.
  - apply silent_ret.
  - silence.
  - apply silent_raise.
Qed.

Lemma consume_result s full w :
  fst (consume s full w) =
  let? ts := fragments s in Ok (full ++ concat ts).
Proof.
  revert full w. induction s as [|choices rest IH|e]; intros full w; simpl.
  - now rewrite app_nil_r.
  - destruct choices as [|[t|] ?]; simpl; [reflexivity| |].
    + unfold mbind at 1. simpl. unfold mbind at 1. simpl. rewrite IH.
      destruct (fragments rest); simpl; [|reflexivity]. now rewrite app_assoc.
    + unfold mbind at 1. simpl. unfold mbind at 1. simpl. rewrite IH.
      destruct (fragments rest); simpl; [|reflexivity]. now rewrite app_nil_r.
  - reflexivity.
Qed.

(** *** The reply *)

Lemma assistant_reply_frame client w :
  ss (snd (assistant_reply client w)) = ss w /\ fs (snd (assistant_reply client w)) = fs w.
Proof.
  unfold assistant_reply. run.
  destruct (completion_params (ss w)) as [params|e]; [|now auto].
  destruct (startswith (model (ss w)) (py "o1")).
  - destruct client as [k|]; unfold the_client; run; [|now auto].
    destruct (create k params) as [choices|e]; [|now auto].
    destruct (first_choice choices); run; now auto.
  - destruct client as [k|]; unfold the_client; run; [|now auto].
    match goal with |- context [mbind (consume ?s ?f) ?k ?w0] =>
      destruct (consume_frame s f w0) as [E1 E2]; unfold mbind;
      destruct (consume s f w0) as [[full|e] w3] end; simpl in *; auto.
Qed.

Lemma assistant_reply_no_client w : exists l,
  log (snd (assistant_reply None w)) = log w ++ l /\ requests l = []
  /\ exists e, fst (assistant_reply None w) = Raise e.
Proof.
  unfold assistant_reply, the_client. run.
  destruct (completion_params (ss w)) as [params|e]; [|now eauto].
  destruct (startswith (model (ss w)) (py "o1")); run.
  - exists [ChatMessage (py "assistant"); Spinner].
    rewrite <- app_assoc. simpl. eauto.
  - eauto.
Qed.

Lemma assistant_reply_call k w params :
  completion_params (ss w) = Ok params ->
  fst (assistant_reply (Some k) w) = reply_result k (ss w) params
  /\ requests (log (snd (assistant_reply (Some k) w))) =
     requests (log w) ++ [(k, call_params (ss w) params)].
Proof.
  intros Hp. unfold assistant_reply, reply_result, call_params, the_client. run.
  rewrite Hp.
  destruct (startswith (model (ss w)) (py "o1")); run.
  - destruct (create k params) as [choices|e]; simpl;
      [destruct (first_choice choices); simpl|];
      run; simpl; rewrite !requests_app; simpl; rewrite ?app_nil_r; auto.
  - match goal with |- context [mbind (consume ?s ?f) ?k ?w0] =>
      pose proof (consume_result s f w0) as R;
      destruct (silent_consume s f w0) as [l [L1 L2]]; unfold mbind;
      destruct (consume s f w0) as [[full|e] w3] end; simpl in *.
    + destruct (fragments _); simpl in *; [|discriminate].
      inversion R; subst. split; [reflexivity|].
      rewrite L1. rewrite !requests_app. simpl. rewrite L2, ?app_nil_r. reflexivity.
    + destruct (fragments _); simpl in *; [discriminate|].
      inversion R; subst. split; [reflexivity|].
      rewrite L1. rewrite !requests_app. simpl. rewrite L2, ?app_nil_r. reflexivity.
Qed.

Lemma assistant_reply_no_params client w e :
  completion_params (ss w) = Raise e ->
  fst (assistant_reply client w) = Raise e
  /\ requests (log (snd (assistant_reply client w))) = requests (log w).
Proof.
  intros Hp. unfold assistant_reply. run.
  rewrite Hp. simpl. rewrite requests_app. simpl. now rewrite app_nil_r.
Qed.

(** *** The turn *)

Lemma chat_turn_start client prompt l w :
  messages (ss w) = PList l ->
  chat_turn client prompt w =
  (let! full_response := assistant_reply client in
   append_message (assistant_dict full_response) ;; recount) (after_prompt prompt l w).
Proof.
  intros Hm. unfold chat_turn, append_message at 1. run. rewrite Hm. simpl. run.
  unfold after_prompt, prompted, user_dict. now rewrite <- app_assoc.
Qed.

Lemma chat_turn_not_a_list client prompt w :
  (forall l, messages (ss w) <> PList l) ->
  chat_turn client prompt w = (Raise AttributeError, w).
Proof.
  intros Hm. unfold chat_turn, append_message at 1. run.
  destruct (messages (ss w)); simpl; try reflexivity. now destruct (Hm l).
Qed.

Lemma chat_turn_failed client prompt l w e :
  messages (ss w) = PList l ->
  fst (assistant_reply client (after_prompt prompt l w)) = Raise e ->
  chat_turn client prompt w = (Raise e, snd (assistant_reply client (after_prompt prompt l w))).
Proof.
  intros Hm Hr. rewrite (chat_turn_start _ _ _ _ Hm). unfold mbind.
  destruct (assistant_reply client (after_prompt prompt l w)) as [r w']. simpl in *.
  now subst r.
Qed.

Lemma chat_turn_replied client prompt l w full_response :
  messages (ss w) = PList l ->
  fst (assistant_reply client (after_prompt prompt l w)) = Ok full_response ->
  messages (ss (snd (chat_turn client prompt w)))
  = PList (l ++ [user_dict prompt; assistant_dict full_response])
  /\ log (snd (chat_turn client prompt w))
     = log (snd (assistant_reply client (after_prompt prompt l w)))
  /\ (forall n, fst (chat_turn client prompt w) = Ok n ->
      total_tokens (messages (ss (snd (chat_turn client prompt w))))
      = Ok (token_count (ss (snd (chat_turn client prompt w))))).
Proof.
  intros Hm Hr.
  assert (chat_turn client prompt w =
          (append_message (assistant_dict full_response) ;; recount)
            (snd (assistant_reply client (after_prompt prompt l w)))) as E.
  { rewrite (chat_turn_start _ _ _ _ Hm). unfold mbind at 1.
    destruct (assistant_reply client (after_prompt prompt l w)) as [r w'].
    simpl in *. now subst r. }
  rewrite E. clear E.
  destruct (assistant_reply_frame client (after_prompt prompt l w)) as [Es _].
  unfold append_message, recount. run. rewrite Es. simpl. run.
  rewrite <- app_assoc. simpl.
  destruct (total_tokens _) as [n|e] eqn:E; simpl.
  - repeat split; auto.
  - repeat split; auto. intros ? ?. discriminate.
Qed.

End ScriptFacts.

Section TurnProperties.
Context {tok : Tokenizer} {svc : Service} {dec : Decoder}.

Lemma after_prompt_requests prompt l w :
  requests (log (after_prompt prompt l w)) = requests (log w).
Proof. unfold after_prompt. simpl. rewrite requests_app. simpl. now rewrite app_nil_r. Qed.

Lemma chat_turn_log client prompt l w :
  messages (ss w) = PList l ->
  log (snd (chat_turn client prompt w))
  = log (snd (assistant_reply client (after_prompt prompt l w))).
Proof.
  intros Hm.
  destruct (fst (assistant_reply client (after_prompt prompt l w))) as [full|e] eqn:E.
  - now destruct (chat_turn_replied _ _ _ _ _ Hm E) as (_ & L & _).
  - now rewrite (chat_turn_failed _ _ _ _ _ Hm E).
Qed.

Lemma completion_params_inv s params :
  completion_params s = Ok params ->
  exists ms, request_messages s = Ok ms
    /\ params = <["messages" := ParamVal ms]> {["model" := ParamVal (PStr (model s))]}.
Proof.
  unfold completion_params. destruct (request_messages s) as [ms|e]; simpl; [|discriminate].
  intros H. inversion H. eauto.
Qed.

Lemma prompted_window prompt ms s :
  (1 <= history_window s)%Z ->
  completion_params (prompted prompt (map msg ms) s)
  = Ok (<["messages" := ParamVal (msgs (last_n (Z.to_nat (history_window s))
                                            (ms ++ [user_message prompt])))]>
          {["model" := ParamVal (PStr (model s))]}).
Proof.
  intros Hw. unfold completion_params.
  rewrite (request_messages_window _ (ms ++ [user_message prompt])); [reflexivity| |exact Hw].
  unfold prompted. simpl. now rewrite <- msgs_app.
Qed.

(** C1.  The request of a turn carries exactly the last [history_window]
    messages of the history, the prompt just appended included: when
    the history is longer than the window the context has
    [history_window] messages and is the tail of the history, and when
    the history has at most [history_window] messages the context is
    the whole history. *)
Theorem request_context_is_history_window (k prompt : pystr) (w : world) (ms : list Message) :
  messages (ss w) = msgs ms ->
  (1 <= history_window (ss w))%Z ->
  let history := ms ++ [user_message prompt] in
  let n := Z.to_nat (history_window (ss w)) in
  exists params,
    requests (log (snd (chat_turn (Some k) prompt w))) = requests (log w) ++ [(k, params)]
    /\ params !! "messages" = Some (ParamVal (msgs (last_n n history)))
    /\ ((n < length history)%nat ->
        length (last_n n history) = n /\ exists older, history = older ++ last_n n history)
    /\ ((length history <= n)%nat -> last_n n history = history).
Proof.
  intros Hm Hw history n.
  pose proof (prompted_window prompt ms (ss w) Hw) as Hp.
  destruct (assistant_reply_call k (after_prompt prompt (map msg ms) w) _ Hp) as [_ Hr].
  eexists. split; [|split; [|split]].
  - rewrite (chat_turn_log _ _ _ _ Hm), Hr, after_prompt_requests. reflexivity.
  - unfold call_params, streaming_params.
    destruct (startswith _ _); now simplify_map_eq.
  - intros Hlt. split; [apply last_n_length; lia | apply last_n_suffix].
  - apply last_n_short.
Qed.

(** C2.  Under a model of the reasoning family (a name that starts with
    [o1]) every completion call of a turn has the keyword arguments
    [model] and [messages] and no other: no [temperature], no
    [max_tokens], no [stream], whatever the session holds for them. *)
Theorem reasoning_request_has_model_and_messages_only (client : option pystr)
    (prompt : pystr) (w : world) :
  startswith (model (ss w)) (py "o1") = true ->
  exists new,
    requests (log (snd (chat_turn client prompt w))) = requests (log w) ++ new
    /\ Forall only_model_and_messages new.
Proof.
  intros Ho.
  destruct (messages (ss w)) as [| | | |l| |] eqn:Hm;
    try (rewrite chat_turn_not_a_list by (intros l; rewrite Hm; discriminate);
         exists []; rewrite app_nil_r; now auto).
  rewrite (chat_turn_log _ _ _ _ Hm).
  destruct (completion_params (ss (after_prompt prompt l w))) as [params|e] eqn:Hp.
  - destruct client as [k|].
    + destruct (assistant_reply_call k _ _ Hp) as [_ Hr].
      exists [(k, call_params (ss (after_prompt prompt l w)) params)].
      rewrite Hr, after_prompt_requests. split; [reflexivity|].
      constructor; [|constructor].
      unfold call_params. simpl. rewrite Ho.
      destruct (completion_params_inv _ _ Hp) as (msv & _ & ->).
      unfold only_model_and_messages. simpl.
      rewrite dom_insert_L, dom_singleton_L.
      repeat split; try set_solver; now simplify_map_eq.
    + destruct (assistant_reply_no_client (after_prompt prompt l w)) as (l' & Hl & Hq & _).
      exists []. rewrite Hl, requests_app, Hq, after_prompt_requests. auto.
  - destruct (assistant_reply_no_params client _ _ Hp) as [_ Hr].
    exists []. rewrite Hr, after_prompt_requests, app_nil_r. auto.
Qed.

(** C3.  In a turn under a streaming model whose stream delivers the
    fragments [ts] and ends, the assistant message appended to the
    history holds the concatenation of [ts] in arrival order. *)
Theorem streamed_text_is_committed (k prompt : pystr) (w : world) (l : list pyval)
    (params : gmap string param) (ts : list pystr) :
  messages (ss w) = PList l ->
  startswith (model (ss w)) (py "o1") = false ->
  completion_params (prompted prompt l (ss w)) = Ok params ->
  fragments (create_stream k (streaming_params (prompted prompt l (ss w)) params)) = Ok ts ->
  messages (ss (snd (chat_turn (Some k) prompt w)))
  = PList (l ++ [user_dict prompt; msg (assistant_message (concat ts))]).
Proof.
  intros Hm Ho Hp Hf.
  destruct (assistant_reply_call k (after_prompt prompt l w) _ Hp) as [Hr _].
  unfold reply_result in Hr. simpl in Hr. rewrite Ho, Hf in Hr. simpl in Hr.
  now destruct (chat_turn_replied _ _ _ _ _ Hm Hr) as (-> & _).
Qed.

(** C7 (as the code has it).  When the completion call of a turn fails
    (the call of [create] raises, or the stream breaks or delivers a
    chunk that cannot be read), the turn ends with that exception, the
    history is the former history plus the user message, without an
    assistant message, and the script makes no second call: the turn
    holds exactly the one call of [create] that failed.  What the client
    library sends again inside that call is not excluded. *)
Theorem failed_request_aborts_turn (k prompt : pystr) (w : world) (l : list pyval)
    (params : gmap string param) (e : exn) :
  messages (ss w) = PList l ->
  completion_params (prompted prompt l (ss w)) = Ok params ->
  reply_result k (prompted prompt l (ss w)) params = Raise e ->
  fst (chat_turn (Some k) prompt w) = Raise e
  /\ messages (ss (snd (chat_turn (Some k) prompt w))) = PList (l ++ [user_dict prompt])
  /\ requests (log (snd (chat_turn (Some k) prompt w)))
     = requests (log w) ++ [(k, call_params (prompted prompt l (ss w)) params)].
Proof.
  intros Hm Hp Hf.
  destruct (assistant_reply_call k (after_prompt prompt l w) _ Hp) as [Hr Hq].
  simpl in Hr. rewrite Hf in Hr.
  rewrite (chat_turn_failed _ _ _ _ _ Hm Hr). simpl.
  destruct (assistant_reply_frame (Some k) (after_prompt prompt l w)) as [-> _].
  rewrite Hq, after_prompt_requests. auto.
Qed.

(** C9.  Whatever the session holds, the reset block leaves [messages]
    empty and [token_count] at 0; it touches nothing else of the session
    and ends the run by [st.rerun()]. *)
Theorem reset_clears_session (w : world) :
  messages (ss (snd (reset_conversation w))) = PList []
  /\ token_count (ss (snd (reset_conversation w))) = 0%Z
  /\ ss (snd (reset_conversation w))
     = set_token_count 0 (set_messages (PList []) (ss w))
  /\ fst (reset_conversation w) = Raise RerunException.
Proof. unfold reset_conversation. run. repeat split. Qed.

Lemma silent_assistant_reply_no_client : silent (assistant_reply None).
Proof.
  intros w. destruct (assistant_reply_no_client w) as (l & Hl & Hq & _). eauto.
Qed.

Lemma silent_chat_turn_no_client prompt : silent (chat_turn None prompt).
Proof.
  unfold chat_turn, append_message, recount.
  pose proof silent_assistant_reply_no_client. silence.
Qed.

Lemma silent_after_client (w : widgets) :
  silent
    (render_history ;;
     match chat_input w with
     | Some (c :: p) => chat_turn None (c :: p)
     | _ => mret tt
     end ;;
     sidebar_totals ;;
     when (save_clicked w)
       (let! names := save_chat_history (timestamp w) in
        emit (SavedAs (fst names) (snd names))) ;;
     match uploaded_file w with
     | Some text => load_uploaded text
     | None => mret tt
     end ;;
     when (reset_clicked w) reset_conversation).
Proof.
  pose proof silent_chat_turn_no_client.
  unfold render_history, sidebar_totals, save_chat_history, md_loop, load_uploaded,
    reset_conversation, recount.
  silence.
Qed.

(** C8.  In a run made under an empty API key (a key that was never
    given is the empty string), the first thing the run shows is the
    sidebar warning that asks for the key, and the run dispatches no
    completion call, whether or not a prompt was submitted. *)
Theorem missing_key_blocks_request (w : widgets) (w0 : world) :
  in_api_key w = [] ->
  In (model (ss w0)) available_models ->
  exists l,
    log (snd (main w w0)) = log w0 ++ SidebarWarning :: l /\ requests l = [].
Proof.
  intros Hk Hmodel. unfold main, sidebar, make_client. run. cbn [model].
  destruct (decide (In (model (ss w0)) available_models)); [|contradiction].
  run. cbn [api_key]. rewrite Hk. run.
  match goal with |- context [snd (?c ?w1)] =>
    destruct (silent_after_client w w1) as (l & Hl & Hq) end.
  cbn [log model] in Hl. rewrite <- !app_assoc in Hl. simpl in Hl.
  cbn [model]. rewrite <- !app_assoc. simpl.
  exists (Title (in_model w) :: l). split; [exact Hl | exact Hq].
Qed.

Lemma total_tokens_spec v : total_tokens v = spec_token_total default_model v.
Proof.
  unfold total_tokens, spec_token_total. destruct (py_iter v) as [items|e]; simpl; [|reflexivity].
  induction items as [|m r IH]; simpl; [reflexivity|]. now rewrite IH.
Qed.

(** C4 (as the code has it).  When a turn completes, [token_count] is
    the sum over all messages of the history, the new assistant message
    included, of the token counts of their contents under the
    tokenizer's default model ["gpt-4"]; the model of the session plays
    no part. *)
Theorem token_count_after_turn (client : option pystr) (prompt : pystr) (w : world) :
  fst (chat_turn client prompt w) = Ok tt ->
  spec_token_total default_model (messages (ss (snd (chat_turn client prompt w))))
  = Ok (token_count (ss (snd (chat_turn client prompt w)))).
Proof.
  intros Hok. rewrite <- total_tokens_spec.
  destruct (messages (ss w)) as [| | | |l| |] eqn:Hm;
    try (rewrite chat_turn_not_a_list in Hok by (intros l; rewrite Hm; discriminate);
         discriminate).
  destruct (fst (assistant_reply client (after_prompt prompt l w))) as [full|e] eqn:E.
  - destruct (chat_turn_replied _ _ _ _ _ Hm E) as (_ & _ & H). eauto.
  - rewrite (chat_turn_failed _ _ _ _ _ Hm E) in Hok. discriminate.
Qed.

(** C5 (as the code has it).  Whatever [json.load] does with the
    uploaded artifact.  When it raises ([JSONDecodeError] on a text that
    is not JSON, or any other exception) the whole session is left as it
    was and the run ends with that exception.  When it decodes the
    artifact to a value [v], [messages] becomes [v] as a whole, whether
    or not [v] is a sequence of messages, and the token count is taken
    afterwards: when it raises (an item without [content], a content that
    is not a string) the run ends with that exception, [messages] already
    replaced and [token_count] as it was; otherwise [token_count] is the
    count of [v] and the run ends with the rerun.  Nothing validates the
    artifact. *)
Theorem upload_replaces_messages_once_decoded (text : pystr) (w : world) :
  match json_load text with
  | Raise e => load_uploaded text w = (Raise e, w)
  | Ok v =>
      let w1 := {| ss := set_messages v (ss w); fs := fs w; log := log w |} in
      match total_tokens v with
      | Raise e => load_uploaded text w = (Raise e, w1)
      | Ok n =>
          load_uploaded text w
          = (Raise RerunException,
             {| ss := set_token_count n (set_messages v (ss w)); fs := fs w;
                log := log w ++ [LoadedSuccessfully] |})
      end
  end.
Proof.
  unfold load_uploaded, recount. run.
  destruct (json_load text) as [v|e].
  - run. simpl. destruct (total_tokens v); reflexivity.
  - now destruct w.
Qed.

(** An artifact that is not JSON at all: the session is untouched. *)
Lemma undecodable_upload_example :
  let w := fresh_world (session_of (py "gpt-4o") greeting 7 10) in
  @load_uploaded tok python_json (py "role: user") w = (Raise JSONDecodeError, w).
Proof. reflexivity. Qed.

(** A window of 0 would select the whole history, not an empty context;
    the slider keeps the window at 1 or more. *)
Lemma slice_from_zero {A} (l : list A) : slice_from (- 0)%Z l = l.
Proof.
  unfold slice_from. change (- 0 <? 0)%Z with false. cbv zeta.
  replace (Z.min (- 0) (Z.of_nat (length l))) with 0%Z by lia.
  reflexivity.
Qed.

End TurnProperties.

(** ** [json.load] after [json.dump]: strings *)

Lemma hexval_hexdigit n : n < 16 -> hexval (hexdigit n) = Some n.
Proof.
  intros Hn. unfold hexdigit, hexval.
  destruct (N.ltb_spec n 10).
  - replace ((48 <=? 48 + n) && (48 + n <=? 57)) with true
      by (symmetry; apply andb_true_intro; split; apply N.leb_le; lia).
    f_equal. lia.
  - replace ((48 <=? 87 + n) && (87 + n <=? 57)) with false
      by (symmetry; apply andb_false_intro2; apply N.leb_gt; lia).
    replace ((97 <=? 87 + n) && (87 + n <=? 102)) with true
      by (symmetry; apply andb_true_intro; split; apply N.leb_le; lia).
    f_equal. lia.
Qed.

Lemma hex4_u_escape c t :
  c < 65536 ->
  exists h1 h2 h3 h4,
    u_escape c ++ t = 92 :: 117 :: h1 :: h2 :: h3 :: h4 :: t
    /\ hex4 h1 h2 h3 h4 = Some c.
Proof.
  intros Hc. unfold u_escape. do 4 eexists. split; [reflexivity|].
  unfold hex4. rewrite !N.shiftr_div_pow2.
  change (2 ^ 12) with 4096. change (2 ^ 8) with 256. change (2 ^ 4) with 16.
  rewrite !hexval_hexdigit by (apply N.mod_lt; lia).
  f_equal.
  assert (c / 4096 < 16) by (apply N.Div0.div_lt_upper_bound; lia).
  rewrite (N.mod_small (c / 4096) 16) by assumption.
  pose proof (N.div_mod c 16 ltac:(lia)).
  pose proof (N.div_mod (c / 16) 16 ltac:(lia)).
  pose proof (N.div_mod (c / 16 / 16) 16 ltac:(lia)).
  rewrite !N.Div0.div_div in *.
  change (16 * 16 * 16) with 4096 in *. change (16 * 16) with 256 in *.
  lia.
Qed.

Lemma lor_shifted x y k : y < 2 ^ k -> N.lor (N.shiftl x k) y = x * 2 ^ k + y.
Proof.
  intros Hy.
  assert (N.land (N.shiftl x k) y = 0) as Hland.
  { apply N.bits_inj. intros i. rewrite N.land_spec, N.bits_0.
    destruct (N.lt_ge_cases i k) as [Hi|Hi].
    - now rewrite N.shiftl_spec_low.
    - destruct (N.eq_dec y 0) as [->|Hy0].
      + now rewrite N.bits_0, andb_false_r.
      + rewrite (N.bits_above_log2 y i), andb_false_r; [reflexivity|].
        apply N.lt_le_trans with k; [|assumption].
        apply N.log2_lt_pow2; [lia|assumption]. }
  rewrite <- N.lxor_lor, <- N.add_nocarry_lxor by assumption.
  now rewrite N.shiftl_mul_pow2.
Qed.

Lemma surrogate_pair c :
  65536 <= c <= 1114111 ->
  let v := c - 65536 in
  let hi := N.lor 55296 (N.land (N.shiftr v 10) 1023) in
  let lo := N.lor 56320 (N.land v 1023) in
  hi < 65536 /\ lo < 65536
  /\ is_high_surrogate hi = true /\ is_low_surrogate lo = true
  /\ join_surrogates hi lo = c.
Proof.
  intros Hc v hi lo.
  assert (v < 1048576) as Hv by (unfold v; lia).
  assert (hi = 55296 + v / 1024) as Ehi.
  { unfold hi. change 1023 with (N.ones 10). rewrite N.land_ones, N.shiftr_div_pow2.
    change (2 ^ 10) with 1024.
    rewrite N.mod_small by (apply N.Div0.div_lt_upper_bound; lia).
    change 55296 with (N.shiftl 54 10) at 1.
    rewrite lor_shifted by (change (2 ^ 10) with 1024; apply N.Div0.div_lt_upper_bound; lia).
    reflexivity. }
  assert (lo = 56320 + v mod 1024) as Elo.
  { unfold lo. change 1023 with (N.ones 10). rewrite N.land_ones.
    change (2 ^ 10) with 1024.
    change 56320 with (N.shiftl 55 10) at 1.
    rewrite lor_shifted by (change (2 ^ 10) with 1024; apply N.mod_lt; lia).
    reflexivity. }
  assert (v = c - 65536) as Ev by reflexivity.
  clearbody hi lo v.
  assert (v / 1024 < 1024) as Ha by (apply N.Div0.div_lt_upper_bound; lia).
  assert (v mod 1024 < 1024) as Hb by (apply N.mod_lt; lia).
  pose proof (N.div_mod v 1024 ltac:(lia)) as Hdm.
  pose proof (N.le_0_l (v / 1024)) as Ha0.
  pose proof (N.le_0_l (v mod 1024)) as Hb0.
  repeat split.
  - lia.
  - lia.
  - unfold is_high_surrogate. apply andb_true_intro. split; apply N.leb_le; lia.
  - unfold is_low_surrogate. apply andb_true_intro. split; apply N.leb_le; lia.
  - unfold join_surrogates. change 1023 with (N.ones 10). rewrite !N.land_ones.
    change (2 ^ 10) with 1024. rewrite Ehi, Elo.
    replace ((55296 + v / 1024) mod 1024) with (v / 1024).
    2:{ apply (N.mod_unique _ 1024 54); lia. }
    replace ((56320 + v mod 1024) mod 1024) with (v mod 1024).
    2:{ apply (N.mod_unique _ 1024 55); lia. }
    rewrite lor_shifted by (change (2 ^ 10) with 1024; assumption).
    change (2 ^ 10) with 1024. lia.
Qed.

Lemma scanstring_u h1 h2 h3 h4 t u :
  hex4 h1 h2 h3 h4 = Some u ->
  (is_high_surrogate u = true -> no_low_escape t = true) ->
  scanstring (92 :: 117 :: h1 :: h2 :: h3 :: h4 :: t) = rcons u (scanstring t).
Proof.
  intros H4 Hnl. simpl. rewrite H4.
  destruct (is_high_surrogate u); [|reflexivity].
  specialize (Hnl eq_refl). unfold no_low_escape in Hnl.
  destruct t as [|b [|u' [|l1 [|l2 [|l3 [|l4 r3]]]]]]; try reflexivity.
  destruct ((b =? 92) && (u' =? 117)); [|reflexivity].
  destruct (hex4 l1 l2 l3 l4) as [w|]; [|discriminate].
  destruct (is_low_surrogate w); [discriminate|reflexivity].
Qed.

Lemma scanstring_pair h1 h2 h3 h4 l1 l2 l3 l4 t hi lo :
  hex4 h1 h2 h3 h4 = Some hi -> hex4 l1 l2 l3 l4 = Some lo ->
  is_high_surrogate hi = true -> is_low_surrogate lo = true ->
  scanstring (92 :: 117 :: h1 :: h2 :: h3 :: h4 :: 92 :: 117 :: l1 :: l2 :: l3 :: l4 :: t)
  = rcons (join_surrogates hi lo) (scanstring t).
Proof.
  intros Hh Hl Hhi Hlo. simpl. rewrite Hh, Hhi, Hl, Hlo. reflexivity.
Qed.

Lemma no_low_escape_other b t : (b =? 92) = false -> no_low_escape (b :: t) = true.
Proof.
  intros Hb. unfold no_low_escape.
  destruct t as [|u' [|l1 [|l2 [|l3 [|l4 r3]]]]]; try reflexivity.
  now rewrite Hb.
Qed.

Lemma no_low_escape_short b u t : (u =? 117) = false -> no_low_escape (b :: u :: t) = true.
Proof.
  intros Hu. unfold no_low_escape.
  destruct t as [|l1 [|l2 [|l3 [|l4 r3]]]]; try reflexivity.
  now rewrite Hu, andb_false_r.
Qed.

Lemma no_low_escape_u c t :
  c < 65536 -> is_low_surrogate c = false -> no_low_escape (u_escape c ++ t) = true.
Proof.
  intros Hc Hlow. destruct (hex4_u_escape c t Hc) as (h1 & h2 & h3 & h4 & -> & H4).
  unfold no_low_escape. simpl. now rewrite H4, Hlow.
Qed.

Lemma high_not_low c : is_high_surrogate c = true -> is_low_surrogate c = false.
Proof.
  unfold is_high_surrogate, is_low_surrogate. intros H.
  apply andb_prop in H as [_ H]. apply N.leb_le in H.
  apply andb_false_intro1. apply N.leb_gt. lia.
Qed.

Lemma no_low_escape_char c t :
  c <= 1114111 -> is_low_surrogate c = false -> no_low_escape (escape_char c ++ t) = true.
Proof.
  intros Hc Hlow. unfold escape_char.
  repeat match goal with
         | |- context [if ?x =? ?k then _ else _] =>
             destruct (x =? k) eqn:?; [now apply no_low_escape_short|]
         end.
  destruct ((32 <=? c) && (c <=? 126)).
  - now apply no_low_escape_other.
  - destruct (N.ltb_spec c 65536).
    + now apply no_low_escape_u.
    + destruct (surrogate_pair c ltac:(lia)) as (Hhi & _ & Hh & _).
      rewrite <- app_assoc. apply no_low_escape_u; [assumption|].
      now apply high_not_low.
Qed.

Lemma scan_escape_char c t :
  c <= 1114111 ->
  (is_high_surrogate c = true -> no_low_escape t = true) ->
  scanstring (escape_char c ++ t) = rcons c (scanstring t).
Proof.
  intros Hc Hnl. unfold escape_char.
  repeat match goal with
         | |- context [if ?x =? ?k then _ else _] =>
             let E := fresh "E" in
             destruct (x =? k) eqn:E; [apply N.eqb_eq in E; subst; reflexivity|]
         end.
  destruct ((32 <=? c) && (c <=? 126)) eqn:Hp.
  - apply andb_prop in Hp as [Hlo _]. apply N.leb_le in Hlo.
    simpl. rewrite E, E0.
    destruct (N.ltb_spec c 32); [lia|reflexivity].
  - destruct (N.ltb_spec c 65536) as [Hb|Hb].
    + destruct (hex4_u_escape c t Hb) as (h1 & h2 & h3 & h4 & -> & H4).
      now apply scanstring_u.
    + destruct (surrogate_pair c ltac:(lia)) as (Hhi & Hlo & Hh & Hl & Hj).
      rewrite <- app_assoc.
      destruct (hex4_u_escape _ t Hlo) as (l1 & l2 & l3 & l4 & -> & L4).
      destruct (hex4_u_escape _ (92 :: 117 :: l1 :: l2 :: l3 :: l4 :: t) Hhi)
        as (h1 & h2 & h3 & h4 & -> & H4).
      rewrite (scanstring_pair _ _ _ _ _ _ _ _ _ _ _ H4 L4 Hh Hl).
      now rewrite Hj.
Qed.

Lemma json_safe_cons c s :
  json_safe (c :: s) = true ->
  c <= 1114111 /\ json_safe s = true
  /\ (is_high_surrogate c = true ->
      match s with d :: _ => is_low_surrogate d = false | [] => True end).
Proof.
  simpl. intros H. apply andb_prop in H as [H Hs]. apply andb_prop in H as [Hc Hd].
  apply N.leb_le in Hc. repeat split; auto.
  intros Hh. destruct s as [|d s']; [exact I|].
  rewrite Hh in Hd. simpl in Hd. now destruct (is_low_surrogate d).
Qed.

Lemma scanstring_escape_body s rest :
  json_safe s = true -> scanstring (escape_body s ++ 34 :: rest) = Ok (s, rest).
Proof.
  induction s as [|c s IH]; intros Hs; [reflexivity|].
  apply json_safe_cons in Hs as (Hc & Hs & Hpair).
  unfold escape_body in *. simpl flat_map. rewrite <- app_assoc.
  rewrite scan_escape_char; [now rewrite IH| assumption |].
  intros Hh. specialize (Hpair Hh).
  destruct s as [|d s']; [now apply no_low_escape_other|].
  simpl flat_map. rewrite <- app_assoc.
  apply json_safe_cons in Hs as (Hd & _ & _).
  now apply no_low_escape_char.
Qed.

(** ** [json.load] after [json.dump]: message sequences *)

Lemma dumps_msg m :
  json_dumps (msg m)
  = msg_open ++ escape_body (role m) ++ msg_mid ++ escape_body (content m) ++ msg_close.
Proof.
  cbv [msg message_dict json_dumps map join fst snd encode_basestring_ascii].
  repeat (rewrite <- !app_assoc || rewrite <- !app_comm_cons).
  reflexivity.
Qed.

Lemma scan_msg f d m rest :
  (4 <= f)%nat -> (1 <= d)%nat -> safe_message m ->
  scan_once f d (json_dumps (msg m) ++ rest) = Ok (msg m, rest).
Proof.
  intros Hf Hd [Hr Hc].
  destruct f as [|[|[|[|f]]]]; try lia. destruct d as [|d]; try lia.
  rewrite dumps_msg. unfold msg_open, msg_mid, msg_close.
  rewrite <- !app_assoc. simpl app.
  simpl. rewrite scanstring_escape_body by assumption.
  simpl. rewrite scanstring_escape_body by assumption.
  reflexivity.
Qed.

Lemma dumps_msg_head m : exists t, json_dumps (msg m) = 123 :: t.
Proof. rewrite dumps_msg. unfold msg_open. simpl. eauto. Qed.

Lemma join_dumps_head m ms rest :
  exists t, join (py ", ") (map json_dumps (map msg (m :: ms))) ++ rest = 123 :: t.
Proof.
  destruct (dumps_msg_head m) as [t Ht].
  destruct ms as [|m' ms]; cbn [map join]; rewrite Ht; cbn [app]; eauto.
Qed.

Lemma join_dumps_length ms :
  (length ms <= length (join (py ", ") (map json_dumps (map msg ms))))%nat.
Proof.
  induction ms as [|m ms IH]; [simpl; lia|].
  destruct (dumps_msg_head m) as [t Ht].
  destruct ms as [|m' ms].
  - cbn [map join]. rewrite Ht. simpl. lia.
  - change (map json_dumps (map msg (m :: m' :: ms)))
      with (json_dumps (msg m) :: json_dumps (msg m') :: map json_dumps (map msg ms)).
    change (map json_dumps (map msg (m' :: ms)))
      with (json_dumps (msg m') :: map json_dumps (map msg ms)) in *.
    cbn [join]. cbn [join] in IH. rewrite Ht, !length_app. simpl length in *. lia.
Qed.

Lemma elems_msgs ms : forall f d rest,
  ms <> [] -> (length ms + 4 <= f)%nat -> (1 <= d)%nat -> Forall safe_message ms ->
  elems f d (join (py ", ") (map json_dumps (map msg ms)) ++ 93 :: rest)
  = Ok (map msg ms, rest).
Proof.
  induction ms as [|m ms IH]; intros f d rest Hne Hf Hd Hsafe; [congruence|].
  inversion Hsafe as [|? ? Hm Hms]; subst.
  destruct f as [|f]; [simpl in Hf; lia|]. simpl in Hf.
  destruct ms as [|m' ms].
  - cbn [map join elems]. rewrite scan_msg by (assumption || lia). reflexivity.
  - change (join (py ", ") (map json_dumps (map msg (m :: m' :: ms))))
      with (json_dumps (msg m) ++ py ", " ++ join (py ", ") (map json_dumps (map msg (m' :: ms)))).
    rewrite <- !app_assoc.
    cbn [elems]. rewrite scan_msg by (assumption || lia).
    destruct (join_dumps_head m' ms (93 :: rest)) as [t Ht].
    change (py ", " ++ ?x) with (44 :: 32 :: x).
    cbn [rbind skip_ws is_ws N.eqb Pos.eqb orb].
    rewrite Ht. cbn [skip_ws is_ws N.eqb Pos.eqb orb]. rewrite <- Ht.
    rewrite IH by (assumption || discriminate || simpl in *; lia).
    reflexivity.
Qed.

Lemma loads_dumps_msgs ms :
  Forall safe_message ms -> json_loads (json_dumps (msgs ms)) = Ok (msgs ms).
Proof.
  intros Hsafe. unfold json_loads.
  set (text := json_dumps (msgs ms)).
  assert (exists body, text = 91 :: body ++ [93]
                       /\ body = join (py ", ") (map json_dumps (map msg ms)))
    as (body & Htext & Hbody) by (eexists; split; reflexivity).
  assert (length ms + 5 <= 2 * length text + 2)%nat as Hfuel.
  { rewrite Htext. simpl length. rewrite length_app. pose proof (join_dumps_length ms).
    rewrite <- Hbody in H. cbn [length]. lia. }
  destruct (2 * length text + 2)%nat as [|f]; [lia|].
  rewrite Htext. change max_nesting with (S 99).
  cbn [skip_ws is_ws N.eqb Pos.eqb orb scan_once].
  destruct ms as [|m ms].
  - subst body. reflexivity.
  - destruct (join_dumps_head m ms [93]) as [t Ht].
    rewrite Hbody, Ht. cbn [skip_ws is_ws N.eqb Pos.eqb orb]. rewrite <- Ht.
    rewrite elems_msgs by (assumption || discriminate || simpl in *; lia).
    reflexivity.
Qed.

(** ** Saving *)

Lemma run_append_file {B} n c (k : unit -> M B) w :
  mbind (append_file n c) k w
  = k tt {| ss := ss w;
            fs := <[n := match fs w !! n with Some c0 => c0 | None => [] end ++ c]> (fs w);
            log := log w |}.
Proof. reflexivity. Qed.

Section Saving.
Context {tok : Tokenizer} {svc : Service} {dec : Decoder}.

Lemma filenames_differ ts : json_filename ts <> md_filename ts.
Proof.
  unfold json_filename, md_filename. intros H.
  apply app_inv_head in H. apply app_inv_head in H. vm_compute in H. discriminate.
Qed.

Lemma md_loop_frame ts items : forall w,
  ss (snd (md_loop ts items w)) = ss w
  /\ log (snd (md_loop ts items w)) = log w
  /\ forall n, n <> md_filename ts -> fs (snd (md_loop ts items w)) !! n = fs w !! n.
Proof.
  unfold md_loop. induction items as [|m items IH]; intros w; [simpl; auto|].
  cbn [mfor]. run.
  destruct (markdown_line m) as [line|e]; [|simpl; auto].
  rewrite run_append_file.
  match goal with |- context [mfor items ?body ?w1] =>
    destruct (IH w1) as (Hs & Hl & Hf) end.
  cbn [ss fs log] in *. rewrite Hs, Hl. repeat split; auto.
  intros n Hn. rewrite Hf by assumption. now rewrite lookup_insert_ne.
Qed.

Lemma md_loop_ok ts ms : forall w acc,
  fs w !! md_filename ts = Some acc ->
  fst (md_loop ts (map msg ms) w) = Ok tt ->
  exists lines,
    rmap markdown_line (map msg ms) = Ok lines
    /\ fs (snd (md_loop ts (map msg ms) w)) !! md_filename ts = Some (acc ++ concat lines).
Proof.
  unfold md_loop. induction ms as [|m ms IH]; intros w acc Hacc Hok.
  - exists []. simpl. now rewrite app_nil_r.
  - cbn [map mfor rmap] in *. revert Hok. run.
    destruct (markdown_line (msg m)) as [line|e]; [|discriminate].
    rewrite run_append_file. rewrite Hacc. intros Hok.
    match type of Hok with context [mfor _ ?body ?w1] =>
      destruct (IH w1 (acc ++ line)) as (lines & Hl & Hf);
        [cbn [fs]; apply lookup_insert_eq | exact Hok |] end.
    exists (line :: lines). cbn [rbind]. rewrite Hl. split; [reflexivity|].
    rewrite Hf. simpl. now rewrite app_assoc.
Qed.

Lemma md_loop_runs ts ms lines : forall w,
  rmap markdown_line (map msg ms) = Ok lines ->
  fst (md_loop ts (map msg ms) w) = Ok tt.
Proof.
  unfold md_loop. revert lines. induction ms as [|m ms IH]; intros lines w Hl; [reflexivity|].
  cbn [map mfor rmap] in *. run.
  destruct (markdown_line (msg m)) as [line|e]; [|discriminate].
  rewrite run_append_file. simpl in Hl.
  destruct (rmap markdown_line (map msg ms)) as [ls|e] eqn:E; [|discriminate].
  eapply IH. reflexivity.
Qed.

Lemma save_chat_history_unfold ts w :
  save_chat_history ts w =
  (write_file (json_filename ts) (json_dumps (messages (ss w))) ;;
   write_file (md_filename ts) [] ;;
   let! items := lift (py_iter (messages (ss w))) in
   md_loop ts items ;;
   mret (json_filename ts, md_filename ts)) w.
Proof. reflexivity. Qed.

Lemma save_json_written ts w :
  fs (snd (save_chat_history ts w)) !! json_filename ts
  = Some (json_dumps (messages (ss w)))
  /\ ss (snd (save_chat_history ts w)) = ss w.
Proof.
  rewrite save_chat_history_unfold. run.
  pose proof (filenames_differ ts) as Hne.
  destruct (py_iter (messages (ss w))) as [items|e].
  - match goal with |- context [mbind (md_loop ts items) ?k ?w1] =>
      destruct (md_loop_frame ts items w1) as (Hs & _ & Hf); unfold mbind;
      destruct (md_loop ts items w1) as [[[]|e] w2] end;
      cbn [ss fs log fst snd] in *; rewrite Hf by assumption;
      (split; [|assumption]);
      rewrite lookup_insert_ne by congruence; apply lookup_insert_eq.
  - cbn [ss fs log fst snd]. split; [|reflexivity].
    rewrite lookup_insert_ne by congruence. apply lookup_insert_eq.
Qed.

Lemma save_ok_inv ts w ms names w' :
  messages (ss w) = msgs ms ->
  save_chat_history ts w = (Ok names, w') ->
  names = (json_filename ts, md_filename ts)
  /\ exists lines,
      rmap markdown_line (map msg ms) = Ok lines
      /\ fs w' !! md_filename ts = Some (concat lines).
Proof.
  intros Hm. rewrite save_chat_history_unfold. run. rewrite Hm. cbn [msgs py_iter].
  match goal with |- context [mbind (md_loop ts ?items) ?k ?w1] =>
    pose proof (md_loop_ok ts ms w1 []) as Hloop; unfold mbind;
    destruct (md_loop ts items w1) as [[[]|e] w2] end;
    cbn [ss fs log fst snd] in *; intros H; inversion H; subst.
  split; [reflexivity|].
  destruct Hloop as (lines & Hl & Hf); [apply lookup_insert_eq|reflexivity|].
  exists lines. auto.
Qed.

(** *** The Markdown blocks *)

Lemma markdown_line_msg m :
  markdown_line (msg m) =
  let? cap := capitalize (role m) in
  let? b := str_encode (content m) in
  Ok (py "**" ++ cap ++ py ":** " ++ bytes_repr b ++ [10; 10]).
Proof. reflexivity. Qed.

Lemma capitalize_ascii s : ascii_str s = true -> exists cap, capitalize s = Ok cap.
Proof. unfold capitalize, ascii_str. intros ->. eauto. Qed.

Lemma capitalize_ok s cap : capitalize s = Ok cap -> ascii_str s = true.
Proof. unfold capitalize, ascii_str. now destruct (forallb _ s). Qed.

End Saving.

Lemma utf8_char_ok c b :
  utf8_char c = Ok b -> is_surrogate c = false /\ c <= 1114111 /\ (1 <= length b)%nat.
Proof.
  unfold utf8_char, is_surrogate.
  destruct (N.ltb_spec c 128).
  { intros H0. inversion H0. repeat split; [|lia|simpl; lia].
    apply andb_false_intro1. apply N.leb_gt. lia. }
  destruct (N.ltb_spec c 2048).
  { intros H1. inversion H1. repeat split; [|lia|simpl; lia].
    apply andb_false_intro1. apply N.leb_gt. lia. }
  destruct ((55296 <=? c) && (c <=? 57343)); [discriminate|].
  destruct (N.ltb_spec c 65536).
  { intros H2. inversion H2. repeat split; [lia|simpl; lia]. }
  destruct (N.leb_spec c 1114111); [|discriminate].
  intros H3. inversion H3. repeat split; [lia|simpl; lia].
Qed.

Lemma utf8_char_total c :
  is_surrogate c = false -> c <= 1114111 -> exists b, utf8_char c = Ok b.
Proof.
  intros Hs Hc. unfold utf8_char. rewrite Hs.
  destruct (c <? 128); [eauto|]. destruct (c <? 2048); [eauto|].
  destruct (c <? 65536); [eauto|].
  destruct (N.leb_spec c 1114111); [eauto|lia].
Qed.

Lemma str_encode_ok s b :
  str_encode s = Ok b -> encodable s = true /\ (length s <= length b)%nat.
Proof.
  revert b. induction s as [|c s IH]; intros b; simpl.
  - intros H. inversion H. auto.
  - destruct (utf8_char c) as [bc|e] eqn:Ec; [|discriminate]. simpl.
    destruct (str_encode s) as [bs|e]; [|discriminate]. simpl.
    intros H. inversion H. subst.
    destruct (utf8_char_ok _ _ Ec) as (Hs & Hc & Hl).
    destruct (IH bs eq_refl) as [He Hlen].
    rewrite Hs, He. simpl. rewrite length_app. split; [|lia].
    rewrite andb_true_r. now apply N.leb_le.
Qed.

Lemma str_encode_total s : encodable s = true -> exists b, str_encode s = Ok b.
Proof.
  induction s as [|c s IH]; simpl; [eauto|].
  intros H. apply andb_prop in H as [Hc Hs]. apply andb_prop in Hc as [Hsur Hc].
  apply negb_true_iff in Hsur. apply N.leb_le in Hc.
  destruct (utf8_char_total c Hsur Hc) as [bc ->]. destruct (IH Hs) as [bs ->].
  simpl. eauto.
Qed.

Lemma high_is_surrogate c : is_high_surrogate c = true -> is_surrogate c = true.
Proof.
  unfold is_high_surrogate, is_surrogate. intros H.
  apply andb_prop in H as [H1 H2]. apply N.leb_le in H1, H2.
  apply andb_true_intro. split; apply N.leb_le; lia.
Qed.

Lemma encodable_safe s : encodable s = true -> json_safe s = true.
Proof.
  induction s as [|c s IH]; [reflexivity|].
  intros H. simpl in H. apply andb_prop in H as [Hc Hs].
  apply andb_prop in Hc as [Hsur Hc]. apply negb_true_iff in Hsur.
  cbn [json_safe]. rewrite Hc, (IH Hs). simpl.
  destruct (is_high_surrogate c) eqn:Hh.
  - apply high_is_surrogate in Hh. congruence.
  - now destruct s.
Qed.

Lemma ascii_encodable s : ascii_str s = true -> encodable s = true.
Proof.
  unfold ascii_str, encodable. induction s as [|c s IH]; [reflexivity|].
  simpl. intros H. apply andb_prop in H as [Hc Hs]. apply N.ltb_lt in Hc.
  rewrite (IH Hs), andb_true_r. apply andb_true_intro. split.
  - apply negb_true_iff. unfold is_surrogate. apply andb_false_intro1. apply N.leb_gt. lia.
  - apply N.leb_le. lia.
Qed.

Lemma repr_byte_length q c : (1 <= length (repr_byte q c))%nat.
Proof.
  unfold repr_byte.
  repeat match goal with |- context [if ?x then _ else _] => destruct x end; simpl; lia.
Qed.

Lemma flat_map_repr_length q b : (length b <= length (flat_map (repr_byte q) b))%nat.
Proof.
  induction b as [|c b IH]; simpl; [lia|].
  rewrite length_app. pose proof (repr_byte_length q c). lia.
Qed.

Lemma bytes_repr_length b : (length b + 3 <= length (bytes_repr b))%nat.
Proof.
  unfold bytes_repr. simpl. rewrite length_app. simpl.
  match goal with |- context [flat_map (repr_byte ?q) b] =>
    pose proof (flat_map_repr_length q b) end. lia.
Qed.

Lemma bytes_repr_literal b : is_bytes_literal (bytes_repr b).
Proof.
  unfold is_bytes_literal, bytes_repr.
  destruct (existsb (N.eqb 39) b && negb (existsb (N.eqb 34) b)); eauto.
Qed.

Lemma as_capital_ascii c : as_capital c = ascii_upper c.
Proof.
  unfold as_capital, small_letters, capital_letters, ascii_upper. cbn [same_letter].
  repeat match goal with
         | |- context [?a =? c] => destruct (N.eqb_spec a c) as [<-|?]; [reflexivity|]
         end.
  destruct (N.leb_spec 97 c); destruct (N.leb_spec c 122); simpl; try reflexivity; lia.
Qed.

Lemma as_small_ascii c : as_small c = ascii_lower c.
Proof.
  unfold as_small, small_letters, capital_letters, ascii_lower. cbn [same_letter].
  repeat match goal with
         | |- context [?a =? c] => destruct (N.eqb_spec a c) as [<-|?]; [reflexivity|]
         end.
  destruct (N.leb_spec 65 c); destruct (N.leb_spec c 90); simpl; try reflexivity; lia.
Qed.

Lemma capitalize_spec s cap : capitalize s = Ok cap -> cap = spec_capitalized s.
Proof.
  unfold capitalize. destruct (forallb _ s); [|discriminate].
  intros H. inversion H. destruct s as [|c r]; [reflexivity|].
  cbn [spec_capitalized]. rewrite as_capital_ascii. f_equal.
  apply map_ext. intros a. symmetry. apply as_small_ascii.
Qed.

Section SavingProperties.
Context {tok : Tokenizer} {svc : Service} {dec : Decoder}.

Lemma markdown_line_block m block :
  markdown_line (msg m) = Ok block -> md_block_of m block.
Proof.
  rewrite markdown_line_msg.
  destruct (capitalize (role m)) as [cap|e] eqn:Ecap; [|discriminate]. simpl.
  destruct (str_encode (content m)) as [b|e] eqn:Eb; [|discriminate]. simpl.
  intros H. inversion H. exists b. rewrite <- (capitalize_spec _ _ Ecap).
  repeat split; auto using bytes_repr_literal.
  intros Heq. destruct (str_encode_ok _ _ Eb) as [_ Hlen].
  pose proof (bytes_repr_length b) as Hr. rewrite Heq in Hr. lia.
Qed.

Lemma markdown_lines_blocks ms : forall lines,
  rmap markdown_line (map msg ms) = Ok lines -> Forall2 md_block_of ms lines.
Proof.
  induction ms as [|m ms IH]; intros lines; simpl.
  - intros H. inversion H. constructor.
  - destruct (markdown_line (msg m)) as [line|e] eqn:El; [|discriminate]. simpl.
    destruct (rmap markdown_line (map msg ms)) as [ls|e]; [|discriminate]. simpl.
    intros H. inversion H. constructor; auto using markdown_line_block.
Qed.

Lemma markdown_lines_total ms :
  Forall (fun m => ascii_str (role m) = true /\ encodable (content m) = true) ms ->
  exists lines, rmap markdown_line (map msg ms) = Ok lines.
Proof.
  induction 1 as [|m ms [Hr Hc] _ [lines IH]]; simpl; [eauto|].
  rewrite markdown_line_msg.
  destruct (capitalize_ascii _ Hr) as [cap ->]. destruct (str_encode_total _ Hc) as [b ->].
  simpl. rewrite IH. simpl. eauto.
Qed.

Lemma markdown_lines_safe ms : forall lines,
  rmap markdown_line (map msg ms) = Ok lines -> Forall safe_message ms.
Proof.
  induction ms as [|m ms IH]; intros lines; simpl; [constructor|].
  rewrite markdown_line_msg.
  destruct (capitalize (role m)) as [cap|e] eqn:Ecap; [|discriminate]. cbn [rbind].
  destruct (str_encode (content m)) as [b|e] eqn:Eb; [|discriminate]. cbn [rbind].
  destruct (rmap markdown_line (map msg ms)) as [ls|e]; [|discriminate].
  intros _. constructor; [|eauto]. split.
  - apply encodable_safe, ascii_encodable. eapply capitalize_ok; eauto.
  - apply encodable_safe. eapply str_encode_ok; eauto.
Qed.

(** The round trip for saves that complete: the file the save names
    loads as the history that was saved. *)
Lemma completed_save_loads_back (ts : pystr) (w w' : world) (ms : list Message)
    (names : pystr * pystr) :
  messages (ss w) = msgs ms ->
  save_chat_history ts w = (Ok names, w') ->
  @load_chat_history python_json (fst names) w' = (Ok (msgs ms), w').
Proof.
  intros Hm Hsave.
  destruct (save_ok_inv _ _ _ _ _ Hm Hsave) as (-> & lines & Hl & _).
  destruct (save_json_written ts w) as [Hj _]. rewrite Hsave, Hm in Hj.
  unfold load_chat_history, read_file, mbind, lift. cbn [fst snd json_load python_json] in *.
  rewrite Hj.
  now rewrite (loads_dumps_msgs ms (markdown_lines_safe _ _ Hl)).
Qed.

(** C6 (as the code has it).  For every sequence of messages (the empty
    one included) in which no role and no content holds a high surrogate
    directly followed by a low surrogate (the code points being those of
    a [str], up to U+10FFFF), the JSON file that a save writes loads back
    as that very sequence: same messages, same order, each role and
    content unchanged.  This holds of the file whether or not the save
    goes on to complete its Markdown file; a save that completes names
    that file first. *)
Theorem save_then_load_roundtrip (ts : pystr) (w : world) (ms : list Message) :
  messages (ss w) = msgs ms ->
  Forall safe_message ms ->
  let w' := snd (save_chat_history ts w) in
  @load_chat_history python_json (json_filename ts) w' = (Ok (msgs ms), w')
  /\ forall names w'', save_chat_history ts w = (Ok names, w'') ->
       fst names = json_filename ts.
Proof.
  intros Hm Hsafe w'. split.
  - destruct (save_json_written ts w) as [Hj _]. fold w' in Hj. rewrite Hm in Hj.
    unfold load_chat_history, read_file, mbind, lift. cbn [fst snd json_load python_json].
    rewrite Hj. now rewrite (loads_dumps_msgs ms Hsafe).
  - intros names w'' Hsave.
    now destruct (save_ok_inv _ _ _ _ _ Hm Hsave) as (-> & _).
Qed.

(** C10.  For a history of messages with ASCII roles (the roles of the
    data model, [user] and [assistant], are) and contents free of
    surrogates, the save completes and the Markdown file is the
    concatenation, in order, of one block per message: between bold
    markers the role capitalized (its first character as a capital
    letter, the others as small letters), then the [repr] of the UTF-8
    bytes of the content (a bytes literal [b'...'] or [b"..."], never the
    content itself), then a blank line.  The JSON file holds the dump of
    the messages themselves. *)
Theorem markdown_block_is_bytes_repr (ts : pystr) (w : world) (ms : list Message) :
  messages (ss w) = msgs ms ->
  Forall (fun m => ascii_str (role m) = true /\ encodable (content m) = true) ms ->
  exists blocks w',
    save_chat_history ts w = (Ok (json_filename ts, md_filename ts), w')
    /\ fs w' !! md_filename ts = Some (concat blocks)
    /\ Forall2 md_block_of ms blocks
    /\ fs w' !! json_filename ts = Some (json_dumps (msgs ms)).
Proof.
  intros Hm Hok. destruct (markdown_lines_total ms Hok) as [lines Hl].
  destruct (save_chat_history ts w) as [r w'] eqn:Hsave.
  assert (r = Ok (json_filename ts, md_filename ts)) as ->.
  { revert Hsave. rewrite save_chat_history_unfold. run. rewrite Hm. cbn [msgs py_iter].
    match goal with |- context [mbind (md_loop ts ?items) ?k ?w1] =>
      pose proof (md_loop_runs ts ms lines w1 Hl) as Hrun; unfold mbind;
      destruct (md_loop ts items w1) as [[[]|e] w2] end;
      cbn [fst] in Hrun; [|discriminate].
    intros H. now inversion H. }
  destruct (save_ok_inv _ _ _ _ _ Hm Hsave) as (_ & lines' & Hl' & Hmd).
  destruct (save_json_written ts w) as [Hj _]. rewrite Hsave, Hm in Hj.
  exists lines', w'. repeat split; auto using markdown_lines_blocks.
Qed.

End SavingProperties.

(** ** The recursion budget of the parser is never exhausted *)

Lemma skip_ws_length s : (length (skip_ws s) <= length s)%nat.
Proof.
  induction s as [|c s IH]; simpl; [lia|]. destruct (is_ws c); simpl; lia.
Qed.

Lemma rcons_ok c r0 x r : rcons c r0 = Ok (x, r) -> exists x', r0 = Ok (x', r).
Proof.
  unfold rcons. destruct r0 as [[x' r']|e]; simpl; [|discriminate].
  intros H. inversion H. eauto.
Qed.

Lemma rcons_raise c r0 e : rcons c r0 = Raise e -> r0 = Raise e.
Proof. unfold rcons. destruct r0 as [[x' r']|e']; simpl; [discriminate|auto]. Qed.

Lemma scanstring_shorter : forall n s x r,
  (length s <= n)%nat -> scanstring s = Ok (x, r) -> (length r < length s)%nat.
Proof.
  induction n as [|n IH]; intros s x r Hn H.
  { destruct s; [discriminate|simpl in Hn; lia]. }
  assert (forall c t, (length t <= n)%nat -> rcons c (scanstring t) = Ok (x, r) ->
                      (length r < length t)%nat) as Hrec.
  { intros c t Ht Hc. apply rcons_ok in Hc as [x' Hc]. eapply IH; eauto. }
  destruct s as [|c s1]; [discriminate|]. simpl in Hn. cbn [scanstring] in H.
  destruct (c =? 34). { inversion H; subst. simpl. lia. }
  destruct (c =? 92).
  - destruct s1 as [|e r1]; [discriminate|].
    destruct (e =? 117).
    + destruct r1 as [|h1 [|h2 [|h3 [|h4 r2]]]]; try discriminate.
      destruct (hex4 h1 h2 h3 h4) as [u|]; [|discriminate].
      simpl in Hn.
      destruct (is_high_surrogate u).
      * destruct r2 as [|b [|u' [|l1 [|l2 [|l3 [|l4 r3]]]]]];
          try (apply Hrec in H; simpl in *; lia).
        destruct ((b =? 92) && (u' =? 117)); [|apply Hrec in H; simpl in *; lia].
        destruct (hex4 l1 l2 l3 l4) as [w|]; [|discriminate].
        destruct (is_low_surrogate w); apply Hrec in H; simpl in *; lia.
      * apply Hrec in H; simpl in *; lia.
    + destruct (unescape e); [|discriminate]. apply Hrec in H; simpl in *; lia.
  - destruct (c <? 32); [discriminate|]. apply Hrec in H; simpl in *; lia.
Qed.

Lemma scanstring_raises : forall n s e,
  (length s <= n)%nat -> scanstring s = Raise e -> e = JSONDecodeError.
Proof.
  induction n as [|n IH]; intros s e Hn H.
  { destruct s; [simpl in H; congruence|simpl in Hn; lia]. }
  assert (forall c t, (length t <= n)%nat -> rcons c (scanstring t) = Raise e ->
                      e = JSONDecodeError) as Hrec.
  { intros c t Ht Hc. apply rcons_raise in Hc. eapply IH; eauto. }
  destruct s as [|c s1]; [simpl in H; congruence|]. simpl in Hn. cbn [scanstring] in H.
  destruct (c =? 34); [discriminate|].
  destruct (c =? 92).
  - destruct s1 as [|e0 r1]; [congruence|].
    destruct (e0 =? 117).
    + destruct r1 as [|h1 [|h2 [|h3 [|h4 r2]]]]; try congruence.
      destruct (hex4 h1 h2 h3 h4) as [u|]; [|congruence].
      simpl in Hn.
      destruct (is_high_surrogate u).
      * destruct r2 as [|b [|u' [|l1 [|l2 [|l3 [|l4 r3]]]]]];
          try (apply Hrec in H; [assumption|simpl in *; lia]).
        destruct ((b =? 92) && (u' =? 117));
          [|apply Hrec in H; [assumption|simpl in *; lia]].
        destruct (hex4 l1 l2 l3 l4) as [w|]; [|congruence].
        destruct (is_low_surrogate w); apply Hrec in H; solve [assumption|simpl in *; lia].
      * apply Hrec in H; [assumption|simpl in *; lia].
    + destruct (unescape e0); [|congruence]. apply Hrec in H; [assumption|simpl in *; lia].
  - destruct (c <? 32); [congruence|]. apply Hrec in H; [assumption|simpl in *; lia].
Qed.

Lemma span_digits_length s : (length (snd (span_digits s)) <= length s)%nat.
Proof.
  induction s as [|c s IH]; simpl; [lia|].
  destruct (is_digit c); [|simpl; lia].
  destruct (span_digits s) as [ds rest]. simpl in *. lia.
Qed.

Lemma match_number_shorter s v r :
  match_number s = Ok (v, r) -> (length r < length s)%nat.
Proof.
  unfold match_number.
  assert (forall neg (s1 : pystr), (length s1 <= length s)%nat ->
    match s1 with
    | [] => Raise JSONDecodeError
    | d :: r0 =>
        match (if d =? 48 then Some ([d], r0)
               else if is_digit d then let '(ds, rest) := span_digits r0 in Some (d :: ds, rest)
               else None) with
        | None => Raise JSONDecodeError
        | Some (ds, rest) =>
            if float_follows rest then Raise Unmodelled
            else if Nat.ltb max_int_digits (length ds) then Raise Unmodelled
            else Ok (PInt (if neg : bool then (- Z.of_N (digits_value ds))%Z
                           else Z.of_N (digits_value ds)), rest)
        end
    end = Ok (v, r) -> (length r < length s)%nat) as Hcore.
  { intros neg s1 Hlen H. destruct s1 as [|d r0]; [discriminate|]. simpl in Hlen.
    destruct (d =? 48).
    - destruct (float_follows r0); [discriminate|].
      destruct (Nat.ltb _ _); [discriminate|]. inversion H; subst. lia.
    - destruct (is_digit d); [|discriminate].
      pose proof (span_digits_length r0) as Hs.
      destruct (span_digits r0) as [ds rest]. simpl in Hs.
      destruct (float_follows rest); [discriminate|].
      destruct (Nat.ltb _ _); [discriminate|]. inversion H; subst. lia. }
  destruct s as [|c r0]; [discriminate|].
  destruct (c =? 45); intros H.
  - apply (Hcore true r0); [simpl; lia | exact H].
  - apply (Hcore false (c :: r0)); [simpl; lia | exact H].
Qed.

Lemma match_number_raises s e :
  match_number s = Raise e -> e = JSONDecodeError \/ e = Unmodelled.
Proof.
  unfold match_number.
  destruct (match s with
            | [] => (false, s)
            | c :: r => if c =? 45 then (true, r) else (false, s)
            end) as [neg s1].
  destruct s1 as [|d r0]; [intros H; inversion H; auto|].
  destruct (if d =? 48 then Some ([d], r0)
            else if is_digit d then let '(ds, rest) := span_digits r0 in Some (d :: ds, rest)
            else None) as [[ds rest]|]; [|intros H; inversion H; auto].
  destruct (float_follows rest); [intros H; inversion H; auto|].
  destruct (Nat.ltb _ _); [intros H; inversion H; auto|discriminate].
Qed.

Lemma strip_prefix_length p : forall s r,
  strip_prefix p s = Some r -> (length s = length p + length r)%nat.
Proof.
  induction p as [|a p IH]; intros s r; simpl.
  - intros H. now inversion H.
  - destruct s as [|b s]; [discriminate|]. destruct (a =? b); [|discriminate].
    intros H. apply IH in H. simpl. lia.
Qed.

Lemma expect_literal_shorter lit v s x r :
  lit <> [] -> expect_literal lit v s = Ok (x, r) -> (length r < length s)%nat.
Proof.
  intros Hlit. unfold expect_literal.
  destruct (strip_prefix lit s) as [rest|] eqn:E; [|discriminate].
  apply strip_prefix_length in E. destruct v as [y|e]; simpl; [|discriminate].
  intros H. inversion H; subst. destruct lit; [congruence|simpl in E; lia].
Qed.

Lemma expect_literal_raises lit v s e :
  (forall e', v = Raise e' -> e' = Unmodelled) ->
  expect_literal lit v s = Raise e -> e = JSONDecodeError \/ e = Unmodelled.
Proof.
  intros Hv. unfold expect_literal.
  destruct (strip_prefix lit s); [|intros H; inversion H; auto].
  destruct v as [y|e']; simpl; [discriminate|].
  intros H. inversion H; subst. right. now apply Hv.
Qed.

Lemma parser_progress f :
  (forall d s v r, scan_once f d s = Ok (v, r) -> (length r < length s)%nat)
  /\ (forall d s vs r, elems f d s = Ok (vs, r) -> (length r < length s)%nat)
  /\ (forall d s kvs r, members f d s = Ok (kvs, r) -> (length r < length s)%nat).
Proof.
  induction f as [|f (IHs & IHe & IHm)]; [repeat split; intros; discriminate|].
  repeat split.
  - intros d s v r H. cbn [scan_once] in H.
    destruct s as [|c r0]; [discriminate|].
    destruct (c =? 34).
    { destruct (scanstring r0) as [[str rest]|e] eqn:E; simpl in H; [|discriminate].
      inversion H; subst. apply (scanstring_shorter (length r0)) in E; simpl; lia. }
    pose proof (skip_ws_length r0) as Hws.
    destruct (c =? 123).
    { destruct d as [|d]; [discriminate|].
      destruct (skip_ws r0) as [|c' r'] eqn:Ews; [discriminate|].
      destruct (c' =? 125); [inversion H; subst; simpl in *; lia|].
      destruct (members f d (c' :: r')) as [[kvs rest]|e] eqn:E; simpl in H; [|discriminate].
      inversion H; subst. apply IHm in E. simpl in *. lia. }
    destruct (c =? 91).
    { destruct d as [|d]; [discriminate|].
      destruct (skip_ws r0) as [|c' r'] eqn:Ews; [discriminate|].
      destruct (c' =? 93); [inversion H; subst; simpl in *; lia|].
      destruct (elems f d (c' :: r')) as [[vs rest]|e] eqn:E; simpl in H; [|discriminate].
      inversion H; subst. apply IHe in E. simpl in *. lia. }
    repeat match type of H with
           | (if ?x =? ?k then _ else _) = _ =>
               destruct (x =? k);
                 [apply expect_literal_shorter in H; [exact H|discriminate]|]
           end.
    destruct (startswith _ _); [discriminate|].
    eapply match_number_shorter; exact H.
  - intros d s vs r H. cbn [elems] in H.
    destruct (scan_once f d s) as [[v r1]|e] eqn:E; simpl in H; [|discriminate].
    apply IHs in E. pose proof (skip_ws_length r1) as Hws.
    destruct (skip_ws r1) as [|c r'] eqn:Ews; [discriminate|].
    destruct (c =? 93); [inversion H; subst; simpl in *; lia|].
    destruct (c =? 44); [|discriminate].
    pose proof (skip_ws_length r') as Hws'.
    destruct (elems f d (skip_ws r')) as [[vs' rest]|e] eqn:E2; simpl in H; [|discriminate].
    inversion H; subst. apply IHe in E2. simpl in *. lia.
  - intros d s kvs r H. cbn [members] in H.
    destruct s as [|q r0]; [discriminate|].
    destruct (q =? 34); [|discriminate].
    destruct (scanstring r0) as [[k r1]|e] eqn:Ek; simpl in H; [|discriminate].
    apply (scanstring_shorter (length r0)) in Ek; [|lia].
    pose proof (skip_ws_length r1) as Hws1.
    destruct (skip_ws r1) as [|colon r2] eqn:Ews1; [discriminate|].
    destruct (colon =? 58); [|discriminate].
    pose proof (skip_ws_length r2) as Hws2.
    destruct (scan_once f d (skip_ws r2)) as [[v r3]|e] eqn:Ev; simpl in H; [|discriminate].
    apply IHs in Ev. pose proof (skip_ws_length r3) as Hws3.
    destruct (skip_ws r3) as [|c r'] eqn:Ews3; [discriminate|].
    destruct (c =? 125); [inversion H; subst; simpl in *; lia|].
    destruct (c =? 44); [|discriminate].
    pose proof (skip_ws_length r') as Hws'.
    destruct (members f d (skip_ws r')) as [[kvs' rest]|e] eqn:E2; simpl in H; [|discriminate].
    inversion H; subst. apply IHm in E2. simpl in *. lia.
Qed.

Lemma parser_fuel f :
  (forall d s, (2 * length s + 1 <= f)%nat -> scan_once f d s <> Raise OutOfFuel)
  /\ (forall d s, (2 * length s + 2 <= f)%nat -> elems f d s <> Raise OutOfFuel)
  /\ (forall d s, (2 * length s + 2 <= f)%nat -> members f d s <> Raise OutOfFuel).
Proof.
  induction f as [|f (IHs & IHe & IHm)]; [repeat split; intros; lia|].
  destruct (parser_progress f) as (Ps & Pe & Pm).
  repeat split.
  - intros d s Hf H. cbn [scan_once] in H.
    destruct s as [|c r0]; [discriminate|]. simpl in Hf.
    destruct (c =? 34).
    { destruct (scanstring r0) as [[str rest]|e] eqn:E; simpl in H; [discriminate|].
      apply (scanstring_raises (length r0)) in E; [congruence|lia]. }
    pose proof (skip_ws_length r0) as Hws.
    destruct (c =? 123).
    { destruct d as [|d]; [discriminate|].
      destruct (skip_ws r0) as [|c' r'] eqn:Ews; [discriminate|].
      destruct (c' =? 125); [discriminate|].
      destruct (members f d (c' :: r')) as [[kvs rest]|e] eqn:E; simpl in H; [discriminate|].
      inversion H; subst. apply IHm in E; [assumption|simpl in *; lia]. }
    destruct (c =? 91).
    { destruct d as [|d]; [discriminate|].
      destruct (skip_ws r0) as [|c' r'] eqn:Ews; [discriminate|].
      destruct (c' =? 93); [discriminate|].
      destruct (elems f d (c' :: r')) as [[vs rest]|e] eqn:E; simpl in H; [discriminate|].
      inversion H; subst. apply IHe in E; [assumption|simpl in *; lia]. }
    repeat match type of H with
           | (if ?x =? ?k then _ else _) = _ =>
               destruct (x =? k);
                 [apply expect_literal_raises in H;
                  [destruct H; discriminate | intros ? ?; congruence]|]
           end.
    destruct (startswith _ _); [discriminate|].
    apply match_number_raises in H. destruct H; discriminate.
  - intros d s Hf H. cbn [elems] in H.
    destruct (scan_once f d s) as [[v r1]|e] eqn:E; simpl in H.
    2:{ inversion H; subst. apply IHs in E; [assumption|lia]. }
    apply Ps in E. pose proof (skip_ws_length r1) as Hws.
    destruct (skip_ws r1) as [|c r'] eqn:Ews; [discriminate|].
    destruct (c =? 93); [discriminate|].
    destruct (c =? 44); [|discriminate].
    pose proof (skip_ws_length r') as Hws'.
    destruct (elems f d (skip_ws r')) as [[vs' rest]|e] eqn:E2; simpl in H; [discriminate|].
    inversion H; subst. apply IHe in E2; [assumption|simpl in *; lia].
  - intros d s Hf H. cbn [members] in H.
    destruct s as [|q r0]; [discriminate|]. simpl in Hf.
    destruct (q =? 34); [|discriminate].
    destruct (scanstring r0) as [[k r1]|e] eqn:Ek; simpl in H.
    2:{ apply (scanstring_raises (length r0)) in Ek; [congruence|lia]. }
    apply (scanstring_shorter (length r0)) in Ek; [|lia].
    pose proof (skip_ws_length r1) as Hws1.
    destruct (skip_ws r1) as [|colon r2] eqn:Ews1; [discriminate|].
    destruct (colon =? 58); [|discriminate].
    pose proof (skip_ws_length r2) as Hws2.
    destruct (scan_once f d (skip_ws r2)) as [[v r3]|e] eqn:Ev; simpl in H.
    2:{ inversion H; subst. apply IHs in Ev; [assumption|simpl in *; lia]. }
    apply Ps in Ev. pose proof (skip_ws_length r3) as Hws3.
    destruct (skip_ws r3) as [|c r'] eqn:Ews3; [discriminate|].
    destruct (c =? 125); [discriminate|].
    destruct (c =? 44); [|discriminate].
    pose proof (skip_ws_length r') as Hws'.
    destruct (members f d (skip_ws r')) as [[kvs' rest]|e] eqn:E2; simpl in H; [discriminate|].
    inversion H; subst. apply IHm in E2; [assumption|simpl in *; lia].
Qed.

(** [json_loads] decides every input within its budget: it returns a
    value, [JSONDecodeError] or [Unmodelled], never [OutOfFuel]. *)
Lemma json_loads_fuel s : json_loads s <> Raise OutOfFuel.
Proof.
  unfold json_loads. intros H.
  destruct (parser_fuel (2 * length s + 2)) as (Fs & _ & _).
  pose proof (skip_ws_length s) as Hws.
  destruct (scan_once (2 * length s + 2) max_nesting (skip_ws s)) as [[v rest]|e] eqn:E;
    simpl in H.
  - destruct (skip_ws rest); discriminate.
  - inversion H; subst. apply Fs in E; [assumption|lia].
Qed.

(** ** Concrete runs *)

(** The example of the specification: fifteen messages, a window of ten. *)
Lemma request_context_is_history_window_witness :
  let w := fresh_world (session_of (py "gpt-4o") history14 0 10) in
  let history := history14 ++ [user_message (py "fifteenth")] in
  exists params,
    requests (log (snd (@chat_turn toy_tokenizer pong_service
                          (Some (py "sk-test")) (py "fifteenth") w)))
    = [(py "sk-test", params)]
    /\ params !! "messages" = Some (ParamVal (msgs (last_n 10 history)))
    /\ length (last_n 10 history) = 10%nat
    /\ length history = 15%nat.
Proof.
  intros w history.
  destruct (@request_context_is_history_window toy_tokenizer pong_service
              (py "sk-test") (py "fifteenth") w history14 eq_refl ltac:(simpl; lia))
    as (params & Hr & Hp & Hlong & _).
  exists params. split; [exact Hr|]. split; [exact Hp|].
  split; [|reflexivity]. apply Hlong. vm_compute. lia.
Defined.

Lemma reasoning_request_has_model_and_messages_only_witness :
  let w := fresh_world (session_of (py "o1-mini") greeting 7 10) in
  exists new,
    requests (log (snd (@chat_turn toy_tokenizer pong_service
                          (Some (py "sk-test")) (py "why?") w)))
    = requests (log w) ++ new
    /\ Forall only_model_and_messages new.
Proof.
  intros w.
  exact (@reasoning_request_has_model_and_messages_only toy_tokenizer pong_service
           (Some (py "sk-test")) (py "why?") w eq_refl).
Defined.

(** The call of that turn, in full. *)
Lemma reasoning_request_example :
  let w := fresh_world (session_of (py "o1-mini") greeting 7 10) in
  requests (log (snd (@chat_turn toy_tokenizer pong_service
                        (Some (py "sk-test")) (py "why?") w)))
  = [(py "sk-test",
      <["messages" := ParamVal (msgs (greeting ++ [user_message (py "why?")]))]>
        {["model" := ParamVal (PStr (py "o1-mini"))]})].
Proof. vm_compute. reflexivity. Qed.

(** The same turn under a streaming model sends five keyword arguments. *)
Lemma streaming_request_example :
  let w := fresh_world (session_of (py "gpt-4o") greeting 7 10) in
  requests (log (snd (@chat_turn toy_tokenizer pong_service
                        (Some (py "sk-test")) (py "why?") w)))
  = [(py "sk-test",
      <["max_tokens" := ParamVal (PInt 512)]>
        (<["temperature" := ParamFloat (7 # 10)]>
           (<["stream" := ParamVal (PBool true)]>
              (<["messages" := ParamVal (msgs (greeting ++ [user_message (py "why?")]))]>
                 {["model" := ParamVal (PStr (py "gpt-4o"))]}))))].
Proof. vm_compute. reflexivity. Qed.

Lemma streamed_text_is_committed_witness :
  let w := fresh_world (session_of (py "gpt-4o") greeting 7 10) in
  messages (ss (snd (@chat_turn toy_tokenizer pong_service
                       (Some (py "sk-test")) (py "ping") w)))
  = msgs (greeting ++ [user_message (py "ping"); assistant_message (py "pong")]).
Proof.
  intros w.
  exact (@streamed_text_is_committed toy_tokenizer pong_service
           (py "sk-test") (py "ping") w (map msg greeting) _ [py "po"; []; py "ng"]
           eq_refl eq_refl eq_refl eq_refl).
Defined.

Lemma token_count_after_turn_witness :
  let w := fresh_world (session_of (py "gpt-4o") greeting 7 10) in
  let w' := snd (@chat_turn toy_tokenizer pong_service (Some (py "sk-test")) (py "ping") w) in
  @spec_token_total toy_tokenizer default_model (messages (ss w')) = Ok (token_count (ss w'))
  /\ token_count (ss w') = 15%Z.
Proof.
  intros w w'. split; [|reflexivity].
  exact (@token_count_after_turn toy_tokenizer pong_service
           (Some (py "sk-test")) (py "ping") w eq_refl).
Defined.

(** C4 at concrete turns, under the model ["gpt-4o"].  A turn that
    completes leaves [token_count] at fifteen, the count under ["gpt-4"],
    while the history counts eight tokens under the session's model.  A
    turn whose request fails leaves [token_count] at seven, its value
    before the user message was appended, while the three messages of the
    history count six tokens under the session's model and eleven under
    ["gpt-4"]. *)
Lemma token_count_ignores_session_model :
  let w := fresh_world (session_of (py "gpt-4o") greeting 7 10) in
  let done := @chat_turn toy_tokenizer pong_service (Some (py "sk-test")) (py "ping") w in
  let failed := @chat_turn toy_tokenizer failing_service (Some (py "sk-test")) (py "ping") w in
  (fst done = Ok tt
   /\ model (ss (snd done)) = py "gpt-4o"
   /\ token_count (ss (snd done)) = 15%Z
   /\ @spec_token_total toy_tokenizer (model (ss (snd done))) (messages (ss (snd done)))
      = Ok 8%Z
   /\ @spec_token_total toy_tokenizer (model (ss (snd done))) (messages (ss (snd done)))
      <> Ok (token_count (ss (snd done))))
  /\ (fst failed = Raise APIError
      /\ messages (ss (snd failed)) = msgs (greeting ++ [user_message (py "ping")])
      /\ token_count (ss (snd failed)) = 7%Z
      /\ @spec_token_total toy_tokenizer (model (ss (snd failed))) (messages (ss (snd failed)))
         = Ok 6%Z
      /\ @spec_token_total toy_tokenizer default_model (messages (ss (snd failed)))
         = Ok 11%Z).
Proof. vm_compute. repeat split; discriminate. Qed.

Lemma failed_request_aborts_turn_witness :
  let w := fresh_world (session_of (py "gpt-4o") greeting 7 10) in
  let r := @chat_turn toy_tokenizer failing_service (Some (py "sk-test")) (py "ping") w in
  fst r = Raise APIError
  /\ messages (ss (snd r)) = msgs (greeting ++ [user_message (py "ping")])
  /\ length (requests (log (snd r))) = 1%nat.
Proof.
  intros w r.
  destruct (@failed_request_aborts_turn toy_tokenizer failing_service
              (py "sk-test") (py "ping") w (map msg greeting) _ APIError
              eq_refl eq_refl eq_refl) as (Hr & Hm & Hq).
  split; [exact Hr|]. split; [exact Hm|].
  unfold r. rewrite Hq. reflexivity.
Defined.

(** C7 at a concrete turn, over a service that answers every request
    with HTTP 500.  The turn fails and appends no assistant message, and
    the script has called [create] once; but that one call has sent its
    request three times: after the failure it was sent again, twice,
    without the user asking. *)
Lemma failed_request_is_retried :
  let w := fresh_world (session_of (py "gpt-4o") greeting 7 10) in
  let r := @chat_turn toy_tokenizer (client_service overloaded)
             (Some (py "sk-test")) (py "ping") w in
  fst r = Raise APIError
  /\ messages (ss (snd r)) = msgs (greeting ++ [user_message (py "ping")])
  /\ exists params,
       requests (log (snd r)) = [(py "sk-test", params)]
       /\ requests_sent overloaded (py "sk-test") params = 3%nat.
Proof.
  vm_compute. split; [reflexivity|]. split; [reflexivity|].
  eexists. split; [reflexivity|]. vm_compute. reflexivity.
Qed.

(** One call sends its request at least once and at most once more than
    it has retries. *)
Lemma sdk_request_sent {A} (attempts : nat -> attempt A) (remaining : nat) :
  forall sent,
    (sent < snd (sdk_request attempts remaining sent) <= sent + remaining + 1)%nat.
Proof.
  induction remaining as [|r IH]; intros sent; cbn [sdk_request].
  - destruct (attempts sent); simpl; lia.
  - destruct (attempts sent) as [a| |code hdr]; simpl; try lia.
    + specialize (IH (S sent)). lia.
    + destruct (should_retry code hdr); simpl; [specialize (IH (S sent))|]; lia.
Qed.

Lemma requests_sent_bounds (t : Transport) k params :
  (1 <= requests_sent t k params <= 1 + DEFAULT_MAX_RETRIES)%nat.
Proof.
  unfold requests_sent.
  destruct (params !! "stream");
    match goal with |- context [sdk_request ?a ?r 0] =>
      pose proof (sdk_request_sent a r 0) end; lia.
Qed.

(** A reasoning model whose call raises: the same outcome. *)
Lemma failed_batch_request_example :
  let w := fresh_world (session_of (py "o1-preview") greeting 7 10) in
  let r := @chat_turn toy_tokenizer failing_service (Some (py "sk-test")) (py "ping") w in
  fst r = Raise APIError
  /\ messages (ss (snd r)) = msgs (greeting ++ [user_message (py "ping")])
  /\ token_count (ss (snd r)) = 7%Z
  /\ length (requests (log (snd r))) = 1%nat.
Proof. vm_compute. repeat split. Qed.

Lemma missing_key_blocks_request_witness :
  exists l,
    log (snd (@main toy_tokenizer pong_service python_json (submit [] (py "gpt-4o") (py "ping") 10)
                (fresh_world (initial_session None))))
    = SidebarWarning :: l
    /\ requests l = [].
Proof.
  exact (@missing_key_blocks_request toy_tokenizer pong_service python_json
           (submit [] (py "gpt-4o") (py "ping") 10) (fresh_world (initial_session None))
           eq_refl (or_introl eq_refl)).
Defined.

(** C5 at a concrete upload: an artifact whose only object lacks
    [content] takes the place of the history, and the run ends with
    [KeyError]. *)
Lemma malformed_upload_replaces_messages :
  let w := fresh_world (session_of (py "gpt-4o") greeting 7 10) in
  let r := @load_uploaded toy_tokenizer python_json (pyq "[{'role': 'user'}]") w in
  fst r = Raise KeyError
  /\ messages (ss (snd r)) = PList [PDict [(key_role, PStr (py "user"))]]
  /\ messages (ss (snd r)) <> messages (ss w)
  /\ token_count (ss (snd r)) = 7%Z.
Proof. vm_compute. repeat split; discriminate. Qed.

(** An artifact whose content is a number: [json.load] gives a float,
    which takes its place in the history, and the count raises
    [TypeError]. *)
Lemma float_content_upload_example :
  let v := PList [message_dict (PStr (py "user")) (PFloat (py "0.5"))] in
  let w := fresh_world (session_of (py "gpt-4o") greeting 7 10) in
  let r := @load_uploaded toy_tokenizer (scripted_decoder (Ok v))
             (pyq "[{'role': 'user', 'content': 0.5}]") w in
  fst r = Raise TypeError
  /\ messages (ss (snd r)) = v
  /\ token_count (ss (snd r)) = 7%Z.
Proof. vm_compute. repeat split. Qed.

Lemma save_then_load_roundtrip_witness :
  let w := fresh_world (session_of (py "gpt-4o") mixed_history 0 10) in
  let ts := py "20240101_120000" in
  let w' := snd (save_chat_history ts w) in
  @load_chat_history python_json (json_filename ts) w' = (Ok (msgs mixed_history), w').
Proof.
  intros w ts w'.
  apply (@save_then_load_roundtrip ts w mixed_history eq_refl).
  repeat constructor.
Defined.

(** C6 at a concrete history: one message whose content is a high
    surrogate followed by a low surrogate.  The JSON file is written in
    full, with the two escapes (the save then stops at the Markdown
    file, whose [encode] refuses a surrogate); loading the JSON file
    gives a content of one code point, U+1F600, and so a sequence that
    differs from the one saved. *)
Lemma split_surrogate_pair_does_not_round_trip :
  let w := fresh_world (session_of (py "gpt-4o") split_pair_history 0 10) in
  let ts := py "20240101_120000" in
  let w' := snd (save_chat_history ts w) in
  fst (save_chat_history ts w) = Raise UnicodeEncodeError
  /\ fs w' !! json_filename ts
  = Some (pyq "[{'role': 'user', 'content': '\ud83d\ude00'}]")
  /\ @load_chat_history python_json (json_filename ts) w'
     = (Ok (msgs [user_message [128512]]), w')
  /\ msgs [user_message [128512]] <> msgs split_pair_history.
Proof. vm_compute. repeat split; discriminate. Qed.

(** The empty history is saved as [[]] and loads as the empty sequence. *)
Lemma save_then_load_empty :
  let w := fresh_world (initial_session None) in
  let ts := py "20240101_120000" in
  fs (snd (save_chat_history ts w)) !! json_filename ts = Some (py "[]")
  /\ @load_chat_history python_json (json_filename ts) (snd (save_chat_history ts w))
     = (Ok (msgs []), snd (save_chat_history ts w)).
Proof. split; reflexivity. Qed.

(** The file of a history with roles in mixed case, spelled out: the
    roles capitalized, the contents as bytes literals. *)
Lemma markdown_block_is_bytes_repr_witness :
  let w := fresh_world (session_of (py "gpt-4o") shouted_history 0 10) in
  let ts := py "20240101_120000" in
  exists w',
    save_chat_history ts w = (Ok (json_filename ts, md_filename ts), w')
    /\ fs w' !! md_filename ts
       = Some (py "**User:** b'h\xc3\xa9" ++ [34] ++ py "\n\xf0\x9f\x98\x80'" ++ [10; 10]
               ++ py "**Assistant:** b" ++ [34] ++ py "it's\t\r\\\x01\x7f\xe2\x82\xac"
               ++ [34] ++ [10; 10])
    /\ fs w' !! json_filename ts = Some (json_dumps (msgs shouted_history)).
Proof.
  intros w ts.
  destruct (@markdown_block_is_bytes_repr ts w shouted_history eq_refl
              ltac:(repeat constructor))
    as (blocks & w' & Hs & Hmd & Hb & Hj).
  exists w'. split; [exact Hs|]. split; [|exact Hj].
  rewrite Hmd. f_equal.
  inversion Hb as [|m1 b1 ms1 bs1 (x1 & Hx1 & E1 & _) Hb']; subst.
  inversion Hb' as [|m2 b2 ms2 bs2 (x2 & Hx2 & E2 & _) Hb'']; subst.
  inversion Hb''; subst.
  vm_compute in Hx1. inversion Hx1; subst x1.
  vm_compute in Hx2. inversion Hx2; subst x2.
  reflexivity.
Defined.

(** The Markdown file of that save, as text. *)
Lemma markdown_file_example :
  let w := fresh_world (session_of (py "gpt-4o") mixed_history 0 10) in
  let ts := py "20240101_120000" in
  fs (snd (save_chat_history ts w)) !! md_filename ts
  = Some (py "**User:** b'h\xc3\xa9" ++ [34] ++ py "\n\xf0\x9f\x98\x80'" ++ [10; 10]
          ++ py "**Assistant:** b'ok'" ++ [10; 10]).
Proof. reflexivity. Qed.

(** A high surrogate directly followed by a low one is dumped as two
    escapes, which load as one code point; a [str] that holds a surrogate
    is refused by [encode], so the Markdown step of its save raises. *)
Lemma surrogate_pair_is_merged :
  json_loads (json_dumps (PStr [55357; 56832])) = Ok (PStr [128512])
  /\ str_encode [55357; 56832] = Raise UnicodeEncodeError.
Proof. split; reflexivity. Qed.

(** ** Whole runs of the script *)

Lemma requests_bind {A B} (c : M A) (k : A -> M B) w :
  (forall a, silent (k a)) ->
  requests (log (snd (mbind c k w))) = requests (log (snd (c w))).
Proof.
  intros Hk. unfold mbind. destruct (c w) as [[a|e] w1]; simpl; [|reflexivity].
  destruct (Hk a w1) as (l & Hl & Hq). now rewrite Hl, requests_app, Hq, app_nil_r.
Qed.

Section Runs.
Context {tok : Tokenizer} {svc : Service} {dec : Decoder}.

Lemma render_loop ms : forall w, exists l,
  mfor (map msg ms) (fun message =>
    let! r := lift (subscript message key_role) in
    let! name := lift (chat_name r) in
    emit (ChatMessage name) ;;
    let! c := lift (subscript message key_content) in
    emit (Markdown c)) w
  = (Ok tt, {| ss := ss w; fs := fs w; log := log w ++ l |})
  /\ requests l = [].
Proof.
  induction ms as [|m ms IH]; intros w.
  - exists []. rewrite app_nil_r. now destruct w.
  - cbn [map mfor]. run.
    change (subscript (msg m) key_role) with (Ok (PStr (role m))).
    cbn [chat_name]. run.
    change (subscript (msg m) key_content) with (Ok (PStr (content m))).
    cbn match. run.
    match goal with |- context [mfor _ _ ?w1] => destruct (IH w1) as (l & -> & Hq) end.
    cbn [ss fs log]. eexists. rewrite <- !app_assoc. split; [reflexivity|]. exact Hq.
Qed.

Lemma render_history_msgs ms w :
  messages (ss w) = msgs ms ->
  exists l, render_history w = (Ok tt, {| ss := ss w; fs := fs w; log := log w ++ l |})
            /\ requests l = [].
Proof.
  intros Hm. unfold render_history. run. rewrite Hm. cbn [msgs py_iter].
  apply render_loop.
Qed.

Lemma silent_tail (w : widgets) :
  silent
    (sidebar_totals ;;
     when (save_clicked w)
       (let! names := save_chat_history (timestamp w) in
        emit (SavedAs (fst names) (snd names))) ;;
     match uploaded_file w with
     | Some text => load_uploaded text
     | None => mret tt
     end ;;
     when (reset_clicked w) reset_conversation).
Proof.
  unfold sidebar_totals, save_chat_history, md_loop, load_uploaded,
    reset_conversation, recount.
  silence.
Qed.

(** A run with a key and a prompt, on a history of messages: the
    window of the request is the one the slider returns, which is at
    least 1. *)
Lemma run_request_window (w : widgets) (w0 : world) (ms : list Message) k0 k c p :
  widgets_ok w ->
  In (model (ss w0)) available_models ->
  messages (ss w0) = msgs ms ->
  in_api_key w = k0 :: k ->
  chat_input w = Some (c :: p) ->
  exists params,
    requests (log (snd (main w w0))) = requests (log w0) ++ [(k0 :: k, params)]
    /\ params !! "messages"
       = Some (ParamVal (msgs (last_n (Z.to_nat (in_history_window w))
                                      (ms ++ [user_message (c :: p)])))).
Proof.
  intros (_ & Hwin & _) Hmodel Hm Hk Hin. unfold main, sidebar, make_client.
  run. cbn [model].
  destruct (decide (In (model (ss w0)) available_models)); [|contradiction].
  run. cbn [api_key model]. rewrite Hk, Hin. run.
  match goal with |- context [mbind render_history ?k ?w1] =>
    destruct (render_history_msgs ms w1 Hm) as (l & Hr & Hq);
    rewrite (mbind_ok _ _ _ _ _ Hr) end.
  cbn [ss fs log].
  rewrite requests_bind by (intros; apply silent_tail).
  match goal with |- context [chat_turn _ _ ?w2] => set (W := w2) end.
  assert (messages (ss W) = msgs ms) as HmW by exact Hm.
  assert (history_window (ss W) = in_history_window w) as HwW by reflexivity.
  assert (requests (log W) = requests (log w0)) as HlW.
  { unfold W. cbn [log]. rewrite !requests_app, Hq. simpl. now rewrite !app_nil_r. }
  clearbody W.
  rewrite (chat_turn_log (Some (k0 :: k)) (c :: p) (map msg ms) W HmW).
  pose proof (prompted_window (c :: p) ms (ss W) ltac:(rewrite HwW; lia)) as Hp.
  destruct (assistant_reply_call (k0 :: k) (after_prompt (c :: p) (map msg ms) W) _ Hp)
    as [_ Hcall].
  eexists. split;
    [etransitivity; [exact Hcall|]; rewrite after_prompt_requests, HlW; reflexivity|].
  rewrite HwW.
  unfold call_params, streaming_params. destruct (startswith _ _); now simplify_map_eq.
Qed.

(** A run in which only the reset button was pressed, on a history of
    messages: the run is left by [st.rerun()] with an empty history and
    a token count of 0. *)
Lemma reset_run (w : widgets) (w0 : world) (ms : list Message) :
  In (model (ss w0)) available_models ->
  messages (ss w0) = msgs ms ->
  chat_input w = None -> save_clicked w = false -> uploaded_file w = None ->
  reset_clicked w = true ->
  fst (main w w0) = Raise RerunException
  /\ messages (ss (snd (main w w0))) = PList []
  /\ token_count (ss (snd (main w w0))) = 0%Z.
Proof.
  intros Hmodel Hm Hin Hsave Hup Hreset. unfold main, sidebar, make_client.
  run. cbn [model].
  destruct (decide (In (model (ss w0)) available_models)); [|contradiction].
  run. cbn [api_key]. rewrite Hin, Hsave, Hup, Hreset.
  unfold sidebar_totals, reset_conversation. cbn [when].
  destruct (in_api_key w); run;
    match goal with |- context [mbind render_history ?k ?w1] =>
      destruct (render_history_msgs ms w1 Hm) as (l & Hr & Hq);
      rewrite (mbind_ok _ _ _ _ _ Hr) end;
    run; rewrite Hm; cbn [msgs py_len]; run; auto.
Qed.

End Runs.

(** ** Further properties of the script *)

(** *** What computations keep *)

Lemma preserves_ret {A} I (a : A) : preserves I (mret a).
Proof. intros w H. exact H. Qed.

Lemma preserves_raise {A} I e : preserves I (@raise A e).
Proof. intros w H. exact H. Qed.

Lemma preserves_lift {A} I (r : result A) : preserves I (lift r).
Proof. intros w H. exact H. Qed.

Lemma preserves_get I : preserves I get_ss.
Proof. intros w H. exact H. Qed.

Lemma preserves_emit I e : preserves I (emit e).
Proof. intros w H. exact H. Qed.

Lemma preserves_write I n c : preserves I (write_file n c).
Proof. intros w H. exact H. Qed.

Lemma preserves_append_file I n c : preserves I (append_file n c).
Proof. intros w H. exact H. Qed.

Lemma preserves_read I n : preserves I (read_file n).
Proof. intros w H. exact H. Qed.

Lemma preserves_modify (I : session_state -> Prop) f :
  (forall s, I s -> I (f s)) -> preserves I (modify_ss f).
Proof. intros Hf w H. simpl. auto. Qed.

Lemma preserves_bind {A B} I (c : M A) (k : A -> M B) :
  preserves I c -> (forall a, preserves I (k a)) -> preserves I (mbind c k).
Proof.
  intros Hc Hk w H. unfold mbind. specialize (Hc w H).
  destruct (c w) as [[a|e] w1]; simpl in *; [now apply Hk|assumption].
Qed.

Lemma preserves_mfor {A} I (xs : list A) (body : A -> M unit) :
  (forall x, preserves I (body x)) -> preserves I (mfor xs body).
Proof.
  intros Hb. induction xs as [|x xs IH]; simpl.
  - apply preserves_ret.
  - apply preserves_bind; auto.
Qed.

Lemma preserves_when I b c : preserves I c -> preserves I (when b c).
Proof. destruct b; simpl; auto using preserves_ret. Qed.

Create HintDb keeps.
#[local] Hint Resolve preserves_ret preserves_raise preserves_lift preserves_get
  preserves_emit preserves_write preserves_append_file preserves_read : keeps.

Ltac keep :=
  repeat first
    [ assumption
    | simple apply preserves_bind; [|intros ?]
    | simple apply preserves_mfor; intros ?
    | simple apply preserves_when
    | solve [auto with keeps]
    | match goal with |- preserves _ (match ?x with _ => _ end) => destruct x end ].

Lemma preserves_ok_of {A} I (c : M A) : preserves I c -> preserves_ok I c.
Proof. intros Hc w a w' H E. specialize (Hc w H). now rewrite E in Hc. Qed.

Lemma preserves_ok_bind {A B} I (c : M A) (k : A -> M B) :
  preserves_ok I c -> (forall a, preserves_ok I (k a)) -> preserves_ok I (mbind c k).
Proof.
  intros Hc Hk w b w' H. unfold mbind.
  destruct (c w) as [[a|e] w1] eqn:E; [|discriminate].
  intros E2. eapply Hk; [|exact E2]. eapply Hc; eauto.
Qed.

Lemma silent_at_most_one {A} (c : M A) : silent c -> at_most_one c.
Proof.
  intros Hc w. destruct (Hc w) as (l & Hl & Hq). exists [].
  rewrite Hl, requests_app, Hq. simpl. auto.
Qed.

Lemma at_most_one_after_silent {A B} (c : M A) (k : A -> M B) :
  silent c -> (forall a, at_most_one (k a)) -> at_most_one (mbind c k).
Proof.
  intros Hc Hk w. unfold mbind. destruct (Hc w) as (l & Hl & Hq).
  destruct (c w) as [[a|e] w1]; simpl in *.
  - destruct (Hk a w1) as (new & Hn & Hlen). exists new.
    rewrite Hn, Hl, requests_app, Hq, app_nil_r. auto.
  - exists []. rewrite Hl, requests_app, Hq. simpl. auto.
Qed.

Lemma at_most_one_then_silent {A B} (c : M A) (k : A -> M B) :
  at_most_one c -> (forall a, silent (k a)) -> at_most_one (mbind c k).
Proof.
  intros Hc Hk w. rewrite requests_bind by assumption. apply Hc.
Qed.

Lemma sum_tokens_app `{Tokenizer} (a b : list pyval) :
  sum_tokens (a ++ b) =
  let? x := sum_tokens a in let? y := sum_tokens b in Ok (x + y)%Z.
Proof.
  induction a as [|m a IH]; simpl.
  - destruct (sum_tokens b); reflexivity.
  - destruct (subscript m key_content) as [c|e]; simpl; [|reflexivity].
    destruct (count_tokens c default_model) as [n|e]; simpl; [|reflexivity].
    rewrite IH. destruct (sum_tokens a) as [x|e]; simpl; [|reflexivity].
    destruct (sum_tokens b) as [y|e]; simpl; [|reflexivity].
    f_equal. lia.
Qed.

Lemma sum_tokens_nonneg `{Tokenizer} (items : list pyval) n :
  sum_tokens items = Ok n -> (0 <= n)%Z.
Proof.
  revert n. induction items as [|m r IH]; simpl; intros n.
  - intros E. inversion E. lia.
  - destruct (subscript m key_content) as [c|e]; simpl; [|discriminate].
    unfold count_tokens.
    destruct (encoding_for_model default_model) as [enc|e]; simpl; [|discriminate].
    destruct c; simpl; try discriminate.
    destruct (encode enc s) as [toks|e]; simpl; [|discriminate].
    destruct (sum_tokens r) as [x|e]; simpl; [|discriminate].
    intros E. inversion E. specialize (IH x eq_refl). lia.
Qed.

Lemma total_tokens_nonneg `{Tokenizer} v n : total_tokens v = Ok n -> (0 <= n)%Z.
Proof.
  unfold total_tokens. destruct (py_iter v); simpl; [|discriminate].
  apply sum_tokens_nonneg.
Qed.

Section MoreTurnProperties.
Context {tok : Tokenizer} {svc : Service} {dec : Decoder}.

Lemma chat_turn_at_most_one client prompt : at_most_one (chat_turn client prompt).
Proof.
  intros w.
  destruct (messages (ss w)) as [| | | |l| |] eqn:Hm;
    try (rewrite chat_turn_not_a_list by (intros l; rewrite Hm; discriminate);
         exists []; rewrite app_nil_r; simpl; now auto).
  rewrite (chat_turn_log _ _ _ _ Hm).
  destruct (completion_params (ss (after_prompt prompt l w))) as [params|e] eqn:Hp.
  - destruct client as [k|].
    + destruct (assistant_reply_call k _ _ Hp) as [_ Hr].
      eexists. split; [etransitivity; [exact Hr|]; rewrite after_prompt_requests; reflexivity|].
      simpl. lia.
    + destruct (assistant_reply_no_client (after_prompt prompt l w)) as (l' & Hl & Hq & _).
      exists []. rewrite Hl, requests_app, Hq, after_prompt_requests. simpl. auto.
  - destruct (assistant_reply_no_params client _ _ Hp) as [_ Hr].
    exists []. rewrite Hr, after_prompt_requests, app_nil_r. simpl. auto.
Qed.

Lemma silent_sidebar (w : widgets) : silent (sidebar w).
Proof. unfold sidebar. silence. Qed.

Lemma silent_make_client : silent make_client.
Proof. unfold make_client. silence. Qed.

Lemma silent_render_history : silent render_history.
Proof. unfold render_history. silence. Qed.

(** X1.  Under a model outside the reasoning family every completion
    call of a turn has five keyword arguments: [model] and [messages],
    [stream] set to [True], and [temperature] and [max_tokens] as the
    session holds them. *)
Theorem streaming_request_carries_settings (client : option pystr) (prompt : pystr)
    (w : world) :
  startswith (model (ss w)) (py "o1") = false ->
  exists new,
    requests (log (snd (chat_turn client prompt w))) = requests (log w) ++ new
    /\ Forall (carries_sampling_settings (ss w)) new.
Proof.
  intros Ho.
  destruct (chat_turn_at_most_one client prompt w) as (new & Hnew & Hlen).
  exists new. split; [exact Hnew|].
  destruct new as [|kp new']; [constructor|].
  destruct new'; [|simpl in Hlen; lia].
  constructor; [|constructor].
  destruct (messages (ss w)) as [| | | |l| |] eqn:Hm;
    try (rewrite chat_turn_not_a_list in Hnew by (intros l; rewrite Hm; discriminate);
         simpl in Hnew; rewrite <- (app_nil_r (requests (log w))) in Hnew at 1;
         apply app_inv_head in Hnew; discriminate).
  rewrite (chat_turn_log _ _ _ _ Hm) in Hnew.
  destruct (completion_params (ss (after_prompt prompt l w))) as [params|e] eqn:Hp.
  - destruct client as [k|].
    + destruct (assistant_reply_call k _ _ Hp) as [_ Hr].
      assert (requests (log w) ++ [kp]
              = requests (log w) ++ [(k, call_params (ss (after_prompt prompt l w)) params)])
        as E.
      { rewrite <- Hnew. etransitivity; [exact Hr|]. now rewrite after_prompt_requests. }
      apply app_inv_head in E. inversion E; subst kp. clear E.
      unfold call_params. simpl. rewrite Ho.
      destruct (completion_params_inv _ _ Hp) as (msv & _ & ->).
      unfold carries_sampling_settings, streaming_params. simpl.
      rewrite !dom_insert_L, dom_singleton_L.
      repeat split; try set_solver; now simplify_map_eq.
    + destruct (assistant_reply_no_client (after_prompt prompt l w)) as (l' & Hl & Hq & _).
      rewrite Hl, requests_app, Hq, after_prompt_requests, app_nil_r in Hnew.
      rewrite <- (app_nil_r (requests (log w))) in Hnew at 1.
      apply app_inv_head in Hnew. discriminate.
  - destruct (assistant_reply_no_params client _ _ Hp) as [_ Hr].
    rewrite Hr, after_prompt_requests in Hnew.
    rewrite <- (app_nil_r (requests (log w))) in Hnew at 1.
    apply app_inv_head in Hnew. discriminate.
Qed.

(** X2.  A run of the script dispatches at most one completion call,
    whatever the widgets return and whatever the session holds. *)
Theorem run_dispatches_at_most_one_request (w : widgets) (w0 : world) :
  exists new,
    requests (log (snd (main w w0))) = requests (log w0) ++ new
    /\ (length new <= 1)%nat.
Proof.
  revert w0. change (at_most_one (main w)). unfold main.
  apply at_most_one_after_silent; [apply silent_sidebar|intros _].
  apply at_most_one_after_silent; [apply silent_make_client|intros client].
  apply at_most_one_after_silent; [silence|intros _].
  apply at_most_one_after_silent; [apply silent_render_history|intros _].
  apply at_most_one_then_silent; [|intros; apply silent_tail].
  destruct (chat_input w) as [[|c p]|];
    auto using chat_turn_at_most_one, silent_at_most_one, silent_ret.
Qed.

(** X3.  A turn only appends to the history: afterwards the history is
    the former one followed by the user message alone, when the turn was
    cut short by an exception, or by the user message and one assistant
    message. *)
Theorem turn_only_appends (client : option pystr) (prompt : pystr) (w : world)
    (l : list pyval) :
  messages (ss w) = PList l ->
  (messages (ss (snd (chat_turn client prompt w))) = PList (l ++ [user_dict prompt])
   /\ exists e, fst (chat_turn client prompt w) = Raise e)
  \/ (exists full_response,
        messages (ss (snd (chat_turn client prompt w)))
        = PList (l ++ [user_dict prompt; assistant_dict full_response])).
Proof.
  intros Hm.
  destruct (fst (assistant_reply client (after_prompt prompt l w))) as [full|e] eqn:E.
  - right. exists full. now destruct (chat_turn_replied _ _ _ _ _ Hm E) as (-> & _).
  - left. rewrite (chat_turn_failed _ _ _ _ _ Hm E). simpl.
    destruct (assistant_reply_frame client (after_prompt prompt l w)) as [-> _].
    split; [reflexivity|eauto].
Qed.

(** X4.  Under a reasoning model the content of the first choice of the
    answer is what the turn commits as the assistant message; the other
    choices are ignored. *)
Theorem batch_content_is_committed (k prompt : pystr) (w : world) (l : list pyval)
    (params : gmap string param) (t : pystr) (others : list (option pystr)) :
  messages (ss w) = PList l ->
  startswith (model (ss w)) (py "o1") = true ->
  completion_params (prompted prompt l (ss w)) = Ok params ->
  create k params = Ok (Some t :: others) ->
  messages (ss (snd (chat_turn (Some k) prompt w)))
  = PList (l ++ [user_dict prompt; msg (assistant_message t)]).
Proof.
  intros Hm Ho Hp Hc.
  destruct (assistant_reply_call k (after_prompt prompt l w) _ Hp) as [Hr _].
  unfold reply_result in Hr. simpl in Hr. rewrite Ho, Hc in Hr. simpl in Hr.
  now destruct (chat_turn_replied _ _ _ _ _ Hm Hr) as (-> & _).
Qed.

Lemma chat_turn_after_reply client prompt l w full_response :
  messages (ss w) = PList l ->
  fst (assistant_reply client (after_prompt prompt l w)) = Ok full_response ->
  let history := PList (l ++ [user_dict prompt; assistant_dict full_response]) in
  let w1 := snd (assistant_reply client (after_prompt prompt l w)) in
  chat_turn client prompt w =
  match total_tokens history with
  | Ok n => (Ok tt, {| ss := set_token_count n (set_messages history (ss w));
                       fs := fs w1; log := log w1 |})
  | Raise e => (Raise e, {| ss := set_messages history (ss w); fs := fs w1; log := log w1 |})
  end.
Proof.
  intros Hm Hr history w1.
  assert (chat_turn client prompt w =
          (append_message (assistant_dict full_response) ;; recount) w1) as E.
  { rewrite (chat_turn_start _ _ _ _ Hm). unfold mbind at 1. unfold w1.
    destruct (assistant_reply client (after_prompt prompt l w)) as [r w'].
    simpl in *. now subst r. }
  rewrite E. clear E.
  destruct (assistant_reply_frame client (after_prompt prompt l w)) as [Es _].
  fold w1 in Es. unfold append_message, recount. run. rewrite Es. simpl. run.
  rewrite <- app_assoc. simpl. fold history.
  destruct (total_tokens history); unfold modify_ss; simpl; rewrite ?Es; reflexivity.
Qed.

(** X5.  When the reply has arrived and the token count then raises, the
    turn ends with that exception, but the reply is not lost: the history
    holds the user message and the assistant message, and [token_count]
    keeps its former value. *)
Theorem tokenizer_failure_keeps_reply (k prompt : pystr) (w : world) (l : list pyval)
    (params : gmap string param) (full_response : pyval) (e : exn) :
  messages (ss w) = PList l ->
  completion_params (prompted prompt l (ss w)) = Ok params ->
  reply_result k (prompted prompt l (ss w)) params = Ok full_response ->
  total_tokens (PList (l ++ [user_dict prompt; assistant_dict full_response])) = Raise e ->
  fst (chat_turn (Some k) prompt w) = Raise e
  /\ messages (ss (snd (chat_turn (Some k) prompt w)))
     = PList (l ++ [user_dict prompt; assistant_dict full_response])
  /\ token_count (ss (snd (chat_turn (Some k) prompt w))) = token_count (ss w).
Proof.
  intros Hm Hp Hf Ht.
  destruct (assistant_reply_call k (after_prompt prompt l w) _ Hp) as [Hr _].
  simpl in Hr. rewrite Hf in Hr.
  rewrite (chat_turn_after_reply _ _ _ _ _ Hm Hr). cbv zeta. rewrite Ht. auto.
Qed.

(** X6.  A completed turn moves [token_count] to the count of the former
    history plus the tokens of the prompt plus the tokens of the reply:
    the recount from scratch and the running sum agree. *)
Theorem turn_adds_tokens_of_both_messages (k prompt : pystr) (w : world) (l : list pyval)
    (params : gmap string param) (reply : pystr) (n a b : Z) :
  messages (ss w) = PList l ->
  completion_params (prompted prompt l (ss w)) = Ok params ->
  reply_result k (prompted prompt l (ss w)) params = Ok (PStr reply) ->
  total_tokens (PList l) = Ok n ->
  count_tokens (PStr prompt) default_model = Ok a ->
  count_tokens (PStr reply) default_model = Ok b ->
  fst (chat_turn (Some k) prompt w) = Ok tt
  /\ token_count (ss (snd (chat_turn (Some k) prompt w))) = (n + a + b)%Z.
Proof.
  intros Hm Hp Hf Hn Ha Hb.
  destruct (assistant_reply_call k (after_prompt prompt l w) _ Hp) as [Hr _].
  simpl in Hr. rewrite Hf in Hr.
  rewrite (chat_turn_after_reply _ _ _ _ _ Hm Hr). cbv zeta.
  assert (total_tokens (PList (l ++ [user_dict prompt; assistant_dict (PStr reply)]))
          = Ok (n + a + b)%Z) as ->.
  { unfold total_tokens in *. simpl in *. rewrite sum_tokens_app, Hn. simpl.
    change (subscript (user_dict prompt) key_content) with (Ok (PStr prompt)).
    change (subscript (assistant_dict (PStr reply)) key_content) with (Ok (PStr reply)).
    cbn [rbind]. rewrite Ha, Hb. simpl. f_equal. lia. }
  auto.
Qed.

End MoreTurnProperties.

(** ** Concrete runs for the further properties *)

Lemma streaming_request_carries_settings_witness :
  let w := fresh_world (session_of (py "gpt-4o") greeting 7 10) in
  exists new,
    requests (log (snd (@chat_turn toy_tokenizer pong_service
                          (Some (py "sk-test")) (py "why?") w)))
    = requests (log w) ++ new
    /\ Forall (carries_sampling_settings (ss w)) new.
Proof.
  intros w.
  exact (@streaming_request_carries_settings toy_tokenizer pong_service
           (Some (py "sk-test")) (py "why?") w eq_refl).
Defined.

Lemma turn_only_appends_witness :
  let w := fresh_world (session_of (py "gpt-4o") greeting 7 10) in
  let r := @chat_turn toy_tokenizer failing_service (Some (py "sk-test")) (py "ping") w in
  (messages (ss (snd r)) = PList (map msg greeting ++ [user_dict (py "ping")])
   /\ exists e, fst r = Raise e)
  \/ (exists full_response,
        messages (ss (snd r))
        = PList (map msg greeting ++ [user_dict (py "ping"); assistant_dict full_response])).
Proof.
  intros w r.
  exact (@turn_only_appends toy_tokenizer failing_service
           (Some (py "sk-test")) (py "ping") w (map msg greeting) eq_refl).
Defined.

Lemma batch_content_is_committed_witness :
  let w := fresh_world (session_of (py "o1-mini") greeting 7 10) in
  messages (ss (snd (@chat_turn toy_tokenizer pong_service
                       (Some (py "sk-test")) (py "ping") w)))
  = PList (map msg greeting ++ [user_dict (py "ping"); msg (assistant_message (py "pong"))]).
Proof.
  intros w.
  exact (@batch_content_is_committed toy_tokenizer pong_service
           (py "sk-test") (py "ping") w (map msg greeting) _ (py "pong") []
           eq_refl eq_refl eq_refl eq_refl).
Defined.

Lemma tokenizer_failure_keeps_reply_witness :
  let w := fresh_world (session_of (py "gpt-4o") greeting 7 10) in
  let r := @chat_turn strict_tokenizer (echo_service end_of_text)
             (Some (py "sk-test")) (py "ping") w in
  fst r = Raise ValueError
  /\ messages (ss (snd r))
     = PList (map msg greeting
              ++ [user_dict (py "ping"); assistant_dict (PStr end_of_text)])
  /\ token_count (ss (snd r)) = 7%Z.
Proof.
  intros w r.
  exact (@tokenizer_failure_keeps_reply strict_tokenizer (echo_service end_of_text)
           (py "sk-test") (py "ping") w (map msg greeting) _ (PStr end_of_text) ValueError
           eq_refl eq_refl eq_refl eq_refl).
Defined.

Lemma turn_adds_tokens_of_both_messages_witness :
  let w := fresh_world (session_of (py "gpt-4o") greeting 7 10) in
  let r := @chat_turn toy_tokenizer pong_service (Some (py "sk-test")) (py "ping") w in
  fst r = Ok tt /\ token_count (ss (snd r)) = (7 + 4 + 4)%Z.
Proof.
  intros w r.
  exact (@turn_adds_tokens_of_both_messages toy_tokenizer pong_service
           (py "sk-test") (py "ping") w (map msg greeting) _ (py "pong") 7 4 4
           eq_refl eq_refl eq_refl eq_refl eq_refl eq_refl).
Defined.

(** *** What the page shows while a reply streams *)

Section Streaming.
Context {tok : Tokenizer} {svc : Service} {dec : Decoder}.

Lemma consume_log s : forall full w,
  log (snd (consume s full w))
  = log w ++ map (fun t => Markdown (PStr (t ++ cursor))) (running full (delivered s)).
Proof.
  induction s as [| choices rest IH | e]; intros full w; simpl.
  - now rewrite app_nil_r.
  - destruct choices as [|[t|] others]; run; simpl; run.
    + now rewrite app_nil_r.
    + rewrite IH. cbn [log]. now rewrite <- app_assoc.
    + rewrite IH. cbn [log]. now rewrite <- app_assoc.
  - now rewrite app_nil_r.
Qed.

(** X7.  While a reply streams, the placeholder shows after every chunk
    the text received so far followed by the cursor; when the stream ends
    it shows the whole text without the cursor, and when the stream
    breaks the last partial text stays on the page, cursor included. *)
Theorem stream_is_shown_as_it_grows (k : pystr) (w : world)
    (params : gmap string param) :
  startswith (model (ss w)) (py "o1") = false ->
  completion_params (ss w) = Ok params ->
  let call := streaming_params (ss w) params in
  let shown := map (fun t => Markdown (PStr (t ++ cursor)))
                   (running [] (delivered (create_stream k call))) in
  log (snd (assistant_reply (Some k) w))
  = log w ++ [ChatMessage (py "assistant"); Request k call] ++ shown
    ++ match fragments (create_stream k call) with
       | Ok ts => [Markdown (PStr (concat ts))]
       | Raise _ => []
       end.
Proof.
  intros Ho Hp call shown. unfold assistant_reply. run. rewrite Hp, Ho. run.
  fold call. cbn [the_client]. run.
  set (w1 := {| ss := ss w; fs := fs w;
                log := (log w ++ [ChatMessage (py "assistant")]) ++ [Request k call] |}).
  pose proof (consume_log (create_stream k call) [] w1) as Hl.
  pose proof (consume_result (create_stream k call) [] w1) as Hr.
  unfold mbind at 1.
  destruct (consume (create_stream k call) [] w1) as [r w2]. simpl in Hl, Hr.
  subst r. fold shown in Hl.
  destruct (fragments (create_stream k call)) as [ts|e]; simpl.
  - run. rewrite Hl. unfold w1. cbn [log]. rewrite <- !app_assoc. reflexivity.
  - rewrite Hl. unfold w1. cbn [log]. rewrite <- !app_assoc, app_nil_r. reflexivity.
Qed.

End Streaming.

Lemma stream_is_shown_as_it_grows_witness :
  let w := fresh_world (session_of (py "gpt-4o") greeting 7 10) in
  exists call,
    log (snd (@assistant_reply failing_service (Some (py "sk-test")) w))
    = [ChatMessage (py "assistant"); Request (py "sk-test") call;
       Markdown (PStr (py "po" ++ cursor))].
Proof.
  intros w. eexists.
  exact (@stream_is_shown_as_it_grows failing_service
           (py "sk-test") w _ eq_refl eq_refl).
Defined.

(** *** Saving, further *)

Lemma filenames_of_other_timestamp ts ts' :
  ts' <> ts ->
  json_filename ts' <> json_filename ts /\ json_filename ts' <> md_filename ts
  /\ md_filename ts' <> json_filename ts /\ md_filename ts' <> md_filename ts.
Proof.
  intros Hne. unfold json_filename, md_filename.
  assert (py ".json" = [46; 106; 115; 111; 110]) as -> by reflexivity.
  assert (py ".md" = [46; 109; 100]) as -> by reflexivity.
  repeat split; intros H; apply app_inv_head in H.
  - apply app_inv_tail in H. contradiction.
  - apply (f_equal (@rev N)) in H. rewrite !rev_app_distr in H. discriminate.
  - apply (f_equal (@rev N)) in H. rewrite !rev_app_distr in H. discriminate.
  - apply app_inv_tail in H. contradiction.
Qed.

Lemma save_frame ts w :
  ss (snd (save_chat_history ts w)) = ss w
  /\ log (snd (save_chat_history ts w)) = log w
  /\ forall n, n <> json_filename ts -> n <> md_filename ts ->
       fs (snd (save_chat_history ts w)) !! n = fs w !! n.
Proof.
  rewrite save_chat_history_unfold. run.
  destruct (py_iter (messages (ss w))) as [items|e].
  - match goal with |- context [mbind (md_loop ts items) ?k ?w1] =>
      destruct (md_loop_frame ts items w1) as (Hs & Hl & Hf); unfold mbind;
      destruct (md_loop ts items w1) as [[[]|e] w2] end;
      cbn [ss fs log fst snd] in *; repeat split; auto;
      intros n Hj Hm; rewrite Hf by assumption;
      now rewrite !lookup_insert_ne by auto.
  - cbn [ss fs log fst snd]. repeat split; auto.
    intros n Hj Hm. now rewrite !lookup_insert_ne by auto.
Qed.

Lemma md_loop_prefix ts pre rest : forall lines w acc,
  rmap markdown_line pre = Ok lines ->
  fs w !! md_filename ts = Some acc ->
  md_loop ts (pre ++ rest) w
  = md_loop ts rest {| ss := ss w; fs := <[md_filename ts := acc ++ concat lines]> (fs w);
                       log := log w |}.
Proof.
  unfold md_loop. induction pre as [|m pre IH]; intros lines w acc Hl Hacc.
  - inversion Hl. simpl. rewrite app_nil_r, insert_id by assumption. now destruct w.
  - cbn [app mfor rmap] in *. run.
    destruct (markdown_line m) as [line|e]; [|discriminate]. cbn [rbind] in Hl.
    destruct (rmap markdown_line pre) as [ls|e] eqn:E; [|discriminate].
    inversion Hl; subst lines. clear Hl.
    rewrite run_append_file, Hacc.
    rewrite (IH ls _ (acc ++ line) eq_refl) by (cbn [fs]; apply lookup_insert_eq).
    cbn [ss fs log concat]. now rewrite insert_insert_eq, <- app_assoc.
Qed.

(** X8.  Saving changes nothing but its two files: the session and what
    the page shows stay as they were, every file of another name keeps
    its content, and so do the two files of a save made under another
    timestamp. *)
Theorem save_touches_only_its_two_files (ts : pystr) (w : world) :
  ss (snd (save_chat_history ts w)) = ss w
  /\ log (snd (save_chat_history ts w)) = log w
  /\ (forall n, n <> json_filename ts -> n <> md_filename ts ->
        fs (snd (save_chat_history ts w)) !! n = fs w !! n)
  /\ (forall ts', ts' <> ts ->
        fs (snd (save_chat_history ts w)) !! json_filename ts' = fs w !! json_filename ts'
        /\ fs (snd (save_chat_history ts w)) !! md_filename ts' = fs w !! md_filename ts').
Proof.
  destruct (save_frame ts w) as (Hs & Hl & Hf). repeat split; auto;
    destruct (filenames_of_other_timestamp ts ts') as (? & ? & ? & ?); auto.
Qed.

(** X9.  When the line of a message cannot be built (its content is not
    a string, or holds a lone surrogate), the save ends with that
    exception after the JSON file was written in full, and the Markdown
    file is left with the blocks of the messages before it. *)
Theorem failed_save_leaves_partial_markdown (ts : pystr) (w : world)
    (pre : list pyval) (bad : pyval) (rest : list pyval) (lines : list pystr) (e : exn) :
  messages (ss w) = PList (pre ++ bad :: rest) ->
  rmap markdown_line pre = Ok lines ->
  markdown_line bad = Raise e ->
  fst (save_chat_history ts w) = Raise e
  /\ fs (snd (save_chat_history ts w)) !! json_filename ts
     = Some (json_dumps (messages (ss w)))
  /\ fs (snd (save_chat_history ts w)) !! md_filename ts = Some (concat lines).
Proof.
  intros Hm Hl Hbad. split; [|split; [apply save_json_written|]];
    rewrite save_chat_history_unfold; run; rewrite Hm; cbn [py_iter]; unfold mbind at 1;
    rewrite (md_loop_prefix ts pre (bad :: rest) lines _ [] Hl)
      by (cbn [fs]; apply lookup_insert_eq);
    unfold md_loop; cbn [mfor ss fs log app]; run; rewrite Hbad; cbn [fst snd fs].
  - reflexivity.
  - now rewrite lookup_insert_eq.
Qed.

Section Restoring.
Context {tok : Tokenizer}.

(** X10.  Uploading the JSON file that a completed save has written
    restores the saved history: [messages] becomes that very sequence and
    [token_count] its count, and the run ends with a rerun; when the
    count raises, [messages] is restored all the same and [token_count]
    stays. *)
Theorem saved_file_restores_history (ts : pystr) (w w' : world) (ms : list Message)
    (names : pystr * pystr) (w1 : world) :
  messages (ss w) = msgs ms ->
  save_chat_history ts w = (Ok names, w') ->
  exists text,
    fs w' !! fst names = Some text
    /\ messages (ss (snd (@load_uploaded tok python_json text w1))) = msgs ms
    /\ match total_tokens (msgs ms) with
       | Ok n => fst (@load_uploaded tok python_json text w1) = Raise RerunException
                 /\ token_count (ss (snd (@load_uploaded tok python_json text w1))) = n
       | Raise e => fst (@load_uploaded tok python_json text w1) = Raise e
                    /\ token_count (ss (snd (@load_uploaded tok python_json text w1))) = token_count (ss w1)
       end.
Proof.
  intros Hm Hsave.
  destruct (save_ok_inv _ _ _ _ _ Hm Hsave) as (-> & lines & Hl & _).
  destruct (save_json_written ts w) as [Hj _]. rewrite Hsave, Hm in Hj.
  exists (json_dumps (msgs ms)). split; [exact Hj|].
  unfold load_uploaded, recount. cbn [json_load python_json]. run.
  rewrite (loads_dumps_msgs ms (markdown_lines_safe _ _ Hl)). run. cbn [messages set_messages].
  destruct (total_tokens (msgs ms)); run; auto.
Qed.

End Restoring.

(** A history whose last message has no content (what a reasoning model
    may answer): the save fails after the first block. *)
Lemma failed_save_leaves_partial_markdown_witness :
  let history := [msg (user_message (py "hi")); assistant_dict PNone] in
  let w := fresh_world (set_messages (PList history) (initial_session None)) in
  let ts := py "20240101_120000" in
  fst (save_chat_history ts w) = Raise AttributeError
  /\ fs (snd (save_chat_history ts w)) !! json_filename ts
     = Some (json_dumps (PList history))
  /\ fs (snd (save_chat_history ts w)) !! md_filename ts
     = Some (py "**User:** b'hi'" ++ [10; 10]).
Proof.
  intros history w ts.
  exact (failed_save_leaves_partial_markdown ts w [msg (user_message (py "hi"))]
           (assistant_dict PNone) [] [py "**User:** b'hi'" ++ [10; 10]] AttributeError
           eq_refl eq_refl eq_refl).
Defined.

Lemma saved_file_restores_history_witness :
  let w := fresh_world (session_of (py "gpt-4o") mixed_history 0 10) in
  let ts := py "20240101_120000" in
  let w1 := fresh_world (initial_session None) in
  exists text,
    fs (snd (save_chat_history ts w)) !! json_filename ts = Some text
    /\ messages (ss (snd (@load_uploaded toy_tokenizer python_json text w1))) = msgs mixed_history
    /\ fst (@load_uploaded toy_tokenizer python_json text w1) = Raise RerunException
    /\ token_count (ss (snd (@load_uploaded toy_tokenizer python_json text w1))) = 7%Z.
Proof.
  intros w ts w1.
  destruct (@saved_file_restores_history toy_tokenizer ts w (snd (save_chat_history ts w))
              mixed_history (json_filename ts, md_filename ts) w1 eq_refl eq_refl)
    as (text & H1 & H2 & H3).
  exists text. split; [exact H1|]. split; [exact H2|].
  change (@total_tokens toy_tokenizer (msgs mixed_history)) with (@Ok Z 7%Z) in H3.
  exact H3.
Defined.

(** *** What a whole run keeps *)

Lemma preserves_frame {A} (I : session_state -> Prop) (c : M A) :
  (forall w, ss (snd (c w)) = ss w) -> preserves I c.
Proof. intros Hc w H. now rewrite Hc. Qed.

Lemma preserves_lift_bind {A B} I (r : result A) (k : A -> M B) :
  (forall a, r = Ok a -> preserves I (k a)) -> preserves I (mbind (lift r) k).
Proof.
  intros Hk w H. rewrite run_lift. destruct r as [a|e]; [|exact H].
  now apply (Hk a eq_refl).
Qed.

Lemma preserves_apply {A} (I : session_state -> Prop) (c : M A) w :
  preserves I c -> I (ss w) -> I (ss (snd (c w))).
Proof. intros Hc. apply Hc. Qed.

Lemma mbind_ext {A B} (c : M A) (k k' : A -> M B) w :
  (forall a w', k a w' = k' a w') -> mbind c k w = mbind c k' w.
Proof. intros H. unfold mbind. destruct (c w) as [[a|e] w']; auto. Qed.

Lemma mfor_app {A} (xs ys : list A) (body : A -> M unit) w :
  mfor (xs ++ ys) body w = (mfor xs body ;; mfor ys body) w.
Proof.
  revert w. induction xs as [|x xs IH]; intros w; [reflexivity|].
  cbn [app mfor]. rewrite run_assoc. apply mbind_ext. intros _ w'. apply IH.
Qed.

Lemma mbind_raises_later {A B} (c : M A) (k : A -> M B) w :
  (forall a w', exists e, fst (k a w') = Raise e) -> exists e, fst (mbind c k w) = Raise e.
Proof. intros H. unfold mbind. destruct (c w) as [[a|e] w']; simpl; eauto. Qed.

Section RunInvariants.
Context {tok : Tokenizer} {svc : Service} {dec : Decoder}.

Lemma preserves_save I ts : preserves I (save_chat_history ts).
Proof. apply preserves_frame. intros w. apply save_frame. Qed.

Lemma preserves_assistant_reply I client : preserves I (assistant_reply client).
Proof. apply preserves_frame. intros w. apply assistant_reply_frame. Qed.

Lemma preserves_make_client I : preserves I make_client.
Proof. unfold make_client. keep. Qed.

Lemma preserves_render_history I : preserves I render_history.
Proof. unfold render_history. keep. Qed.

Lemma preserves_sidebar_totals I : preserves I sidebar_totals.
Proof. unfold sidebar_totals. keep. Qed.

Section Invariant.
Variable I : session_state -> Prop.
Hypothesis I_messages : forall v s, I s -> I (set_messages v s).
Hypothesis I_count : forall v n s, total_tokens v = Ok n -> I s -> I (set_token_count n s).

Lemma preserves_append_message m : preserves I (append_message m).
Proof. unfold append_message. keep. apply preserves_modify. auto. Qed.

Lemma preserves_recount : preserves I recount.
Proof.
  unfold recount. apply preserves_bind; [keep|intros s].
  apply preserves_lift_bind. intros n Hn. apply preserves_modify. eauto.
Qed.

Lemma preserves_chat_turn client prompt : preserves I (chat_turn client prompt).
Proof.
  pose proof preserves_recount. pose proof (preserves_assistant_reply I client).
  pose proof preserves_append_message. unfold chat_turn. keep.
Qed.

Lemma preserves_load_uploaded text : preserves I (load_uploaded text).
Proof.
  pose proof preserves_recount. unfold load_uploaded. keep.
  apply preserves_modify. auto.
Qed.

Lemma preserves_reset_conversation : preserves I reset_conversation.
Proof.
  unfold reset_conversation. keep; apply preserves_modify; auto.
  intros s. apply (I_count (PList []) 0%Z s). reflexivity.
Qed.

Lemma main_after_sidebar (w : widgets) (w0 w1 : world) :
  sidebar w w0 = (Ok tt, w1) -> I (ss w1) -> I (ss (snd (main w w0))).
Proof.
  intros Hs H1. unfold main. rewrite (mbind_ok _ _ _ _ _ Hs).
  apply preserves_apply; [|exact H1].
  pose proof (preserves_make_client I). pose proof (preserves_render_history I).
  pose proof (preserves_sidebar_totals I). pose proof preserves_chat_turn.
  pose proof (preserves_save I). pose proof preserves_load_uploaded.
  pose proof preserves_reset_conversation.
  keep.
Qed.

Lemma main_invariant (w : widgets) : preserves I (sidebar w) -> preserves I (main w).
Proof.
  intros Hs w0 H0. specialize (Hs w0 H0).
  destruct (sidebar w w0) as [[[]|e] w1] eqn:E; simpl in Hs.
  - eapply main_after_sidebar; eauto.
  - unfold main. now rewrite (mbind_raise _ _ _ _ _ E).
Qed.

End Invariant.

(** X11.  A run without a prompt, an uploaded file or a click on the
    reset button leaves the history and the token count as they were,
    whether or not it saves and however it ends. *)
Theorem idle_run_keeps_history (w : widgets) (w0 : world) :
  chat_input w = None -> uploaded_file w = None -> reset_clicked w = false ->
  messages (ss (snd (main w w0))) = messages (ss w0)
  /\ token_count (ss (snd (main w w0))) = token_count (ss w0).
Proof.
  intros Hc Hu Hr.
  apply (preserves_apply
           (fun s => messages s = messages (ss w0) /\ token_count s = token_count (ss w0)));
    [|auto].
  pose proof (preserves_make_client
                (fun s => messages s = messages (ss w0) /\ token_count s = token_count (ss w0))).
  pose proof (preserves_render_history
                (fun s => messages s = messages (ss w0) /\ token_count s = token_count (ss w0))).
  pose proof (preserves_sidebar_totals
                (fun s => messages s = messages (ss w0) /\ token_count s = token_count (ss w0))).
  pose proof (preserves_save
                (fun s => messages s = messages (ss w0) /\ token_count s = token_count (ss w0))).
  unfold main, sidebar. rewrite Hc, Hu, Hr. cbn [when].
  keep; apply preserves_modify; auto.
Qed.

(** X12.  [token_count] never becomes negative: a run that starts with
    a count of at least zero ends with one, whatever it does and however
    it ends. *)
Theorem token_count_stays_nonnegative (w : widgets) (w0 : world) :
  (0 <= token_count (ss w0))%Z -> (0 <= token_count (ss (snd (main w w0))))%Z.
Proof.
  revert w0. change (preserves (fun s => (0 <= token_count s)%Z) (main w)).
  apply main_invariant.
  - auto.
  - intros v n s Hn _. cbn. eapply total_tokens_nonneg; eauto.
  - unfold sidebar. keep; apply preserves_modify; auto.
Qed.

(** X13.  When the model of the session is one of the selection box,
    the session holds after the run the five settings the sidebar widgets
    returned in that run, however the run ends. *)
Theorem run_adopts_widget_settings (w : widgets) (w0 : world) :
  In (model (ss w0)) available_models ->
  settings (ss (snd (main w w0))) = widget_settings w.
Proof.
  intros Hin.
  apply (main_after_sidebar (fun s => settings s = widget_settings w)) with
    (w1 := {| ss := {| messages := messages (ss w0); token_count := token_count (ss w0);
                       api_key := in_api_key w; model := in_model w;
                       temperature := in_temperature w; max_tokens := in_max_tokens w;
                       history_window := in_history_window w |};
              fs := fs w0; log := log w0 |}); auto.
  unfold sidebar. run. cbn [model].
  destruct (decide (In (model (ss w0)) available_models)); [|contradiction].
  run. reflexivity.
Qed.

End RunInvariants.

(** *** How a run ends *)

Lemma slice_from_map {A B} (f : A -> B) start (l : list A) :
  slice_from start (map f l) = map f (slice_from start l).
Proof. unfold slice_from. now rewrite length_map, skipn_map. Qed.

Section RunOutcomes.
Context {tok : Tokenizer} {svc : Service} {dec : Decoder}.

Lemma load_uploaded_raises text w : exists e, fst (load_uploaded text w) = Raise e.
Proof.
  unfold load_uploaded, recount. run. destruct (json_load text) as [v|e]; [|simpl; eauto].
  run. cbn [messages set_messages]. destruct (total_tokens v); run; simpl; eauto.
Qed.

Lemma reset_conversation_raises w : exists e, fst (reset_conversation w) = Raise e.
Proof. unfold reset_conversation. run. simpl. eauto. Qed.

Lemma request_messages_msgs s ms :
  messages s = msgs ms ->
  request_messages s = Ok (msgs (slice_from (- history_window s) ms)).
Proof.
  intros Hm. unfold request_messages. rewrite Hm. unfold msgs. cbn [py_slice_from rbind py_iter].
  rewrite slice_from_map. now rewrite rebuild_messages.
Qed.

Lemma assistant_reply_name_error w params :
  completion_params (ss w) = Ok params -> fst (assistant_reply None w) = Raise NameError.
Proof.
  intros Hp. unfold assistant_reply. run. rewrite Hp.
  destruct (startswith (model (ss w)) (py "o1")); run; reflexivity.
Qed.

(** X14.  As long as a file sits in the uploader no run reaches its
    end: each one is cut short by the rerun of the upload block or by an
    exception, and the reset button has no effect, clicked or not. *)
Theorem pending_upload_ends_every_run (w : widgets) (w0 : world) (text : pystr) :
  uploaded_file w = Some text ->
  (exists e, fst (main w w0) = Raise e)
  /\ forall b, main (with_reset b w) w0 = main w w0.
Proof.
  intros Hu. split.
  - unfold main. rewrite Hu.
    do 7 (apply mbind_raises_later; intros ? ?).
    match goal with |- context [mbind (load_uploaded text) _ ?w1] =>
      destruct (load_uploaded_raises text w1) as [e He]; unfold mbind;
      destruct (load_uploaded text w1) as [[[]|e'] w2]; simpl in *; [discriminate|eauto]
    end.
  - intros b. unfold main, sidebar.
    cbn [with_reset in_api_key in_model in_temperature in_max_tokens in_history_window
         chat_input save_clicked uploaded_file reset_clicked timestamp].
    rewrite Hu.
    do 7 (apply mbind_ext; intros ? ?).
    match goal with |- context [mbind (load_uploaded text) _ ?w1] =>
      destruct (load_uploaded_raises text w1) as [e He]; unfold mbind;
      destruct (load_uploaded text w1) as [[[]|e'] w2]; simpl in *; [discriminate|reflexivity]
    end.
Qed.

(** X15.  Once the history holds an item without content, every run
    stops in the display loop with the exception of that item, before
    the chat input, the save button and the reset button are reached: the
    history and the token count stay as they are and no request is
    sent, whatever the widgets return. *)
Theorem malformed_history_blocks_every_run (w : widgets) (w0 : world)
    (ms : list Message) (bad : pyval) (rest : list pyval) (r : pystr) (e : exn) :
  In (model (ss w0)) available_models ->
  messages (ss w0) = PList (map msg ms ++ bad :: rest) ->
  subscript bad key_role = Ok (PStr r) ->
  subscript bad key_content = Raise e ->
  fst (main w w0) = Raise e
  /\ messages (ss (snd (main w w0))) = messages (ss w0)
  /\ token_count (ss (snd (main w w0))) = token_count (ss w0)
  /\ requests (log (snd (main w w0))) = requests (log w0).
Proof.
  intros Hin Hm Hrole Hcontent. unfold main, sidebar, make_client. run. cbn [model].
  destruct (decide (In (model (ss w0)) available_models)); [|contradiction].
  run. cbn [api_key model].
  assert (forall w1 : world,
            messages (ss w1) = messages (ss w0) ->
            exists l, render_history w1
                      = (Raise e, {| ss := ss w1; fs := fs w1; log := log w1 ++ l |})
                      /\ requests l = []) as Hrender.
  { intros w1 H1. unfold render_history. run. rewrite H1, Hm. cbn [py_iter].
    destruct (render_loop ms w1) as (l & Hl & Hq).
    exists (l ++ [ChatMessage r]). rewrite mfor_app.
    rewrite (mbind_ok _ _ _ _ _ Hl). cbn [mfor]. run. rewrite Hrole. cbn [chat_name].
    run. rewrite Hcontent. rewrite app_assoc. split; [reflexivity|].
    rewrite requests_app, Hq. reflexivity. }
  destruct (in_api_key w) as [|k0 k]; run;
    match goal with |- context [mbind render_history ?k ?w1] =>
      destruct (Hrender w1 eq_refl) as (l & Hl & Hq);
      rewrite (mbind_raise _ _ _ _ _ Hl)
    end;
    cbn [fst snd ss log messages token_count]; repeat split;
    rewrite !requests_app, Hq; cbn [requests]; now rewrite !app_nil_r.
Qed.

(** X16.  A prompt submitted under an empty API key is appended to the
    history and shown, and the run then ends with [NameError] at the
    name [client]: the user message stays in the history and
    [token_count] keeps its former value. *)
Theorem prompt_without_key_is_stranded (w : widgets) (w0 : world) (ms : list Message)
    (c : N) (p : pystr) :
  in_api_key w = [] ->
  In (model (ss w0)) available_models ->
  messages (ss w0) = msgs ms ->
  chat_input w = Some (c :: p) ->
  fst (main w w0) = Raise NameError
  /\ messages (ss (snd (main w w0))) = msgs (ms ++ [user_message (c :: p)])
  /\ token_count (ss (snd (main w w0))) = token_count (ss w0).
Proof.
  intros Hk Hin Hm Hc. unfold main, sidebar, make_client. run. cbn [model].
  destruct (decide (In (model (ss w0)) available_models)); [|contradiction].
  run. cbn [api_key model]. rewrite Hk, Hc. run.
  match goal with |- context [mbind render_history ?k ?w1] =>
    destruct (render_history_msgs ms w1 Hm) as (l & Hl & _);
    rewrite (mbind_ok _ _ _ _ _ Hl)
  end.
  cbn [ss fs log].
  match goal with |- context [mbind (chat_turn None ?q) ?k ?w1] =>
    assert (messages (ss w1) = PList (map msg ms)) as Hm1 by exact Hm;
    assert (exists params, completion_params (ss (after_prompt q (map msg ms) w1)) = Ok params)
      as [params Hp]
      by (unfold completion_params;
          erewrite request_messages_msgs
            by (cbn [after_prompt ss prompted set_messages messages];
                change (map msg ms ++ [user_dict q]) with (map msg ms ++ map msg [user_message q]);
                rewrite <- map_app; reflexivity);
          cbn [rbind]; eauto);
    pose proof (chat_turn_failed None q _ w1 _ Hm1 (assistant_reply_name_error _ _ Hp)) as Ht;
    rewrite (mbind_raise _ _ _ _ _ Ht);
    destruct (assistant_reply_frame None (after_prompt q (map msg ms) w1)) as [Hs _]
  end.
  cbn [fst snd]. rewrite Hs. cbn [after_prompt ss prompted set_messages messages token_count].
  repeat split. unfold msgs. now rewrite map_app.
Qed.

Lemma chat_turn_counted client prompt :
  forall w a w', chat_turn client prompt w = (Ok a, w') -> counted (ss w').
Proof.
  intros w a w' E. unfold counted.
  assert (fst (chat_turn client prompt w) = Ok a) as Hok by now rewrite E.
  destruct (messages (ss w)) as [| | | |l| |] eqn:Hm;
    try (rewrite chat_turn_not_a_list in Hok by (intros l; rewrite Hm; discriminate);
         discriminate).
  destruct (fst (assistant_reply client (after_prompt prompt l w))) as [full|e] eqn:Er.
  - destruct (chat_turn_replied _ _ _ _ _ Hm Er) as (_ & _ & H).
    specialize (H a Hok). now rewrite E in H.
  - rewrite (chat_turn_failed _ _ _ _ _ Hm Er) in Hok. discriminate.
Qed.

(** X17.  Over a run that reaches its end, [token_count] stays the
    count of the history: if it was before the run, it is after it,
    whether the run was idle, saved the history or completed a turn. *)
Theorem completed_run_keeps_count_exact (w : widgets) (w0 w' : world) :
  counted (ss w0) -> main w w0 = (Ok tt, w') -> counted (ss w').
Proof.
  intros H0 E. revert w0 w' H0 E.
  assert (preserves_ok counted (main w)) as H; [|intros w0 w' H0 E; exact (H w0 tt w' H0 E)].
  unfold main.
  apply preserves_ok_bind; [|intros _].
  { apply preserves_ok_of. unfold sidebar. keep; apply preserves_modify; auto. }
  apply preserves_ok_bind; [apply preserves_ok_of, preserves_make_client|intros client].
  apply preserves_ok_bind; [apply preserves_ok_of; keep|intros _].
  apply preserves_ok_bind; [apply preserves_ok_of, preserves_render_history|intros _].
  apply preserves_ok_bind; [|intros _].
  { destruct (chat_input w) as [[|c p]|]; try (apply preserves_ok_of; solve [keep]).
    intros w1 a w2 _. apply chat_turn_counted. }
  apply preserves_ok_bind; [apply preserves_ok_of, preserves_sidebar_totals|intros _].
  apply preserves_ok_bind; [|intros _].
  { apply preserves_ok_of. pose proof (preserves_save counted). keep. }
  apply preserves_ok_bind; [|intros _].
  { destruct (uploaded_file w) as [text|]; [|apply preserves_ok_of; keep].
    intros w1 a w2 _ E. destruct (load_uploaded_raises text w1) as [e He].
    rewrite E in He. discriminate. }
  destruct (reset_clicked w); cbn [when]; [|apply preserves_ok_of; keep].
  intros w1 a w2 _ E. destruct (reset_conversation_raises w1) as [e He].
  rewrite E in He. discriminate.
Qed.

End RunOutcomes.

(** *** What a request carries of each message *)

Section RequestItems.
Context {svc : Service}.

Lemma rebuild_role_and_content (items : list pyval) :
  (Forall has_role_and_content items ->
   rmap (fun m =>
           let? r := subscript m key_role in
           let? c := subscript m key_content in
           Ok (message_dict r c)) items = Ok (map role_and_content items))
  /\ (forall ds,
        rmap (fun m =>
                let? r := subscript m key_role in
                let? c := subscript m key_content in
                Ok (message_dict r c)) items = Ok ds ->
        Forall has_role_and_content items /\ ds = map role_and_content items).
Proof.
  induction items as [|m items [IH1 IH2]]; split.
  - reflexivity.
  - intros ds H. inversion H. auto.
  - intros H. inversion H as [|? ? (d & r & c & -> & Hr & Hc) Hrest]; subst.
    cbn [rmap subscript role_and_content]. rewrite Hr, Hc. cbn [rbind].
    rewrite (IH1 Hrest). cbn [rbind map role_and_content]. now rewrite Hr, Hc.
  - intros ds. cbn [rmap].
    destruct m as [| | | |l|d|]; try discriminate. cbn [subscript role_and_content].
    destruct (dict_get d key_role) as [r|] eqn:Hr; [|discriminate].
    destruct (dict_get d key_content) as [c|] eqn:Hc; [|discriminate].
    cbn [rbind].
    destruct (rmap _ items) as [ds'|e] eqn:E; [|discriminate].
    cbn [rbind]. intros H. inversion H; subst ds. clear H.
    destruct (IH2 ds' eq_refl) as [HF ->].
    split; [|cbn [map role_and_content]; now rewrite Hr, Hc].
    constructor; [|assumption]. exists d, r, c. auto.
Qed.

(** X18.  The messages of a request are those of the window, each
    reduced to its role and its content: whatever other keys an item of
    the history holds (an uploaded history may hold any), they are not
    sent; the request is built exactly when every item of the window is a
    dict with a role and a content, whatever the items before the window
    are. *)
Theorem request_keeps_role_and_content_only (s : session_state) (l : list pyval) :
  messages s = PList l ->
  let window := slice_from (- history_window s) l in
  (Forall has_role_and_content window ->
   request_messages s = Ok (PList (map role_and_content window)))
  /\ (forall v, request_messages s = Ok v ->
        Forall has_role_and_content window /\ v = PList (map role_and_content window)).
Proof.
  intros Hm window. unfold request_messages. rewrite Hm.
  cbn [py_slice_from rbind py_iter]. fold window.
  destruct (rebuild_role_and_content window) as [H1 H2]. split.
  - intros H. now rewrite (H1 H).
  - intros v. destruct (rmap _ window) as [ds|e] eqn:E; [|discriminate].
    cbn [rbind]. intros H. inversion H; subst v.
    destruct (H2 ds eq_refl) as [HF ->]. auto.
Qed.

End RequestItems.

(** ** Concrete runs, continued *)

Lemma idle_run_keeps_history_witness :
  let w0 := fresh_world (session_of (py "gpt-4o") greeting 7 10) in
  let r := @main toy_tokenizer pong_service python_json (no_prompt true None false) w0 in
  messages (ss (snd r)) = msgs greeting /\ token_count (ss (snd r)) = 7%Z.
Proof.
  intros w0 r.
  exact (@idle_run_keeps_history toy_tokenizer pong_service python_json
           (no_prompt true None false) w0 eq_refl eq_refl eq_refl).
Defined.

Lemma token_count_stays_nonnegative_witness :
  let w0 := fresh_world (session_of (py "gpt-4o") greeting 7 10) in
  (0 <= token_count (ss (snd (@main toy_tokenizer failing_service python_json
                                (submit (py "sk-test") (py "gpt-4o") (py "ping") 10) w0))))%Z.
Proof.
  intros w0.
  apply (@token_count_stays_nonnegative toy_tokenizer failing_service python_json
           (submit (py "sk-test") (py "gpt-4o") (py "ping") 10) w0).
  simpl. lia.
Defined.

Lemma run_adopts_widget_settings_witness :
  settings (ss (snd (@main toy_tokenizer failing_service python_json
                       (submit (py "sk-test") (py "o1-mini") (py "ping") 5)
                       (fresh_world (initial_session None)))))
  = (py "sk-test", py "o1-mini", 1 # 10, 4096%Z, 5%Z).
Proof.
  exact (@run_adopts_widget_settings toy_tokenizer failing_service python_json
           (submit (py "sk-test") (py "o1-mini") (py "ping") 5)
           (fresh_world (initial_session None)) (or_introl eq_refl)).
Defined.

Lemma pending_upload_ends_every_run_witness :
  let w := no_prompt false (Some (py "[]")) true in
  let w0 := fresh_world (session_of (py "gpt-4o") greeting 7 10) in
  (exists e, fst (@main toy_tokenizer pong_service python_json w w0) = Raise e)
  /\ forall b, @main toy_tokenizer pong_service python_json (with_reset b w) w0
               = @main toy_tokenizer pong_service python_json w w0.
Proof.
  intros w w0.
  exact (@pending_upload_ends_every_run toy_tokenizer pong_service python_json w w0 (py "[]") eq_refl).
Defined.

(** The history an upload of [[{"role": "user"}]] leaves behind: the
    next run stops at the display loop, with the reset button clicked or
    not. *)
Lemma malformed_history_blocks_every_run_witness :
  let w0 := fresh_world (set_messages (PList [role_only])
                           (session_of (py "gpt-4o") greeting 7 10)) in
  let r := @main toy_tokenizer pong_service python_json (no_prompt false None true) w0 in
  fst r = Raise KeyError
  /\ messages (ss (snd r)) = PList [role_only]
  /\ token_count (ss (snd r)) = 7%Z
  /\ requests (log (snd r)) = [].
Proof.
  intros w0 r.
  exact (@malformed_history_blocks_every_run toy_tokenizer pong_service python_json
           (no_prompt false None true) w0 [] role_only [] (py "user") KeyError
           (or_intror (or_introl eq_refl)) eq_refl eq_refl eq_refl).
Defined.

Lemma prompt_without_key_is_stranded_witness :
  let r := @main toy_tokenizer pong_service python_json (submit [] (py "gpt-4o") (py "ping") 10)
             (fresh_world (initial_session None)) in
  fst r = Raise NameError
  /\ messages (ss (snd r)) = msgs [user_message (py "ping")]
  /\ token_count (ss (snd r)) = 0%Z.
Proof.
  intros r.
  exact (@prompt_without_key_is_stranded toy_tokenizer pong_service python_json
           (submit [] (py "gpt-4o") (py "ping") 10) (fresh_world (initial_session None))
           [] _ _ eq_refl (or_introl eq_refl) eq_refl eq_refl).
Defined.

Lemma completed_run_keeps_count_exact_witness :
  let w0 := fresh_world (session_of (py "gpt-4o") greeting 7 10) in
  let r := @main toy_tokenizer pong_service python_json
             (submit (py "sk-test") (py "gpt-4o") (py "ping") 10) w0 in
  fst r = Ok tt /\ @counted toy_tokenizer (ss (snd r)) /\ token_count (ss (snd r)) = 15%Z.
Proof.
  intros w0 r. split; [reflexivity|]. split; [|reflexivity].
  apply (@completed_run_keeps_count_exact toy_tokenizer pong_service python_json
           (submit (py "sk-test") (py "gpt-4o") (py "ping") 10) w0 (snd r)).
  - reflexivity.
  - vm_compute. reflexivity.
Defined.

Lemma request_keeps_role_and_content_only_witness :
  let s := set_messages (PList [named_message]) (initial_session None) in
  request_messages s = Ok (PList [user_dict (py "hi")]).
Proof.
  intros s.
  apply (proj1 (request_keeps_role_and_content_only s [named_message] eq_refl)).
  constructor; [|constructor].
  exists [(key_role, PStr (py "user")); (py "name", PStr (py "bob"));
          (key_content, PStr (py "hi"))], (PStr (py "user")), (PStr (py "hi")).
  repeat split.
Defined.

(** *** The characters of the two files *)

Lemma hexdigit_printable n : n < 16 -> printable (hexdigit n).
Proof.
  intros Hn. unfold printable, hexdigit. destruct (n <? 10) eqn:E.
  - apply N.ltb_lt in E. lia.
  - apply N.ltb_ge in E. lia.
Qed.

Lemma mod16_lt n : n mod 16 < 16.
Proof. apply N.mod_lt. discriminate. Qed.

Lemma u_escape_printable c : Forall printable (u_escape c).
Proof.
  unfold u_escape.
  repeat (constructor; [first [apply hexdigit_printable, mod16_lt | unfold printable; lia]|]).
  constructor.
Qed.

Lemma escape_char_printable c : Forall printable (escape_char c).
Proof.
  unfold escape_char.
  repeat match goal with
         | |- Forall printable (if ?b then _ else _) => destruct b eqn:?
         end;
    try (repeat constructor; unfold printable; lia).
  - apply andb_true_iff in Heqb6 as [H1 H2].
    apply N.leb_le in H1, H2. repeat constructor; assumption.
  - apply u_escape_printable.
  - cbv zeta. apply Forall_app. split; apply u_escape_printable.
Qed.

Lemma escape_body_printable s : Forall printable (escape_body s).
Proof.
  unfold escape_body. induction s as [|c s IH]; simpl; [constructor|].
  apply Forall_app. split; [apply escape_char_printable|exact IH].
Qed.

Lemma join_printable sep parts :
  Forall printable sep -> Forall (Forall printable) parts -> Forall printable (join sep parts).
Proof.
  intros Hsep Hp. induction Hp as [|p ps Hp Hps IH]; [constructor|].
  cbn [join]. destruct ps as [|q ps]; [exact Hp|].
  apply Forall_app. split; [exact Hp|]. apply Forall_app. split; [exact Hsep|exact IH].
Qed.

Lemma dumps_msg_printable m : Forall printable (json_dumps (msg m)).
Proof.
  rewrite dumps_msg. unfold msg_open, msg_mid, msg_close.
  repeat (apply Forall_app; split); try apply escape_body_printable;
    repeat constructor; unfold printable; lia.
Qed.

Lemma dumps_msgs_printable ms : Forall printable (json_dumps (msgs ms)).
Proof.
  unfold msgs. cbn [json_dumps]. constructor; [unfold printable; lia|].
  apply Forall_app. split; [|repeat constructor; unfold printable; lia].
  apply join_printable.
  - assert (py ", " = [44; 32]) as -> by reflexivity. repeat constructor; unfold printable; lia.
  - rewrite map_map. apply Forall_map. apply Forall_forall. intros m _.
    apply dumps_msg_printable.
Qed.

Lemma utf8_char_bytes c b : utf8_char c = Ok b -> Forall (fun x => x < 256) b.
Proof.
  unfold utf8_char.
  pose proof (N.mod_lt c 64 ltac:(discriminate)).
  pose proof (N.mod_lt (c / 64) 64 ltac:(discriminate)).
  pose proof (N.mod_lt (c / 4096) 64 ltac:(discriminate)).
  destruct (c <? 128) eqn:E1.
  { apply N.ltb_lt in E1. intros H'. inversion H'. repeat constructor. lia. }
  destruct (c <? 2048) eqn:E2.
  { apply N.ltb_lt in E2. intros H'. inversion H'.
    assert (c / 64 < 32) by (apply N.Div0.div_lt_upper_bound; lia).
    repeat constructor; lia. }
  destruct (is_surrogate c); [discriminate|].
  destruct (c <? 65536) eqn:E3.
  { apply N.ltb_lt in E3. intros H'. inversion H'.
    assert (c / 4096 < 16) by (apply N.Div0.div_lt_upper_bound; lia).
    repeat constructor; lia. }
  destruct (c <=? 1114111) eqn:E4; [|discriminate].
  apply N.leb_le in E4. intros H'. inversion H'.
  assert (c / 262144 < 5) by (apply N.Div0.div_lt_upper_bound; lia).
  repeat constructor; lia.
Qed.

Lemma str_encode_bytes s : forall b, str_encode s = Ok b -> Forall (fun x => x < 256) b.
Proof.
  induction s as [|c s IH]; intros b; simpl.
  - intros H. inversion H. constructor.
  - destruct (utf8_char c) as [b1|e] eqn:E1; [|discriminate]. simpl.
    destruct (str_encode s) as [b2|e]; [|discriminate]. simpl.
    intros H. inversion H. apply Forall_app. split; eauto using utf8_char_bytes.
Qed.

Lemma repr_byte_printable q c :
  q = 34 \/ q = 39 -> c < 256 -> Forall printable (repr_byte q c).
Proof.
  intros Hq Hc. unfold repr_byte.
  repeat match goal with
         | |- Forall printable (if ?b then _ else _) => destruct b eqn:?
         end.
  - apply orb_true_iff in Heqb as [H|H]; apply N.eqb_eq in H;
      repeat constructor; unfold printable; lia.
  - repeat constructor; unfold printable; lia.
  - repeat constructor; unfold printable; lia.
  - repeat constructor; unfold printable; lia.
  - assert (c / 16 < 16) by (apply N.Div0.div_lt_upper_bound; lia).
    repeat (constructor; [first [apply hexdigit_printable; assumption
                                | apply hexdigit_printable, mod16_lt
                                | unfold printable; lia]|]).
    constructor.
  - apply orb_false_iff in Heqb3 as [H1 H2].
    apply N.ltb_ge in H1. apply N.leb_gt in H2.
    repeat constructor; lia.
Qed.

Lemma bytes_repr_printable b : Forall (fun x => x < 256) b -> Forall printable (bytes_repr b).
Proof.
  intros Hb. unfold bytes_repr.
  set (q := if existsb (N.eqb 39) b && negb (existsb (N.eqb 34) b) then 34 else 39).
  assert (q = 34 \/ q = 39) as Hq by (unfold q; destruct (_ && _); auto).
  cbv zeta. constructor; [unfold printable; lia|].
  constructor; [unfold printable; lia|].
  apply Forall_app. split; [|repeat constructor; unfold printable; lia].
  clearbody q. induction Hb as [|c b Hc Hb IH]; simpl; [constructor|].
  apply Forall_app. split; [apply repr_byte_printable; assumption|exact IH].
Qed.

(** X19.  The JSON file of a save is plain ASCII on a single line:
    whatever the roles and contents hold (line feeds, quotes, text
    outside ASCII), every character written is a printable ASCII
    character, and this whether or not the save then completes. *)
Theorem saved_json_is_one_ascii_line (ts : pystr) (w : world) (ms : list Message) :
  messages (ss w) = msgs ms ->
  exists text,
    fs (snd (save_chat_history ts w)) !! json_filename ts = Some text
    /\ Forall printable text.
Proof.
  intros Hm. exists (json_dumps (msgs ms)). split.
  - destruct (save_json_written ts w) as [Hj _]. rewrite <- Hm. exact Hj.
  - apply dumps_msgs_printable.
Qed.

(** X20.  In the Markdown block of a message everything between the
    role prefix and the closing blank line is printable ASCII: a line
    feed of the content is written as an escape and never breaks the
    line, and text outside ASCII is written as the escapes of its UTF-8
    bytes. *)
Theorem markdown_content_is_printable (m : Message) (block : pystr) :
  markdown_line (msg m) = Ok block ->
  exists cap literal,
    capitalize (role m) = Ok cap
    /\ block = py "**" ++ cap ++ py ":** " ++ literal ++ [10; 10]
    /\ Forall printable literal.
Proof.
  rewrite markdown_line_msg.
  destruct (capitalize (role m)) as [cap|e]; [|discriminate]. simpl.
  destruct (str_encode (content m)) as [b|e] eqn:Eb; [|discriminate]. simpl.
  intros H. inversion H. exists cap, (bytes_repr b). repeat split.
  apply bytes_repr_printable. eapply str_encode_bytes; eauto.
Qed.

(** *** Messages that cannot be counted, and the totals shown *)

Lemma mbind_ok_inv {A B} (c : M A) (k : A -> M B) w b w' :
  mbind c k w = (Ok b, w') -> exists a w1, c w = (Ok a, w1) /\ k a w1 = (Ok b, w').
Proof.
  unfold mbind. destruct (c w) as [[a|e] w1]; [eauto|discriminate].
Qed.

Section Counting.
Context {tok : Tokenizer} {svc : Service} {dec : Decoder}.

Lemma sum_tokens_raises (l : list pyval) (m c : pyval) (e0 : exn) :
  In m l -> subscript m key_content = Ok c -> count_tokens c default_model = Raise e0 ->
  forall rest, exists e, sum_tokens (l ++ rest) = Raise e.
Proof.
  intros Hin Hc Hn rest. induction l as [|a l IH]; [destruct Hin|].
  cbn [app sum_tokens].
  destruct Hin as [->|Hin].
  - rewrite Hc. cbn [rbind]. rewrite Hn. simpl. eauto.
  - destruct (subscript a key_content) as [ca|e]; [|simpl; eauto]. cbn [rbind].
    destruct (count_tokens ca default_model) as [n|e]; [|simpl; eauto]. cbn [rbind].
    destruct (IH Hin) as [e ->]. simpl. eauto.
Qed.

(** X21.  A message whose content cannot be counted (a content that is
    not a string, a text the tokenizer refuses) blocks every later turn:
    whatever the prompt and whatever the service answers, the turn ends
    with an exception and [token_count] keeps its value. *)
Theorem uncountable_message_fails_every_turn (client : option pystr) (prompt : pystr)
    (w : world) (l : list pyval) (m c : pyval) (e0 : exn) :
  messages (ss w) = PList l ->
  In m l ->
  subscript m key_content = Ok c ->
  count_tokens c default_model = Raise e0 ->
  (exists e, fst (chat_turn client prompt w) = Raise e)
  /\ token_count (ss (snd (chat_turn client prompt w))) = token_count (ss w).
Proof.
  intros Hm Hin Hc Hn.
  destruct (fst (assistant_reply client (after_prompt prompt l w))) as [full|e] eqn:E.
  - rewrite (chat_turn_after_reply _ _ _ _ _ Hm E). cbv zeta.
    destruct (sum_tokens_raises l m c e0 Hin Hc Hn
                [user_dict prompt; assistant_dict full]) as [e He].
    unfold total_tokens. cbn [py_iter rbind]. rewrite He. simpl. eauto.
  - rewrite (chat_turn_failed _ _ _ _ _ Hm E). cbn [fst snd].
    destruct (assistant_reply_frame client (after_prompt prompt l w)) as [-> _].
    split; [eauto|reflexivity].
Qed.

Lemma tail_keeps_totals (w : widgets) (w1 w' : world) :
  (when (save_clicked w)
     (let! names := save_chat_history (timestamp w) in
      emit (SavedAs (fst names) (snd names))) ;;
   match uploaded_file w with
   | Some text => load_uploaded text
   | None => mret tt
   end ;;
   when (reset_clicked w) reset_conversation) w1 = (Ok tt, w') ->
  ss w' = ss w1 /\ exists l, log w' = log w1 ++ l.
Proof.
  intros E.
  apply mbind_ok_inv in E as ([] & w2 & E1 & E).
  apply mbind_ok_inv in E as ([] & w3 & E2 & E3).
  assert (ss w2 = ss w1 /\ exists l, log w2 = log w1 ++ l) as [Hs2 [l2 Hl2]].
  { destruct (save_clicked w); cbn [when] in E1.
    - apply mbind_ok_inv in E1 as (names & wa & Ea & Eb).
      destruct (save_frame (timestamp w) w1) as (Hs & Hl & _). rewrite Ea in Hs, Hl.
      cbn [snd] in Hs, Hl. inversion Eb; subst w2. cbn [ss log]. rewrite Hl. eauto.
    - inversion E1; subst w2. split; [reflexivity|]. exists []. now rewrite app_nil_r. }
  assert (w3 = w2) as ->.
  { destruct (uploaded_file w) as [text|]; [|now inversion E2].
    destruct (load_uploaded_raises text w2) as [e He]. rewrite E2 in He. discriminate. }
  assert (w' = w2) as ->.
  { destruct (reset_clicked w); cbn [when] in E3; [|now inversion E3].
    destruct (reset_conversation_raises w2) as [e He]. rewrite E3 in He. discriminate. }
  eauto.
Qed.

(** X22.  In a run that reaches its end the totals shown in the sidebar
    are those of the session as the run leaves it: the number of
    messages of the history and its [token_count], a turn completed in
    the same run included. *)
Theorem totals_shown_are_current (w : widgets) (w0 w' : world) :
  main w w0 = (Ok tt, w') ->
  exists n,
    py_len (messages (ss w')) = Ok n
    /\ In (SidebarTotals n (token_count (ss w'))) (log w').
Proof.
  unfold main. intros E.
  apply mbind_ok_inv in E as ([] & w1 & _ & E).
  apply mbind_ok_inv in E as (client & w2 & _ & E).
  apply mbind_ok_inv in E as ([] & w3 & _ & E).
  apply mbind_ok_inv in E as ([] & w4 & _ & E).
  apply mbind_ok_inv in E as ([] & w5 & _ & E).
  apply mbind_ok_inv in E as ([] & w6 & Et & E).
  apply tail_keeps_totals in E as [Hs [l Hl]].
  unfold sidebar_totals in Et. revert Et. run.
  destruct (py_len (messages (ss w5))) as [n|e] eqn:En; [|discriminate].
  unfold emit. intros Et. inversion Et; subst w6. cbn [ss log] in *.
  exists n. rewrite Hs, Hl. split; [exact En|].
  apply in_or_app. left. apply in_or_app. right. now left.
Qed.

End Counting.

(** ** Concrete runs, the last ones *)

Lemma saved_json_is_one_ascii_line_witness :
  let w := fresh_world (session_of (py "gpt-4o") mixed_history 0 10) in
  let ts := py "20240101_120000" in
  exists text,
    fs (snd (save_chat_history ts w)) !! json_filename ts = Some text
    /\ Forall printable text.
Proof.
  intros w ts. exact (saved_json_is_one_ascii_line ts w mixed_history eq_refl).
Defined.

Lemma markdown_content_is_printable_witness :
  let m := user_message [104; 233; 34; 10; 128512] in
  exists cap literal,
    capitalize (role m) = Ok cap
    /\ py "**User:** b'h\xc3\xa9" ++ [34] ++ py "\n\xf0\x9f\x98\x80'" ++ [10; 10]
       = py "**" ++ cap ++ py ":** " ++ literal ++ [10; 10]
    /\ Forall printable literal.
Proof.
  intros m.
  exact (markdown_content_is_printable m
           (py "**User:** b'h\xc3\xa9" ++ [34] ++ py "\n\xf0\x9f\x98\x80'" ++ [10; 10])
           eq_refl).
Defined.

(** A history that holds the text of a special token: the turn is
    answered, and fails at the count. *)
Lemma uncountable_message_fails_every_turn_witness :
  let w := fresh_world (session_of (py "gpt-4o") [assistant_message end_of_text] 0 10) in
  let r := @chat_turn strict_tokenizer pong_service (Some (py "sk-test")) (py "ping") w in
  (exists e, fst r = Raise e) /\ token_count (ss (snd r)) = 0%Z.
Proof.
  intros w r.
  exact (@uncountable_message_fails_every_turn strict_tokenizer pong_service
           (Some (py "sk-test")) (py "ping") w [msg (assistant_message end_of_text)]
           (msg (assistant_message end_of_text)) (PStr end_of_text) ValueError
           eq_refl (or_introl eq_refl) eq_refl eq_refl).
Defined.

Lemma totals_shown_are_current_witness :
  let w0 := fresh_world (session_of (py "gpt-4o") greeting 7 10) in
  let r := @main toy_tokenizer pong_service python_json
             (submit (py "sk-test") (py "gpt-4o") (py "ping") 10) w0 in
  exists n,
    py_len (messages (ss (snd r))) = Ok n
    /\ In (SidebarTotals n (token_count (ss (snd r)))) (log (snd r)).
Proof.
  intros w0 r.
  apply (@totals_shown_are_current toy_tokenizer pong_service python_json
           (submit (py "sk-test") (py "gpt-4o") (py "ping") 10) w0 (snd r)).
  vm_compute. reflexivity.
Defined.
